(** * Flash-memory-cards: a shallow embedding of the study application

    The development follows the TypeScript sources:
    - [hooks/useLocalStorage.ts]   the storage adapter (module [Hook]);
    - [pages/Index.tsx]            the card repository (module [Index]);
    - [components/CreateFlashcard.tsx] the creation form (module [CreateFlashcard]);
    - [components/StudyMode.tsx]   the study session (module [StudyMode]);
    - [components/Analytics.tsx]   the statistics (module [Analytics]).

    Platform behaviour the sources rely on (JSON.stringify / JSON.parse,
    Date.prototype.toISOString, new Date(string), new Set(iterable),
    Array.prototype.sort, React's mount effects and timers) is modelled
    after ECMA-262 and the React documentation, in the modules [Js],
    [JsDate], [Json], [Storage] and [Runtime]. [Spec] holds the wording
    of the specification where it is compared with the code, [Sample]
    the concrete sessions that the examples run.

    Numbers are integers ([Z]); strings are [string], one character per
    code unit below 256. The clock ([Date.now]) and the draws of
    [Math.random] are inputs of the handlers. *)

From Stdlib Require Import ZArith List String Ascii Bool Lia.
From Stdlib Require Import Sorting.Sorted Sorting.Permutation.
From Stdlib Require Structures.OrderedTypeEx.
From stdpp Require Import gmap strings.
Import ListNotations.

Local Open Scope string_scope.
Local Open Scope list_scope.
Local Open Scope Z_scope.

Set Warnings "-register-all".

(** ** Decimal fields of fixed width *)

Module Digits.

Definition digit_char (d : Z) : ascii := ascii_of_nat (48 + Z.to_nat d).

Definition digit_val (c : ascii) : option Z :=
  let n := Z.of_nat (nat_of_ascii c) in
  if (48 <=? n) && (n <=? 57) then Some (n - 48) else None.

(** [pad w n]: the [w] low decimal digits of [n], most significant first. *)
Fixpoint pad (w : nat) (n : Z) : string :=
  match w with
  | O => EmptyString
  | S k => String (digit_char ((n / 10 ^ Z.of_nat k) mod 10)) (pad k n)
  end.

(** [read_digits w acc s]: reads exactly [w] decimal digits off [s]. *)
Fixpoint read_digits (w : nat) (acc : Z) (s : string) : option (Z * string) :=
  match w with
  | O => Some (acc, s)
  | S k =>
      match s with
      | String c r =>
          match digit_val c with
          | Some d => read_digits k (acc * 10 + d) r
          | None => None
          end
      | EmptyString => None
      end
  end.

Definition expect (c : ascii) (s : string) : option string :=
  match s with
  | String c' r => if Ascii.eqb c c' then Some r else None
  | EmptyString => None
  end.

End Digits.

(** ** Time values and ISO date strings (ECMA-262, Date objects)

    A time value is a number of milliseconds since the epoch. The
    definitions keep the names of the abstract operations of ECMA-262;
    [YearFromDay] computes the year that the standard characterises as
    the largest [y] with [DayFromYear y <= Day t]. *)

Module JsDate.
Import Digits.

Definition msPerDay : Z := 86400000.
Definition msPerHour : Z := 3600000.
Definition msPerMinute : Z := 60000.
Definition msPerSecond : Z := 1000.
Definition maxTime : Z := 8640000000000000.

Definition Day (t : Z) : Z := t / msPerDay.
Definition TimeWithinDay (t : Z) : Z := t mod msPerDay.

Definition DaysInYear (y : Z) : Z :=
  if negb (y mod 4 =? 0) then 365
  else if negb (y mod 100 =? 0) then 366
  else if negb (y mod 400 =? 0) then 365
  else 366.

Definition DayFromYear (y : Z) : Z :=
  365 * (y - 1970) + (y - 1969) / 4 - (y - 1901) / 100 + (y - 1601) / 400.

Definition YearFromDay (d : Z) : Z :=
  let y0 := 1970 + (400 * d) / 146097 in
  if d <? DayFromYear y0 then y0 - 1
  else if DayFromYear (y0 + 1) <=? d then y0 + 1
  else y0.

Definition YearFromTime (t : Z) : Z := YearFromDay (Day t).
Definition InLeapYear (t : Z) : Z := DaysInYear (YearFromTime t) - 365.
Definition DayWithinYear (t : Z) : Z := Day t - DayFromYear (YearFromTime t).

(** First day (within the year) of month [m], months counted from 0. *)
Definition monthStart (m leap : Z) : Z :=
  match m with
  | 0 => 0 | 1 => 31 | 2 => 59 + leap | 3 => 90 + leap | 4 => 120 + leap
  | 5 => 151 + leap | 6 => 181 + leap | 7 => 212 + leap | 8 => 243 + leap
  | 9 => 273 + leap | 10 => 304 + leap | 11 => 334 + leap
  | _ => 365 + leap
  end.

Definition monthOfDay (d leap : Z) : Z :=
  if d <? 31 then 0
  else if d <? 59 + leap then 1
  else if d <? 90 + leap then 2
  else if d <? 120 + leap then 3
  else if d <? 151 + leap then 4
  else if d <? 181 + leap then 5
  else if d <? 212 + leap then 6
  else if d <? 243 + leap then 7
  else if d <? 273 + leap then 8
  else if d <? 304 + leap then 9
  else if d <? 334 + leap then 10
  else 11.

Definition MonthFromTime (t : Z) : Z := monthOfDay (DayWithinYear t) (InLeapYear t).

Definition DateFromTime (t : Z) : Z :=
  DayWithinYear t - monthStart (MonthFromTime t) (InLeapYear t) + 1.

Definition HourFromTime (t : Z) : Z := (t / msPerHour) mod 24.
Definition MinFromTime (t : Z) : Z := (t / msPerMinute) mod 60.
Definition SecFromTime (t : Z) : Z := (t / msPerSecond) mod 60.
Definition msFromTime (t : Z) : Z := t mod msPerSecond.

Definition MakeTime (h m s ms : Z) : Z :=
  h * msPerHour + m * msPerMinute + s * msPerSecond + ms.

Definition MakeDay (year month date : Z) : Z :=
  let ym := year + month / 12 in
  let mn := month mod 12 in
  DayFromYear ym + monthStart mn (DaysInYear ym - 365) + date - 1.

Definition MakeDate (day time : Z) : Z := day * msPerDay + time.

(** [TimeClip]: [None] stands for NaN, the time value of an Invalid Date. *)
Definition TimeClip (t : Z) : option Z :=
  if Z.abs t <=? maxTime then Some t else None.

Definition DaysInMonth (year month : Z) : Z :=
  monthStart (month + 1) (DaysInYear year - 365)
  - monthStart month (DaysInYear year - 365).

(** Date.prototype.toISOString, for a valid time value: four-digit years
    from 0 to 9999, a sign and six digits otherwise. *)
Definition yearString (y : Z) : string :=
  if (0 <=? y) && (y <=? 9999) then pad 4 y
  else String (if y <? 0 then "-"%char else "+"%char) (pad 6 (Z.abs y)).

Definition toISOString (t : Z) : string :=
  yearString (YearFromTime t) +:+ "-" +:+ pad 2 (MonthFromTime t + 1)
  +:+ "-" +:+ pad 2 (DateFromTime t)
  +:+ "T" +:+ pad 2 (HourFromTime t)
  +:+ ":" +:+ pad 2 (MinFromTime t)
  +:+ ":" +:+ pad 2 (SecFromTime t)
  +:+ "." +:+ pad 3 (msFromTime t) +:+ "Z".

(** The year of a date-time string: [YYYY], [+YYYYYY] or [-YYYYYY]
    (the latter not for year 0). *)
Definition read_year (s : string) : option (Z * string) :=
  match read_digits 4 0 s with
  | Some r => Some r
  | None =>
      match s with
      | String c r =>
          if Ascii.eqb c "+" then read_digits 6 0 r
          else if Ascii.eqb c "-" then
            match read_digits 6 0 r with
            | Some (y, r') => if y =? 0 then None else Some (- y, r')
            | None => None
            end
          else None
      | EmptyString => None
      end
  end.

(** Date.parse on the date-time form that [toISOString] produces,
    [YYYY-MM-DDTHH:mm:ss.sssZ]; illegal element values give NaN.
    The other forms that Date.parse accepts (date only, offsets,
    implementation-defined fallbacks) are outside this model and read
    as NaN here. *)
Definition parse (s : string) : option Z :=
  '(y, s) ← read_year s;
  s ← expect "-" s;
  '(mo, s) ← read_digits 2 0 s;
  s ← expect "-" s;
  '(d, s) ← read_digits 2 0 s;
  s ← expect "T" s;
  '(h, s) ← read_digits 2 0 s;
  s ← expect ":" s;
  '(mi, s) ← read_digits 2 0 s;
  s ← expect ":" s;
  '(sec, s) ← read_digits 2 0 s;
  s ← expect "." s;
  '(ms, s) ← read_digits 3 0 s;
  s ← expect "Z" s;
  if (s =? EmptyString)%string
     && (1 <=? mo) && (mo <=? 12) && (1 <=? d) && (d <=? DaysInMonth y (mo - 1))
     && (h <=? 23) && (mi <=? 59) && (sec <=? 59)
  then TimeClip (MakeDate (MakeDay y (mo - 1) d) (MakeTime h mi sec ms))
  else None.

Arguments toISOString : simpl never.
Arguments parse : simpl never.

End JsDate.

(** ** Runtime values, exceptions and JSON documents *)

Module Js.

(** The values the application handles at run time. A [VObj] is a plain
    object (own enumerable properties, in insertion order); [VDate] is a
    Date with its time value ([None] for an Invalid Date); [VSet] is a
    native Set, elements in insertion order. *)
Inductive Value : Type :=
| VUndefined
| VNull
| VBool (b : bool)
| VNum (n : Z)
| VStr (s : string)
| VArr (xs : list Value)
| VObj (props : list (string * Value))
| VDate (tv : option Z)
| VSet (elems : list Value).

Inductive Error : Type :=
| TypeError (msg : string)
| SyntaxError (msg : string)
| DOMException (msg : string).

Inductive Result (A : Type) : Type :=
| Ok (a : A)
| Throw (e : Error).
Arguments Ok {A} a.
Arguments Throw {A} e.

(** Property read [o.k] on a plain object. *)
Fixpoint getProp (k : string) (props : list (string * Value)) : Value :=
  match props with
  | [] => VUndefined
  | (k', v) :: r => if String.eqb k k' then v else getProp k r
  end.

(** Property write on an object literal, as in [{...o, [k]: v}]: an
    existing key keeps its place, a new one goes last. *)
Fixpoint setProp {A : Type} (k : string) (v : A) (props : list (string * A))
  : list (string * A) :=
  match props with
  | [] => [(k, v)]
  | (k', v') :: r =>
      if String.eqb k k' then (k, v) :: r else (k', v') :: setProp k v r
  end.

(** How a runtime value reads at a declared TypeScript type. The types
    are erased at run time, so a value read back from storage is used
    at the declared type without any check; [ofValue] is [None] on
    the values that have another shape. *)
Class Shape (T : Type) : Type := {
  toValue : T -> Value;
  ofValue : Value -> option T
}.

#[export] Instance Shape_number : Shape Z := {|
  toValue := VNum;
  ofValue v := match v with VNum n => Some n | _ => None end
|}.

#[export] Instance Shape_string : Shape string := {|
  toValue := VStr;
  ofValue v := match v with VStr s => Some s | _ => None end
|}.

#[export] Instance Shape_boolean : Shape bool := {|
  toValue := VBool;
  ofValue v := match v with VBool b => Some b | _ => None end
|}.

#[export] Instance Shape_array {T : Type} `{Shape T} : Shape (list T) := {|
  toValue l := VArr (map toValue l);
  ofValue v := match v with VArr xs => mapM ofValue xs | _ => None end
|}.

(** [Array.from(new Set(xs))] on strings: the first occurrence of each
    element, in order of appearance. *)
Fixpoint uniqueInto (seen xs : list string) : list string :=
  match xs with
  | [] => seen
  | x :: r => uniqueInto (if bool_decide (x ∈ seen) then seen else seen ++ [x]) r
  end.

Definition unique (xs : list string) : list string := uniqueInto [] xs.

(** [Array.prototype.sort()] without a comparison function, on strings:
    ascending by code units, a proper prefix first. *)
Fixpoint insertString (x : string) (l : list string) : list string :=
  match l with
  | [] => [x]
  | y :: r =>
      match String.compare x y with
      | Gt => y :: insertString x r
      | _ => x :: y :: r
      end
  end.

Fixpoint sortStrings (l : list string) : list string :=
  match l with
  | [] => []
  | x :: r => insertString x (sortStrings r)
  end.

(** The order of that sort: [a] is not after [b]. *)
Definition precedes (a b : string) : Prop := String.compare a b <> Gt.

(** The property names that every plain object inherits from
    [Object.prototype]: [{}[name]] is not [undefined] for them. *)
Definition inheritedName (name : string) : bool :=
  bool_decide
    (name ∈ ["constructor"; "__defineGetter__"; "__defineSetter__";
             "hasOwnProperty"; "__lookupGetter__"; "__lookupSetter__";
             "isPrototypeOf"; "propertyIsEnumerable"; "toString"; "valueOf";
             "__proto__"; "toLocaleString"]).

End Js.

Module Json.
Import Js.

(** A JSON document, the content of a well-formed JSON text. *)
Inductive Doc : Type :=
| JNull
| JBool (b : bool)
| JNum (n : Z)
| JStr (s : string)
| JArr (xs : list Doc)
| JObj (props : list (string * Doc)).

(** JSON.stringify. The result is [None] where JavaScript returns
    [undefined]. A Date serialises through [toJSON] (its ISO string, or
    null when invalid); a Set has no enumerable own property and
    serialises as the empty object; an [undefined] property is left
    out, an [undefined] array element becomes null. *)
Fixpoint stringify (v : Value) : option Doc :=
  match v with
  | VUndefined => None
  | VNull => Some JNull
  | VBool b => Some (JBool b)
  | VNum n => Some (JNum n)
  | VStr s => Some (JStr s)
  | VArr xs =>
      Some (JArr (map (fun x => match stringify x with
                                | Some j => j
                                | None => JNull
                                end) xs))
  | VObj props =>
      Some (JObj ((fix members (ps : list (string * Value)) : list (string * Doc) :=
                     match ps with
                     | [] => []
                     | (k, x) :: r =>
                         match stringify x with
                         | Some j => (k, j) :: members r
                         | None => members r
                         end
                     end) props))
  | VDate (Some t) => Some (JStr (JsDate.toISOString t))
  | VDate None => Some JNull
  | VSet _ => Some (JObj [])
  end.

(** The value JSON.parse builds from a document. *)
Fixpoint revive (j : Doc) : Value :=
  match j with
  | JNull => VNull
  | JBool b => VBool b
  | JNum n => VNum n
  | JStr s => VStr s
  | JArr xs => VArr (map revive xs)
  | JObj props =>
      VObj ((fix members (ps : list (string * Doc)) : list (string * Value) :=
               match ps with
               | [] => []
               | (k, x) :: r => (k, revive x) :: members r
               end) props)
  end.

(** A string kept in the storage medium: the text of a JSON document,
    or text that is not JSON ([Raw], for instance the string "undefined"
    that [setItem (key, undefined)] stores). Printing a document to text
    and reading it back is taken as the identity on documents. *)
Inductive Text : Type :=
| Wellformed (j : Doc)
| Raw (s : string).

Definition text_of (r : option Doc) : Text :=
  match r with
  | Some j => Wellformed j
  | None => Raw "undefined"
  end.

(** Truthiness of a string: every string but the empty one. *)
Definition truthy (t : Text) : bool :=
  match t with
  | Wellformed _ => true
  | Raw s => negb (s =? EmptyString)%string
  end.

Definition parse (t : Text) : Result Value :=
  match t with
  | Wellformed j => Ok (revive j)
  | Raw _ => Throw (SyntaxError "Unexpected token")
  end.

End Json.

(** ** window.localStorage *)

Module Storage.
Import Js Json.

(** The medium: its entries, and whether reads or writes currently
    fail (access denied, quota exceeded). *)
Record t : Type := {
  items : gmap string Text;
  readFails : bool;
  writeFails : bool
}.

Definition empty : t :=
  {| items := ∅; readFails := false; writeFails := false |}.

Definition getItem (ls : t) (key : string) : Result (option Text) :=
  if readFails ls then Throw (DOMException "SecurityError")
  else Ok (items ls !! key).

Definition setItem (ls : t) (key : string) (text : Text) : Result t :=
  if writeFails ls then Throw (DOMException "QuotaExceededError")
  else Ok {| items := <[key := text]> (items ls);
             readFails := readFails ls; writeFails := writeFails ls |}.

Definition removeItem (ls : t) (key : string) : Result t :=
  if writeFails ls then Throw (DOMException "SecurityError")
  else Ok {| items := delete key (items ls);
             readFails := readFails ls; writeFails := writeFails ls |}.

End Storage.

(** ** hooks/useLocalStorage.ts *)

Module Hook.
Import Js Json.

(** The initialiser of [useState] in [useLocalStorage]:
    [item ? JSON.parse(item) : initialValue] under try/catch. *)
Definition readStored (ls : Storage.t) (key : string) (initialValue : Value) : Value :=
  match Storage.getItem ls key with
  | Ok (Some item) =>
      if truthy item then
        match parse item with
        | Ok v => v
        | Throw _ => initialValue
        end
      else initialValue
  | Ok None => initialValue
  | Throw _ => initialValue
  end.

(** [useLocalStorage<T>(key, initialValue)] at mount: the stored value
    read at type [T]. *)
Definition useLocalStorage {T : Type} `{Shape T}
    (ls : Storage.t) (key : string) (initialValue : T) : option T :=
  ofValue (readStored ls key (toValue initialValue)).

(** The argument of [setValue]: a value or an updater function. *)
Inductive Update (T : Type) : Type :=
| Put (v : T)
| Apply (f : T -> Result T).
Arguments Put {T} v.
Arguments Apply {T} f.

(** [setValue]: computes the value, sets the state, then writes the
    medium; an exception at any step is caught and logged, and the
    steps before it stay done. Returns the state and the medium. *)
Definition setValue {T : Type} `{Shape T}
    (ls : Storage.t) (key : string) (storedValue : T) (value : Update T)
  : T * Storage.t :=
  let valueToStore :=
    match value with
    | Put v => Ok v
    | Apply f => f storedValue
    end in
  match valueToStore with
  | Throw _ => (storedValue, ls)
  | Ok v =>
      match Storage.setItem ls key (text_of (stringify (toValue v))) with
      | Ok ls' => (v, ls')
      | Throw _ => (v, ls)
      end
  end.

Definition clearLocalStorage (ls : Storage.t) (key : string) : Storage.t :=
  match Storage.removeItem ls key with
  | Ok ls' => ls'
  | Throw _ => ls
  end.

End Hook.

(** ** The data model: [interface Flashcard] *)

Module Card.
Import Js.

(** The run-time content of the optional field [lastReviewed?: Date]:
    absent, a Date, or, in a card read back from storage, the string
    (or null) that JSON left in its place. *)
Inductive LastReviewed : Type :=
| Absent
| ADate (tv : option Z)
| AString (s : string)
| ANull.

Record Flashcard : Type := {
  id : string;
  question : string;
  answer : string;
  tags : list string;
  mastered : bool;
  reviewCount : Z;
  lastReviewed : LastReviewed
}.

Definition lastReviewed_value (l : LastReviewed) : Value :=
  match l with
  | Absent => VUndefined
  | ADate tv => VDate tv
  | AString s => VStr s
  | ANull => VNull
  end.

Definition lastReviewed_of (v : Value) : option LastReviewed :=
  match v with
  | VUndefined => Some Absent
  | VDate tv => Some (ADate tv)
  | VStr s => Some (AString s)
  | VNull => Some ANull
  | _ => None
  end.

#[export] Instance Shape_Flashcard : Shape Flashcard := {|
  toValue c :=
    VObj [("question", toValue (question c)); ("answer", toValue (answer c));
          ("tags", toValue (tags c)); ("mastered", toValue (mastered c));
          ("reviewCount", toValue (reviewCount c)); ("id", toValue (id c));
          ("lastReviewed", lastReviewed_value (lastReviewed c))];
  ofValue v :=
    match v with
    | VObj ps =>
        i ← ofValue (getProp "id" ps);
        q ← ofValue (getProp "question" ps);
        a ← ofValue (getProp "answer" ps);
        t ← ofValue (getProp "tags" ps);
        m ← ofValue (getProp "mastered" ps);
        n ← ofValue (getProp "reviewCount" ps);
        l ← lastReviewed_of (getProp "lastReviewed" ps);
        Some {| id := i; question := q; answer := a; tags := t;
                mastered := m; reviewCount := n; lastReviewed := l |}
    | _ => None
    end
|}.

(** [{...card, mastered, reviewCount, lastReviewed}] *)
Definition reviewed (card : Flashcard) (m : bool) (n : Z) (l : LastReviewed)
  : Flashcard :=
  {| id := id card; question := question card; answer := answer card;
     tags := tags card; mastered := m; reviewCount := n; lastReviewed := l |}.

(** [{...card, lastReviewed}] *)
Definition with_lastReviewed (card : Flashcard) (l : LastReviewed) : Flashcard :=
  reviewed card (mastered card) (reviewCount card) l.

(** A card as the data model has it: [lastReviewed] is absent or a
    Date with a time value in the range of Date. *)
Definition wellTyped (card : Flashcard) : Prop :=
  match lastReviewed card with
  | Absent => True
  | ADate (Some t) => Z.abs t <= JsDate.maxTime
  | _ => False
  end.

(** A card as JSON.parse returns it after JSON.stringify: the Date has
    become its ISO string (null for an Invalid Date). *)
Definition asStored (card : Flashcard) : Flashcard :=
  with_lastReviewed card
    match lastReviewed card with
    | ADate (Some t) => AString (JsDate.toISOString t)
    | ADate None => ANull
    | l => l
    end.

End Card.

(** ** The state of the application *)

Module App.
Import Js Card.

Inductive View : Type := home | create | study | analytics.

(** The value held under ['study-reviewed-cards'], declared
    [Set<string>]: a native Set, or the plain object that JSON.parse
    returns for a stored object. *)
Inductive Reviewed : Type :=
| NativeSet (ids : list string)
| PlainObject (props : list (string * Value)).

#[export] Instance Shape_Reviewed : Shape Reviewed := {|
  toValue r :=
    match r with
    | NativeSet ids => VSet (map VStr ids)
    | PlainObject props => VObj props
    end;
  ofValue v :=
    match v with
    | VSet xs => NativeSet <$> mapM ofValue xs
    | VObj props => Some (PlainObject props)
    | _ => None
    end
|}.

Record Progress : Type := { reviewedAt : Z; nowMastered : bool }.

#[export] Instance Shape_Progress : Shape Progress := {|
  toValue p := VObj [("reviewedAt", VNum (reviewedAt p));
                     ("mastered", VBool (nowMastered p))];
  ofValue v :=
    match v with
    | VObj ps =>
        r ← ofValue (getProp "reviewedAt" ps);
        m ← ofValue (getProp "mastered" ps);
        Some {| reviewedAt := r; nowMastered := m |}
    | _ => None
    end
|}.

Record Session : Type := {
  startTime : Z;
  cardsReviewed : Z;
  sessionProgress : list (string * Progress)
}.

#[export] Instance Shape_Session : Shape Session := {|
  toValue s :=
    VObj [("startTime", VNum (startTime s));
          ("cardsReviewed", VNum (cardsReviewed s));
          ("sessionProgress",
           VObj (map (fun kp => (fst kp, toValue (snd kp))) (sessionProgress s)))];
  ofValue v :=
    match v with
    | VObj ps =>
        st ← ofValue (getProp "startTime" ps);
        n ← ofValue (getProp "cardsReviewed" ps);
        sp ← match getProp "sessionProgress" ps with
             | VObj qs => mapM (fun kv => p ← ofValue (snd kv); Some (fst kv, p)) qs
             | _ => None
             end;
        Some {| startTime := st; cardsReviewed := n; sessionProgress := sp |}
    | _ => None
    end
|}.

(** The state of the StudyMode component. *)
Record StudyState : Type := {
  isFlipped : bool;
  currentIndex : Z;
  selectedTag : string;
  reviewedCards : Reviewed;
  showMastered : bool;
  studySession : Session
}.

(** A callback handed to [setTimeout], with the variables its closure
    captured from the render that created it. *)
Inductive Job : Type :=
| AutoAdvance (currentIndex : Z) (filteredCards : list Flashcard)
| FirstCardPrompt.

Record Timer : Type := { due : Z; job : Job }.

Record Toast : Type := { title : string; destructive : bool }.

Record t : Type := {
  storage : Storage.t;
  clock : Z;
  timers : list Timer;
  toasts : list Toast;
  currentView : View;
  flashcards : list Flashcard;
  session : StudyState
}.

Definition with_storage (a : t) (ls : Storage.t) : t :=
  {| storage := ls; clock := clock a; timers := timers a; toasts := toasts a;
     currentView := currentView a; flashcards := flashcards a;
     session := session a |}.

Definition with_flashcards (a : t) (cards : list Flashcard) : t :=
  {| storage := storage a; clock := clock a; timers := timers a;
     toasts := toasts a; currentView := currentView a; flashcards := cards;
     session := session a |}.

Definition with_session (a : t) (s : StudyState) : t :=
  {| storage := storage a; clock := clock a; timers := timers a;
     toasts := toasts a; currentView := currentView a;
     flashcards := flashcards a; session := s |}.

Definition with_view (a : t) (v : View) : t :=
  {| storage := storage a; clock := clock a; timers := timers a;
     toasts := toasts a; currentView := v; flashcards := flashcards a;
     session := session a |}.

Definition with_timers (a : t) (ts : list Timer) : t :=
  {| storage := storage a; clock := clock a; timers := ts; toasts := toasts a;
     currentView := currentView a; flashcards := flashcards a;
     session := session a |}.

(** [toast({title, variant})] *)
Definition toast (a : t) (ttl : string) (bad : bool) : t :=
  {| storage := storage a; clock := clock a; timers := timers a;
     toasts := toasts a ++ [{| title := ttl; destructive := bad |}];
     currentView := currentView a; flashcards := flashcards a;
     session := session a |}.

(** [setTimeout(job, delay)] *)
Definition setTimeout (a : t) (j : Job) (delay : Z) : t :=
  with_timers a (timers a ++ [{| due := clock a + delay; job := j |}]).

(** Time passing between two events. *)
Definition elapse (a : t) (ms : Z) : t :=
  {| storage := storage a; clock := clock a + ms; timers := timers a;
     toasts := toasts a; currentView := currentView a;
     flashcards := flashcards a; session := session a |}.

(** What an event handler leaves behind: it returns, or an exception
    escapes it; the state updates made before the exception stay. *)
Inductive Outcome : Type :=
| Returned (a : t)
| Uncaught (e : Error) (a : t).

Definition state_of (o : Outcome) : t :=
  match o with
  | Returned a => a
  | Uncaught _ a => a
  end.

(** The exception that escaped, if any. *)
Definition escaped (o : Outcome) : option Error :=
  match o with
  | Returned _ => None
  | Uncaught e _ => Some e
  end.

End App.

(** ** pages/Index.tsx *)

Module Index.
Import Js Card App.

Definition digit36 (d : Z) : ascii :=
  if d <? 10 then ascii_of_nat (48 + Z.to_nat d)
  else ascii_of_nat (87 + Z.to_nat d).

Fixpoint toString36_digits (fuel : nat) (n : Z) (acc : string) : string :=
  match fuel with
  | O => acc
  | S f =>
      let acc' := String (digit36 (n mod 36)) acc in
      if n <? 36 then acc' else toString36_digits f (n / 36) acc'
  end.

(** [n.toString(36)] for an integer [n]. *)
Definition toString36 (n : Z) : string :=
  if n <? 0
  then String "-" (toString36_digits (S (Z.to_nat (Z.log2 (- n)))) (- n) EmptyString)
  else toString36_digits (S (Z.to_nat (Z.log2 n))) n EmptyString.

(** [Date.now().toString(36) + Math.random().toString(36).substr(2)].
    [rnd] stands for the second summand, the base-36 digits of the
    fraction that Math.random drew. *)
Definition generateId (now : Z) (rnd : string) : string :=
  toString36 now +:+ rnd.

Definition setFlashcards (a : App.t) (value : Hook.Update (list Flashcard)) : App.t :=
  let '(cards, ls) :=
    Hook.setValue (storage a) "flashmaster-cards" (flashcards a) value in
  with_storage (with_flashcards a cards) ls.

(** [newCard] has the type [Omit<Flashcard, 'id'>]: its [id] is not
    read. [clock a] is what [Date.now()] returns. *)
Definition handleFlashcardCreate (rnd : string) (newCard : Flashcard) (a : App.t)
  : App.t :=
  let flashcard :=
    {| id := generateId (clock a) rnd; question := question newCard;
       answer := answer newCard; tags := tags newCard;
       mastered := mastered newCard; reviewCount := reviewCount newCard;
       lastReviewed := lastReviewed newCard |} in
  let a' := setFlashcards a (Hook.Apply (fun prev => Ok (prev ++ [flashcard]))) in
  if (Z.of_nat (length (flashcards a)) =? 0)
  then setTimeout a' FirstCardPrompt 1500
  else a'.

(** "Handle flashcard updates (mastered status, review count, etc.)" *)
Definition handleFlashcardUpdate (updatedCard : Flashcard) (a : App.t) : App.t :=
  setFlashcards a
    (Hook.Apply (fun prev =>
       Ok (map (fun card => if String.eqb (id card) (id updatedCard)
                            then updatedCard else card) prev))).

Definition handleViewChange (view : View) (a : App.t) : App.t :=
  with_view a view.

(** [card.lastReviewed ? new Date(card.lastReviewed) : undefined] *)
Definition parseDate (l : LastReviewed) : LastReviewed :=
  match l with
  | Absent => Absent
  | ANull => Absent
  | AString s => if (s =? EmptyString)%string then Absent else ADate (JsDate.parse s)
  | ADate tv => ADate tv
  end.

(** The mount effect, "Parse dates from localStorage". *)
Definition parseDates (a : App.t) : App.t :=
  setFlashcards a
    (Hook.Apply (fun prev =>
       Ok (map (fun card => with_lastReviewed card (parseDate (lastReviewed card)))
             prev))).

(** "Get all existing tags for suggestions":
    [Array.from(new Set(flashcards.flatMap(card => card.tags))).sort()] *)
Definition existingTags (flashcards : list Flashcard) : list string :=
  sortStrings (unique (flat_map tags flashcards)).

End Index.

(** ** components/CreateFlashcard.tsx *)

Module CreateFlashcard.
Import Js Card App.

Record Form : Type := {
  question : string;
  answer : string;
  tags : list string;
  newTag : string
}.

Definition blank : Form :=
  {| question := EmptyString; answer := EmptyString; tags := []; newTag := EmptyString |}.

(** The white space that [trim] strips, among the code units below 256. *)
Definition isWhiteSpace (c : ascii) : bool :=
  let n := nat_of_ascii c in
  ((9 <=? n) && (n <=? 13) || (n =? 32) || (n =? 160))%nat.

Fixpoint trimStart (s : string) : string :=
  match s with
  | EmptyString => EmptyString
  | String c r => if isWhiteSpace c then trimStart r else s
  end.

Fixpoint trimEnd (s : string) : string :=
  match s with
  | EmptyString => EmptyString
  | String c r =>
      let r' := trimEnd r in
      if isWhiteSpace c && (r' =? EmptyString)%string then EmptyString else String c r'
  end.

Definition trim (s : string) : string := trimEnd (trimStart s).

Definition handleAddTag (f : Form) : Form :=
  if negb (trim (newTag f) =? EmptyString)%string
     && negb (bool_decide (trim (newTag f) ∈ tags f))
  then {| question := question f; answer := answer f;
          tags := tags f ++ [trim (newTag f)]; newTag := EmptyString |}
  else f.

Definition handleRemoveTag (tagToRemove : string) (f : Form) : Form :=
  {| question := question f; answer := answer f;
     tags := List.filter (fun tag => negb (String.eqb tag tagToRemove)) (tags f);
     newTag := newTag f |}.

Definition handleTagSuggestionClick (tag : string) (f : Form) : Form :=
  if negb (bool_decide (tag ∈ tags f))
  then {| question := question f; answer := answer f;
          tags := tags f ++ [tag]; newTag := newTag f |}
  else f.

(** What the user can do to the form before submitting it: type in one
    of the three fields ([setQuestion], [setAnswer], [setNewTag]), add
    the typed tag (the button, or Enter in the tag field), remove a tag,
    click a suggested tag. *)
Inductive Edit : Type :=
| TypeQuestion (s : string)
| TypeAnswer (s : string)
| TypeTag (s : string)
| AddTag
| RemoveTag (tag : string)
| SuggestionClick (tag : string).

Definition edit (f : Form) (e : Edit) : Form :=
  match e with
  | TypeQuestion s =>
      {| question := s; answer := answer f; tags := tags f; newTag := newTag f |}
  | TypeAnswer s =>
      {| question := question f; answer := s; tags := tags f; newTag := newTag f |}
  | TypeTag s =>
      {| question := question f; answer := answer f; tags := tags f; newTag := s |}
  | AddTag => handleAddTag f
  | RemoveTag tag => handleRemoveTag tag f
  | SuggestionClick tag => handleTagSuggestionClick tag f
  end.

(** [handleSubmit], with [onFlashcardCreate] bound to
    [Index.handleFlashcardCreate] as [Index] passes it. *)
Definition handleSubmit (rnd : string) (f : Form) (a : App.t) : Form * App.t :=
  if (trim (question f) =? EmptyString)%string || (trim (answer f) =? EmptyString)%string
  then (f, toast a "Missing Information" true)
  else
    let newFlashcard :=
      {| Card.id := EmptyString; Card.question := trim (question f);
         Card.answer := trim (answer f); Card.tags := tags f;
         Card.mastered := false; Card.reviewCount := 0;
         Card.lastReviewed := Absent |} in
    let a1 := Index.handleFlashcardCreate rnd newFlashcard a in
    (blank, toast a1 "Flashcard Created!" false).

End CreateFlashcard.

(** ** components/StudyMode.tsx *)

Module StudyMode.
Import Js Card App.

(** [tags.includes(tag)] *)
Definition includes (tag : string) (tags : list string) : bool :=
  existsb (String.eqb tag) tags.

Definition filteredCards (flashcards : list Flashcard) (selectedTag : string)
    (showMastered : bool) : list Flashcard :=
  let cards := flashcards in
  let cards :=
    if negb (selectedTag =? "all")%string
    then List.filter (fun card => includes selectedTag (tags card)) cards
    else cards in
  let cards :=
    if negb showMastered
    then List.filter (fun card => negb (mastered card)) cards
    else cards in
  cards.

(** The filtered view of the current render. *)
Definition view (a : App.t) : list Flashcard :=
  filteredCards (flashcards a) (selectedTag (session a)) (showMastered (session a)).

(** Array indexing [l[i]], [None] for [undefined]. *)
Definition at_index {A : Type} (l : list A) (i : Z) : option A :=
  if i <? 0 then None else nth_error l (Z.to_nat i).

Definition currentCard (a : App.t) : option Flashcard :=
  at_index (view a) (currentIndex (session a)).

(** *** The state setters *)

Definition setIsFlipped (b : bool) (a : App.t) : App.t :=
  let s := session a in
  with_session a
    {| isFlipped := b; currentIndex := currentIndex s;
       selectedTag := selectedTag s; reviewedCards := reviewedCards s;
       showMastered := showMastered s; studySession := studySession s |}.

Definition setCurrentIndex (value : Hook.Update Z) (a : App.t) : App.t :=
  let s := session a in
  let '(v, ls) :=
    Hook.setValue (storage a) "study-current-index" (currentIndex s) value in
  with_storage
    (with_session a
       {| isFlipped := isFlipped s; currentIndex := v;
          selectedTag := selectedTag s; reviewedCards := reviewedCards s;
          showMastered := showMastered s; studySession := studySession s |})
    ls.

Definition setSelectedTag (value : Hook.Update string) (a : App.t) : App.t :=
  let s := session a in
  let '(v, ls) :=
    Hook.setValue (storage a) "study-selected-tag" (selectedTag s) value in
  with_storage
    (with_session a
       {| isFlipped := isFlipped s; currentIndex := currentIndex s;
          selectedTag := v; reviewedCards := reviewedCards s;
          showMastered := showMastered s; studySession := studySession s |})
    ls.

Definition setReviewedCards (value : Hook.Update Reviewed) (a : App.t) : App.t :=
  let s := session a in
  let '(v, ls) :=
    Hook.setValue (storage a) "study-reviewed-cards" (reviewedCards s) value in
  with_storage
    (with_session a
       {| isFlipped := isFlipped s; currentIndex := currentIndex s;
          selectedTag := selectedTag s; reviewedCards := v;
          showMastered := showMastered s; studySession := studySession s |})
    ls.

Definition setShowMastered (value : Hook.Update bool) (a : App.t) : App.t :=
  let s := session a in
  let '(v, ls) :=
    Hook.setValue (storage a) "study-show-mastered" (showMastered s) value in
  with_storage
    (with_session a
       {| isFlipped := isFlipped s; currentIndex := currentIndex s;
          selectedTag := selectedTag s; reviewedCards := reviewedCards s;
          showMastered := v; studySession := studySession s |})
    ls.

Definition setStudySession (value : Hook.Update Session) (a : App.t) : App.t :=
  let s := session a in
  let '(v, ls) :=
    Hook.setValue (storage a) "study-session" (studySession s) value in
  with_storage
    (with_session a
       {| isFlipped := isFlipped s; currentIndex := currentIndex s;
          selectedTag := selectedTag s; reviewedCards := reviewedCards s;
          showMastered := showMastered s; studySession := v |})
    ls.

(** *** Effects *)

(** The effect "Reset when filters change", with dependencies
    [selectedTag, showMastered]. React runs an effect after the first
    render and after every render in which a dependency changed. *)
Definition resetEffect (a : App.t) : App.t :=
  setIsFlipped false (setCurrentIndex (Hook.Put 0) a).

(** The five [useLocalStorage] initialisers of a first render, then
    the mount effect. *)
Definition mount (a : App.t) : option App.t :=
  let ls := storage a in
  idx ← Hook.useLocalStorage ls "study-current-index" 0;
  tag ← Hook.useLocalStorage ls "study-selected-tag" "all";
  rc ← Hook.useLocalStorage ls "study-reviewed-cards" (NativeSet []);
  sm ← Hook.useLocalStorage ls "study-show-mastered" false;
  ss ← Hook.useLocalStorage ls "study-session"
         {| startTime := clock a; cardsReviewed := 0; sessionProgress := [] |};
  Some (resetEffect
          (with_session a
             {| isFlipped := false; currentIndex := idx; selectedTag := tag;
                reviewedCards := rc; showMastered := sm; studySession := ss |})).

(** [onValueChange={setSelectedTag}], and the effect when the tag changed. *)
Definition selectTag (tag : string) (a : App.t) : App.t :=
  let a' := setSelectedTag (Hook.Put tag) a in
  if (tag =? selectedTag (session a))%string then a' else resetEffect a'.

(** The button "Review Mastered Cards": [setShowMastered(true)]. *)
Definition reviewMastered (a : App.t) : App.t :=
  let a' := setShowMastered (Hook.Put true) a in
  if showMastered (session a) then a' else resetEffect a'.

(** *** Event handlers *)

Definition handleFlip (a : App.t) : App.t :=
  setIsFlipped (negb (isFlipped (session a))) a.

(** [handleNext] as a closure over the [currentIndex] and
    [filteredCards] of the render that created it. *)
Definition handleNextIn (currentIndex : Z) (filteredCards : list Flashcard)
    (a : App.t) : App.t :=
  if currentIndex <? Z.of_nat (length filteredCards) - 1
  then setIsFlipped false (setCurrentIndex (Hook.Put (currentIndex + 1)) a)
  else a.

(** [handleNext] invoked from the current render. *)
Definition handleNext (a : App.t) : App.t :=
  handleNextIn (currentIndex (session a)) (view a) a.

Definition handlePrevious (a : App.t) : App.t :=
  if 0 <? currentIndex (session a)
  then setIsFlipped false
         (setCurrentIndex (Hook.Put (currentIndex (session a) - 1)) a)
  else a.

(** [new Set(reviewedCards)]: copies a Set; a plain object is not
    iterable. *)
Definition newSet (r : Reviewed) : Result (list string) :=
  match r with
  | NativeSet ids => Ok ids
  | PlainObject _ => Throw (TypeError "object is not iterable")
  end.

(** [set.add(x)] *)
Definition add (x : string) (s : list string) : list string :=
  if bool_decide (x ∈ s) then s else s ++ [x].

Definition handleMastered (a : App.t) : Outcome :=
  match currentCard a with
  | None => Returned a
  | Some currentCard =>
      let updatedCard :=
        reviewed currentCard (negb (mastered currentCard))
          (reviewCount currentCard + 1) (ADate (JsDate.TimeClip (clock a))) in
      let a1 := Index.handleFlashcardUpdate updatedCard a in
      match newSet (reviewedCards (session a)) with
      | Throw e => Uncaught e a1
      | Ok newReviewedCards =>
          let a2 :=
            setReviewedCards
              (Hook.Put (NativeSet (add (id currentCard) newReviewedCards))) a1 in
          let a3 :=
            setStudySession
              (Hook.Apply (fun prev =>
                 Ok {| startTime := startTime prev;
                       cardsReviewed := cardsReviewed prev + 1;
                       sessionProgress :=
                         setProp (id currentCard)
                           {| reviewedAt := clock a;
                              nowMastered := negb (mastered currentCard) |}
                           (sessionProgress prev) |})) a2 in
          let a4 :=
            toast a3 (if mastered currentCard then "Card unmarked"
                      else "Card mastered!") false in
          if negb (mastered currentCard)
          then Returned
                 (setTimeout a4
                    (AutoAdvance (currentIndex (session a)) (view a)) 1000)
          else Returned a4
      end
  end.

(** [handleShuffle]; [pick] stands for
    [Math.floor(Math.random() * filteredCards.length)]. *)
Definition handleShuffle (pick : Z) (a : App.t) : App.t :=
  toast (setIsFlipped false (setCurrentIndex (Hook.Put pick) a))
    "Cards shuffled" false.

(** The "Reviewed Today" figure:
    [reviewedCards instanceof Set ? reviewedCards.size
     : Object.keys(reviewedCards || {}).length] *)
Definition reviewedToday (a : App.t) : Z :=
  match reviewedCards (session a) with
  | NativeSet ids => Z.of_nat (length ids)
  | PlainObject props => Z.of_nat (length props)
  end.

(** "Get all unique tags":
    [Array.from(new Set(flashcards.flatMap(card => card.tags))).sort()] *)
Definition allTags (a : App.t) : list string :=
  sortStrings (unique (flat_map tags (flashcards a))).

(** What the component renders: one of its three early returns, or the
    current card. *)
Inductive Screen : Type :=
| NoFlashcardsAvailable
| AllCardsMastered
| NoCardsAvailable
| Studying (card : Flashcard).

Definition screen (a : App.t) : Screen :=
  if (Z.of_nat (length (flashcards a)) =? 0) then NoFlashcardsAvailable
  else if (Z.of_nat (length (view a)) =? 0) then AllCardsMastered
  else match currentCard a with
       | None => NoCardsAvailable
       | Some card => Studying card
       end.

End StudyMode.

(** ** Timers and page loads *)

Module Runtime.
Import Js Card App.

(** The body of a scheduled callback. *)
Definition run (j : Job) (a : App.t) : App.t :=
  match j with
  | AutoAdvance currentIndex filteredCards =>
      if currentIndex <? Z.of_nat (length filteredCards) - 1
      then StudyMode.handleNextIn currentIndex filteredCards a
      else a
  | FirstCardPrompt =>
      Index.handleViewChange study (toast a "Ready to Study!" false)
  end.

(** The pending timer that is due first (the earlier scheduled one on a
    tie), and the others. *)
Fixpoint earliest (ts : list Timer) : option (Timer * list Timer) :=
  match ts with
  | [] => None
  | x :: r =>
      match earliest r with
      | Some (y, r') =>
          if due y <? due x then Some (y, x :: r') else Some (x, r)
      | None => Some (x, r)
      end
  end.

(** One turn of the event loop for timers: the earliest timer fires if
    its time has come. *)
Definition fire (a : App.t) : App.t :=
  match earliest (timers a) with
  | Some (x, r) =>
      if due x <=? clock a then run (job x) (with_timers a r) else a
  | None => a
  end.

(** [Index] renders for the first time: the stored repository, the
    home view, then the mount effect that parses the dates. *)
Definition mountIndex (a : App.t) : option App.t :=
  cards ← Hook.useLocalStorage (storage a) "flashmaster-cards" [];
  Some (Index.parseDates (with_view (with_flashcards a cards) home)).

(** The page is loaded again and the study view opened: pending timers
    and toasts are gone, [Index] mounts, then [StudyMode]. *)
Definition reload (a : App.t) : option App.t :=
  a1 ← mountIndex
         {| storage := storage a; clock := clock a; timers := [];
            toasts := []; currentView := home; flashcards := [];
            session := session a |};
  StudyMode.mount (Index.handleViewChange study a1).

(** A first visit at time [now]: the page is loaded on the medium [ls]. *)
Definition fresh (ls : Storage.t) (now : Z) : option App.t :=
  reload
    {| storage := ls; clock := now; timers := []; toasts := [];
       currentView := home; flashcards := [];
       session := {| isFlipped := false; currentIndex := 0;
                     selectedTag := "all"; reviewedCards := NativeSet [];
                     showMastered := false;
                     studySession := {| startTime := now; cardsReviewed := 0;
                                        sessionProgress := [] |} |} |}.

(** The medium works and holds the text of the repository in memory. *)
Definition saved (a : App.t) : Prop :=
  Storage.readFails (storage a) = false
  /\ Storage.writeFails (storage a) = false
  /\ Storage.items (storage a) !! "flashmaster-cards"
     = Some (Json.text_of (Json.stringify (toValue (flashcards a)))).

(** [b] has the repository of [a], in memory and on the medium. *)
Definition keepsRepository (a b : App.t) : Prop :=
  flashcards b = flashcards a
  /\ Storage.readFails (storage b) = Storage.readFails (storage a)
  /\ Storage.writeFails (storage b) = Storage.writeFails (storage a)
  /\ Storage.items (storage b) !! "flashmaster-cards"
     = Storage.items (storage a) !! "flashmaster-cards".

End Runtime.

(** ** components/Analytics.tsx *)

Module Analytics.
Import Card.

(** [Array.prototype.sort(comparefn)], which ECMA-262 requires to be
    stable: an element goes before the first element of the sorted rest
    that [comparefn] does not put before it. *)
Fixpoint insert {A : Type} (comparefn : A -> A -> Z) (x : A) (l : list A) : list A :=
  match l with
  | [] => [x]
  | y :: r =>
      if comparefn x y <=? 0 then x :: y :: r else y :: insert comparefn x r
  end.

Fixpoint sort {A : Type} (comparefn : A -> A -> Z) (l : list A) : list A :=
  match l with
  | [] => []
  | x :: r => insert comparefn x (sort comparefn r)
  end.

(** [[...flashcards].sort((a, b) => b.reviewCount - a.reviewCount).slice(0, 5)] *)
Definition mostStudied (flashcards : list Flashcard) : list Flashcard :=
  firstn 5 (sort (fun a b => reviewCount b - reviewCount a) flashcards).

Definition totalReviews (flashcards : list Flashcard) : Z :=
  fold_left (fun sum card => sum + reviewCount card) flashcards 0.

Definition reviewedCards (flashcards : list Flashcard) : Z :=
  Z.of_nat (length (List.filter (fun card => 0 <? reviewCount card) flashcards)).

Definition totalCards (flashcards : list Flashcard) : Z :=
  Z.of_nat (length flashcards).

Definition masteredCards (flashcards : list Flashcard) : Z :=
  Z.of_nat (length (List.filter (fun card => mastered card) flashcards)).

(** One entry of [tagStats]. *)
Record TagStat : Type := { total : Z; masteredOfTag : Z; reviews : Z }.

(** The body of [card.tags.forEach]. A tag that names a member of
    [Object.prototype] finds that member under [acc[tag]]: no entry is
    made for it, and the increments land on the inherited member. *)
Definition countTag (card : Flashcard) (acc : list (string * TagStat))
    (tag : string) : list (string * TagStat) :=
  if Js.inheritedName tag then acc
  else
    let s := match List.find (fun kv => String.eqb tag (fst kv)) acc with
             | Some kv => snd kv
             | None => {| total := 0; masteredOfTag := 0; reviews := 0 |}
             end in
    Js.setProp tag
      {| total := total s + 1;
         masteredOfTag := if mastered card then masteredOfTag s + 1
                          else masteredOfTag s;
         reviews := reviews s + reviewCount card |}
      acc.

(** [tagStats] as the list of its own properties with their values,
    read by key. (The list has them in order of creation, which is the
    order of [Object.entries] as long as no tag is an array index.) *)
Definition tagStats (flashcards : list Flashcard) : list (string * TagStat) :=
  fold_left (fun acc card => fold_left (countTag card) (tags card) acc)
    flashcards [].

End Analytics.

(** ** Sessions of use *)

Module Events.
Import Js Card App.

(** What can happen to the application between two renders: the form
    is submitted, a control of the study view is used, the view is
    changed, time passes, a timer is run. [pick] stands for
    [Math.floor(Math.random() * filteredCards.length)]. *)
Inductive Event : Type :=
| Submit (rnd : string) (f : CreateFlashcard.Form)
| Flip
| Next
| Previous
| Shuffle (pick : Z)
| Mastered
| SelectTag (tag : string)
| ReviewMastered
| ViewChange (view : View)
| Elapse (ms : Z)
| Fire.

Definition step (a : App.t) (e : Event) : App.t :=
  match e with
  | Submit rnd f => snd (CreateFlashcard.handleSubmit rnd f a)
  | Flip => StudyMode.handleFlip a
  | Next => StudyMode.handleNext a
  | Previous => StudyMode.handlePrevious a
  | Shuffle pick => StudyMode.handleShuffle pick a
  | Mastered => state_of (StudyMode.handleMastered a)
  | SelectTag tag => StudyMode.selectTag tag a
  | ReviewMastered => StudyMode.reviewMastered a
  | ViewChange view => Index.handleViewChange view a
  | Elapse ms => elapse a ms
  | Fire => Runtime.fire a
  end.

Definition run (a : App.t) (es : list Event) : App.t := fold_left step es a.

(** What its history leaves on a card: the flag is set when the card
    was marked an odd number of times, and the card carries a date as
    soon as it was marked once. *)
Definition consistent (card : Flashcard) : Prop :=
  mastered card = Z.odd (reviewCount card)
  /\ 0 <= reviewCount card
  /\ (lastReviewed card = Absent <-> reviewCount card = 0).

(** The controls that move within the view of [a]: flip, the two
    arrows, and shuffle with a draw among the cards of the view. *)
Definition navigation (a : App.t) (e : Event) : bool :=
  match e with
  | Flip | Next | Previous => true
  | Shuffle pick =>
      (0 <=? pick) && (pick <? Z.of_nat (length (StudyMode.view a)))
  | _ => false
  end.

(** The clock stays in the range of Date all along the run. *)
Fixpoint timely (a : App.t) (es : list Event) : bool :=
  (Z.abs (clock a) <=? JsDate.maxTime)
  && match es with
     | [] => true
     | e :: r => timely (step a e) r
     end.

End Events.

(** ** The specification's wording, for comparison with the code *)

Module Spec.
Import Card App.

(** "selectedTag == "all" or selectedTag in card.tags" *)
Definition tagMatches (selectedTag : string) (card : Flashcard) : bool :=
  bool_decide (selectedTag = "all" ∨ selectedTag ∈ tags card).

(** "showMastered or not card.mastered" *)
Definition masteryMatches (showMastered : bool) (card : Flashcard) : bool :=
  showMastered || negb (mastered card).

(** "repository.all().filter(tagMatches).filter(masteryMatches)" *)
Definition filteredView (repository : list Flashcard) (selectedTag : string)
    (showMastered : bool) : list Flashcard :=
  List.filter (masteryMatches showMastered)
    (List.filter (tagMatches selectedTag) repository).

(** "next(): if cursor < len(filteredView) - 1, cursor += 1; else no-op.
    Resets isFlipped := false", read as resetting in both cases. *)
Definition next (a : App.t) : App.t :=
  StudyMode.setIsFlipped false
    (if currentIndex (session a) <? Z.of_nat (length (StudyMode.view a)) - 1
     then StudyMode.setCurrentIndex (Hook.Put (currentIndex (session a) + 1)) a
     else a).

(** The scheduled advance "computed against the index live at the time
    it fires": the callback decides on the cursor and the view of the
    state it runs in. *)
Definition autoAdvance (a : App.t) : App.t :=
  if currentIndex (session a) <? Z.of_nat (length (StudyMode.view a)) - 1
  then StudyMode.handleNext a
  else a.

End Spec.

(** ** Sample data *)

Module Sample.
Import Card App.

Definition card (i : string) (ts : list string) (m : bool) (n : Z) : Flashcard :=
  {| id := i; question := "Q " +:+ i; answer := "A " +:+ i; tags := ts;
     mastered := m; reviewCount := n; lastReviewed := Absent |}.

Definition A : Flashcard := card "A" ["x"] false 0.
Definition B : Flashcard := card "B" ["y"] false 0.
Definition C : Flashcard := card "C" ["x"; "y"] false 0.

(** Before anything is mounted: nothing in memory, [ls] on the medium. *)
Definition boot (ls : Storage.t) (now : Z) : App.t :=
  {| storage := ls; clock := now; timers := []; toasts := [];
     currentView := home; flashcards := [];
     session := {| isFlipped := false; currentIndex := 0;
                   selectedTag := "all"; reviewedCards := NativeSet [];
                   showMastered := false;
                   studySession := {| startTime := now; cardsReviewed := 0;
                                      sessionProgress := [] |} |} |}.

(** A study session over [cards], every value saved by its setter. *)
Definition studying (cards : list Flashcard) (idx : Z) (flipped showAll : bool)
  : App.t :=
  let a0 := Index.handleViewChange study (boot Storage.empty 1700000000000) in
  let a1 := Index.setFlashcards a0 (Hook.Put cards) in
  let a2 := StudyMode.setShowMastered (Hook.Put showAll) a1 in
  StudyMode.setIsFlipped flipped (StudyMode.setCurrentIndex (Hook.Put idx) a2).

Definition form (q ans : string) (ts : list string) : CreateFlashcard.Form :=
  {| CreateFlashcard.question := q; CreateFlashcard.answer := ans;
     CreateFlashcard.tags := ts; CreateFlashcard.newTag := EmptyString |}.

(** Two cards created within one millisecond, Math.random drawing the
    same digits both times. *)
Definition same_draw_twice : App.t :=
  let a0 := studying [] 0 false false in
  let a1 := snd (CreateFlashcard.handleSubmit "4fzyo82mvyr" (form "Q1" "A1" []) a0) in
  snd (CreateFlashcard.handleSubmit "4fzyo82mvyr" (form "Q2" "A2" []) a1).

(** Card A is marked as mastered at index 0 of the view [A; B; C]
    (mastered cards shown); the user then presses the right arrow
    twice, and a second passes. *)
Definition navigated_away : App.t :=
  let a0 := studying [A; B; C] 0 true true in
  let a1 := state_of (StudyMode.handleMastered a0) in
  let a2 := StudyMode.handleNext (StudyMode.handleNext a1) in
  elapse a2 1000.

(** The user shows the mastered cards, selects the tag x (the view is
    then [A; C]), moves to the second card and marks it as mastered:
    every value of the session has gone through its setter. *)
Definition persisted_session : App.t :=
  let a0 := studying [A; B; C] 0 false false in
  let a1 := StudyMode.selectTag "x" (StudyMode.reviewMastered a0) in
  let a2 := StudyMode.handleFlip (StudyMode.handleNext a1) in
  elapse (state_of (StudyMode.handleMastered a2)) 5000.

(** A first visit: a card is created, the prompt opens the study view,
    a second card is created, the first one is marked as mastered and
    the timer runs; a minute later the page is loaded again. *)
Definition second_visit : option App.t :=
  a0 ← Runtime.fresh Storage.empty 1700000000000;
  let a1 := snd (CreateFlashcard.handleSubmit "4fzyo82mvyr"
                   (form " What is 2+2? " "4" ["math"])
                   (Index.handleViewChange create a0)) in
  a2 ← StudyMode.mount (Runtime.fire (elapse a1 1500));
  let a3 := snd (CreateFlashcard.handleSubmit "9zzzq0k1x2c"
                   (form "Capital of France" " Paris" ["geo"])
                   (Index.handleViewChange create (elapse a2 20000))) in
  a4 ← StudyMode.mount (Index.handleViewChange study (elapse a3 2000));
  let a5 := state_of (StudyMode.handleMastered
                        (StudyMode.handleFlip (elapse a4 3000))) in
  Runtime.reload (elapse (Runtime.fire (elapse a5 1000)) 60000).

End Sample.

(** * Properties *)

(** ** Decimal fields *)

Module DigitsFacts.
Import Digits.

Lemma digit_val_char (d : Z) : 0 <= d < 10 -> digit_val (digit_char d) = Some d.
Proof.
  intros Hd.
  assert (Hcases : d = 0 \/ d = 1 \/ d = 2 \/ d = 3 \/ d = 4 \/ d = 5 \/ d = 6
                   \/ d = 7 \/ d = 8 \/ d = 9) by lia.
  repeat (destruct Hcases as [-> | Hcases]; [reflexivity |]).
  subst d. reflexivity.
Qed.

Lemma mod_pow_succ (n : Z) (k : nat) :
  (n / 10 ^ Z.of_nat k) mod 10 * 10 ^ Z.of_nat k + n mod 10 ^ Z.of_nat k
  = n mod 10 ^ Z.of_nat (S k).
Proof.
  assert (Hp : 0 < 10 ^ Z.of_nat k) by (apply Z.pow_pos_nonneg; lia).
  replace (Z.of_nat (S k)) with (Z.succ (Z.of_nat k)) by lia.
  rewrite Z.pow_succ_r by lia.
  rewrite (Z.mul_comm 10).
  rewrite Z.rem_mul_r by lia.
  lia.
Qed.

Lemma append_cons (c : ascii) (s r : string) :
  String c s +:+ r = String c (s +:+ r).
Proof. reflexivity. Qed.

Lemma append_nil (r : string) : EmptyString +:+ r = r.
Proof. reflexivity. Qed.

Lemma read_digits_pad (w : nat) : forall (acc n : Z) (rest : string),
  read_digits w acc (pad w n +:+ rest)
  = Some (acc * 10 ^ Z.of_nat w + n mod 10 ^ Z.of_nat w, rest).
Proof.
  induction w as [| k IH]; intros acc n rest.
  - cbn [read_digits pad]. rewrite append_nil. f_equal. f_equal.
    change (10 ^ Z.of_nat 0) with 1. rewrite Z.mod_1_r. lia.
  - cbn [read_digits pad]. rewrite append_cons.
    rewrite digit_val_char by (apply Z.mod_pos_bound; lia).
    rewrite IH. f_equal. f_equal.
    rewrite <- (mod_pow_succ n k).
    replace (Z.of_nat (S k)) with (Z.succ (Z.of_nat k)) by lia.
    rewrite Z.pow_succ_r by lia. ring.
Qed.

Lemma read_digits_pad_exact (w : nat) (n : Z) (rest : string) :
  0 <= n < 10 ^ Z.of_nat w ->
  read_digits w 0 (pad w n +:+ rest) = Some (n, rest).
Proof.
  intros Hn. rewrite read_digits_pad. rewrite Z.mod_small by exact Hn.
  reflexivity.
Qed.

Lemma read_digits_nondigit (k : nat) (acc : Z) (c : ascii) (r : string) :
  digit_val c = None -> read_digits (S k) acc (String c r) = None.
Proof. intros H. cbn [read_digits]. rewrite H. reflexivity. Qed.

Lemma expect_cons (c : ascii) (r : string) :
  expect c (String c EmptyString +:+ r) = Some r.
Proof.
  rewrite append_cons, append_nil. cbn [expect].
  rewrite Ascii.eqb_refl. reflexivity.
Qed.

Lemma two_digits (n : Z) : 0 <= n <= 99 -> 0 <= n < 10 ^ Z.of_nat 2.
Proof. change (10 ^ Z.of_nat 2) with 100. lia. Qed.

End DigitsFacts.

(** ** The calendar, and ISO strings read back *)

Module JsDateFacts.
Import Digits JsDate DigitsFacts.

Lemma DaysInYear_cases (y : Z) : DaysInYear y = 365 \/ DaysInYear y = 366.
Proof.
  unfold DaysInYear.
  repeat match goal with |- context [if ?b then _ else _] => destruct b end; auto.
Qed.

Lemma DayFromYear_succ (y : Z) : DayFromYear (y + 1) = DayFromYear y + DaysInYear y.
Proof.
  unfold DayFromYear, DaysInYear.
  repeat match goal with
         | |- context [?a =? ?b] => destruct (Z.eqb_spec a b)
         end; cbn [negb]; Z.div_mod_to_equations; lia.
Qed.

Lemma YearFromDay_spec (d : Z) :
  DayFromYear (YearFromDay d) <= d < DayFromYear (YearFromDay d + 1).
Proof.
  unfold YearFromDay.
  set (y0 := 1970 + 400 * d / 146097).
  assert (Hy0 : y0 = 1970 + 400 * d / 146097) by reflexivity.
  clearbody y0.
  destruct (Z.ltb_spec d (DayFromYear y0)) as [Hlt | Hge].
  - replace (y0 - 1 + 1) with y0 by lia. split; [| exact Hlt].
    unfold DayFromYear in *. Z.div_mod_to_equations. lia.
  - destruct (Z.leb_spec (DayFromYear (y0 + 1)) d) as [Hle | Hgt].
    + split; [exact Hle |].
      unfold DayFromYear in *. Z.div_mod_to_equations. lia.
    + split; [exact Hge | exact Hgt].
Qed.

Lemma DayWithinYear_bounds (t : Z) :
  0 <= DayWithinYear t < DaysInYear (YearFromTime t).
Proof.
  unfold DayWithinYear, YearFromTime.
  pose proof (YearFromDay_spec (Day t)) as H.
  rewrite DayFromYear_succ in H. lia.
Qed.

Lemma monthOfDay_spec (d leap : Z) :
  0 <= d < 365 + leap -> leap = 0 \/ leap = 1 ->
  0 <= monthOfDay d leap <= 11
  /\ monthStart (monthOfDay d leap) leap <= d
     < monthStart (monthOfDay d leap + 1) leap.
Proof.
  intros Hd Hleap. unfold monthOfDay.
  repeat match goal with
         | |- context [?a <? ?b] => destruct (Z.ltb_spec a b)
         end;
  repeat match goal with
         | |- context [monthStart (?a + 1) _] =>
             let v := eval vm_compute in (a + 1) in change (a + 1) with v
         end;
  cbn [monthStart]; lia.
Qed.

Lemma InLeapYear_cases (t : Z) : InLeapYear t = 0 \/ InLeapYear t = 1.
Proof. unfold InLeapYear. destruct (DaysInYear_cases (YearFromTime t)); lia. Qed.

Lemma MonthFromTime_spec (t : Z) :
  0 <= MonthFromTime t <= 11
  /\ monthStart (MonthFromTime t) (InLeapYear t) <= DayWithinYear t
     < monthStart (MonthFromTime t + 1) (InLeapYear t).
Proof.
  unfold MonthFromTime. apply monthOfDay_spec.
  - pose proof (DayWithinYear_bounds t). unfold InLeapYear. lia.
  - apply InLeapYear_cases.
Qed.

Lemma DateFromTime_bounds (t : Z) :
  1 <= DateFromTime t <= DaysInMonth (YearFromTime t) (MonthFromTime t).
Proof.
  pose proof (MonthFromTime_spec t) as [_ H].
  unfold DateFromTime, DaysInMonth. fold (InLeapYear t). lia.
Qed.


Lemma MakeDay_FromTime (t : Z) :
  MakeDay (YearFromTime t) (MonthFromTime t) (DateFromTime t) = Day t.
Proof.
  pose proof (MonthFromTime_spec t) as [Hm _].
  unfold MakeDay.
  rewrite Z.div_small, Z.mod_small by lia.
  rewrite Z.add_0_r. fold (InLeapYear t).
  unfold DateFromTime, DayWithinYear. lia.
Qed.

Lemma MakeTime_FromTime (t : Z) :
  MakeTime (HourFromTime t) (MinFromTime t) (SecFromTime t) (msFromTime t)
  = TimeWithinDay t.
Proof.
  unfold MakeTime, HourFromTime, MinFromTime, SecFromTime, msFromTime,
    TimeWithinDay, msPerDay, msPerHour, msPerMinute, msPerSecond.
  Z.div_mod_to_equations. lia.
Qed.

Lemma MakeDate_Day (t : Z) : MakeDate (Day t) (TimeWithinDay t) = t.
Proof.
  unfold MakeDate, Day, TimeWithinDay, msPerDay.
  Z.div_mod_to_equations. lia.
Qed.

Lemma YearFromTime_range (t : Z) :
  Z.abs t <= maxTime -> -271821 <= YearFromTime t <= 275760.
Proof.
  intros Ht. unfold YearFromTime.
  pose proof (YearFromDay_spec (Day t)) as H.
  set (y := YearFromDay (Day t)) in *. clearbody y.
  unfold DayFromYear, Day, maxTime, msPerDay in *.
  Z.div_mod_to_equations. lia.
Qed.

Lemma read_year_yearString (y : Z) (rest : string) :
  -999999 <= y <= 999999 ->
  read_year (yearString y +:+ rest) = Some (y, rest).
Proof.
  intros Hy. unfold read_year, yearString.
  destruct ((0 <=? y) && (y <=? 9999)) eqn:E.
  - apply andb_true_iff in E as [E1 E2].
    apply Z.leb_le in E1. apply Z.leb_le in E2.
    rewrite read_digits_pad_exact; [reflexivity |].
    change (10 ^ Z.of_nat 4) with 10000. lia.
  - rewrite append_cons.
    assert (Hsix : 0 <= Z.abs y < 10 ^ Z.of_nat 6)
      by (change (10 ^ Z.of_nat 6) with 1000000; lia).
    destruct (Z.ltb_spec y 0) as [Hneg | Hpos].
    + rewrite read_digits_nondigit by reflexivity.
      change (Ascii.eqb "-" "+") with false.
      change (Ascii.eqb "-" "-") with true. cbn iota.
      rewrite read_digits_pad_exact by exact Hsix.
      destruct (Z.eqb_spec (Z.abs y) 0) as [H0 | _]; [lia |].
      f_equal. f_equal. lia.
    + rewrite read_digits_nondigit by reflexivity.
      change (Ascii.eqb "+" "+") with true. cbn iota.
      rewrite read_digits_pad_exact by exact Hsix.
      f_equal. f_equal. lia.
Qed.

Theorem parse_toISOString (t : Z) :
  Z.abs t <= maxTime -> parse (toISOString t) = Some t.
Proof.
  intros Ht.
  pose proof (YearFromTime_range t Ht) as Hy.
  pose proof (MonthFromTime_spec t) as [Hm _].
  pose proof (DateFromTime_bounds t) as Hd.
  assert (Hdm : DaysInMonth (YearFromTime t) (MonthFromTime t) <= 31).
  { unfold DaysInMonth. destruct (DaysInYear_cases (YearFromTime t)) as [-> | ->];
    assert (Hc : MonthFromTime t = 0 \/ MonthFromTime t = 1 \/ MonthFromTime t = 2
      \/ MonthFromTime t = 3 \/ MonthFromTime t = 4 \/ MonthFromTime t = 5
      \/ MonthFromTime t = 6 \/ MonthFromTime t = 7 \/ MonthFromTime t = 8
      \/ MonthFromTime t = 9 \/ MonthFromTime t = 10 \/ MonthFromTime t = 11) by lia;
    repeat (destruct Hc as [-> | Hc]; [vm_compute; discriminate |]);
    rewrite Hc; vm_compute; discriminate. }
  assert (Hh : 0 <= HourFromTime t <= 23) by (unfold HourFromTime; Z.div_mod_to_equations; lia).
  assert (Hmi : 0 <= MinFromTime t <= 59) by (unfold MinFromTime; Z.div_mod_to_equations; lia).
  assert (Hs : 0 <= SecFromTime t <= 59) by (unfold SecFromTime; Z.div_mod_to_equations; lia).
  assert (Hms : 0 <= msFromTime t < 10 ^ Z.of_nat 3).
  { change (10 ^ Z.of_nat 3) with 1000. unfold msFromTime, msPerSecond.
    Z.div_mod_to_equations. lia. }
  unfold parse, toISOString.
  rewrite read_year_yearString by lia. cbn [mbind option_bind].
  rewrite expect_cons. cbn [mbind option_bind].
  rewrite read_digits_pad_exact by (apply two_digits; lia). cbn [mbind option_bind].
  rewrite expect_cons. cbn [mbind option_bind].
  rewrite read_digits_pad_exact by (apply two_digits; lia). cbn [mbind option_bind].
  rewrite expect_cons. cbn [mbind option_bind].
  rewrite read_digits_pad_exact by (apply two_digits; lia). cbn [mbind option_bind].
  rewrite expect_cons. cbn [mbind option_bind].
  rewrite read_digits_pad_exact by (apply two_digits; lia). cbn [mbind option_bind].
  rewrite expect_cons. cbn [mbind option_bind].
  rewrite read_digits_pad_exact by (apply two_digits; lia). cbn [mbind option_bind].
  rewrite expect_cons. cbn [mbind option_bind].
  rewrite read_digits_pad_exact by exact Hms. cbn [mbind option_bind].
  change (expect "Z" "Z") with (Some EmptyString). cbn [mbind option_bind].
  change ((EmptyString =? EmptyString)%string) with true.
  replace (MonthFromTime t + 1 - 1) with (MonthFromTime t) by lia.
  repeat match goal with
         | |- context [?a <=? ?b] =>
             destruct (Z.leb_spec a b); [| lia]
         end.
  cbn [andb].
  rewrite MakeDay_FromTime, MakeTime_FromTime, MakeDate_Day.
  unfold TimeClip. destruct (Z.leb_spec (Z.abs t) maxTime); [reflexivity | lia].
Qed.

End JsDateFacts.

(** ** The filtered view *)

Module ViewFacts.
Import Card App StudyMode.

Lemma includes_elem_of (tag : string) (l : list string) :
  includes tag l = bool_decide (tag ∈ l).
Proof.
  unfold includes. induction l as [| x r IH]; cbn [existsb].
  - symmetry. apply bool_decide_eq_false. apply not_elem_of_nil.
  - rewrite IH. destruct (String.eqb_spec tag x) as [-> | Hne]; cbn [orb].
    + symmetry. apply bool_decide_eq_true. apply list_elem_of_here.
    + apply bool_decide_ext. rewrite elem_of_cons. tauto.
Qed.

Lemma filter_all {A : Type} (p : A -> bool) (l : list A) :
  (forall x, p x = true) -> List.filter p l = l.
Proof.
  intros Hp. induction l as [| x r IH]; cbn [List.filter]; [reflexivity |].
  rewrite Hp, IH. reflexivity.
Qed.

Lemma filter_sublist {A : Type} (p : A -> bool) (l : list A) :
  sublist (List.filter p l) l.
Proof.
  induction l as [| x r IH]; cbn [List.filter]; [constructor |].
  destruct (p x); [apply sublist_skip | apply sublist_cons]; exact IH.
Qed.

Lemma filteredCards_spec (repository : list Flashcard) (selectedTag : string)
    (showMastered : bool) :
  filteredCards repository selectedTag showMastered
  = Spec.filteredView repository selectedTag showMastered.
Proof.
  unfold filteredCards, Spec.filteredView.
  assert (Htag :
    (if negb (selectedTag =? "all")%string
     then List.filter (fun card => includes selectedTag (tags card)) repository
     else repository)
    = List.filter (Spec.tagMatches selectedTag) repository).
  { destruct (String.eqb_spec selectedTag "all") as [-> | Hne]; cbn [negb].
    - symmetry. apply filter_all. intros x. unfold Spec.tagMatches.
      apply bool_decide_eq_true. left. reflexivity.
    - apply List.filter_ext. intros card. rewrite includes_elem_of.
      unfold Spec.tagMatches. apply bool_decide_ext. tauto. }
  rewrite Htag. destruct showMastered; cbn [negb].
  - symmetry. apply filter_all. reflexivity.
  - reflexivity.
Qed.

End ViewFacts.

(** ** Sorting by review count *)

Module SortFacts.
Import Card Analytics.

Section ByKey.
Context {A : Type}.
Variable key : A -> Z.

(** The comparison of [mostStudied]: larger keys first. *)
Local Abbreviation descending := (fun a b : A => key b - key a).

Lemma insert_perm (x : A) (l : list A) :
  Permutation (insert descending x l) (x :: l).
Proof.
  induction l as [| y r IH]; cbn [insert]; [reflexivity |].
  destruct (descending x y <=? 0); [reflexivity |].
  rewrite IH. apply perm_swap.
Qed.

Lemma sort_perm (l : list A) : Permutation (sort descending l) l.
Proof.
  induction l as [| x r IH]; cbn [sort]; [reflexivity |].
  rewrite insert_perm. constructor. exact IH.
Qed.

Lemma insert_sorted (x : A) (l : list A) :
  StronglySorted (fun a b => key a >= key b) l ->
  StronglySorted (fun a b => key a >= key b) (insert descending x l).
Proof.
  intros Hs. induction Hs as [| y r Hr IH Hall]; cbn [insert].
  - repeat constructor.
  - cbn beta.
    destruct (Z.leb_spec (key y - key x) 0) as [Hle | Hgt].
    + constructor; [constructor; assumption |].
      constructor; [lia |].
      eapply List.Forall_impl; [| exact Hall]. cbn beta. intros z Hz. lia.
    + constructor; [exact IH |].
      eapply Permutation_Forall; [symmetry; apply insert_perm |].
      constructor; [lia | exact Hall].
Qed.

Lemma sort_sorted (l : list A) :
  StronglySorted (fun a b => key a >= key b) (sort descending l).
Proof.
  induction l as [| x r IH]; cbn [sort]; [constructor |].
  apply insert_sorted. exact IH.
Qed.

(** Stability: the elements of any one key keep their order. *)
Lemma insert_stable (n : Z) (x : A) (l : list A) :
  List.filter (fun c => key c =? n) (insert descending x l)
  = List.filter (fun c => key c =? n) (x :: l).
Proof.
  induction l as [| y r IH]; cbn [insert]; [reflexivity |].
  cbn beta.
  destruct (Z.leb_spec (key y - key x) 0) as [Hle | Hgt]; [reflexivity |].
  cbn [List.filter] in *. rewrite IH.
  destruct (Z.eqb_spec (key y) n) as [Hy | Hy];
    destruct (Z.eqb_spec (key x) n) as [Hx | Hx]; try reflexivity.
  lia.
Qed.

Lemma sort_stable (n : Z) (l : list A) :
  List.filter (fun c => key c =? n) (sort descending l)
  = List.filter (fun c => key c =? n) l.
Proof.
  induction l as [| x r IH]; cbn [sort]; [reflexivity |].
  rewrite insert_stable. cbn [List.filter]. rewrite IH. reflexivity.
Qed.

End ByKey.

End SortFacts.

(** ** What the setters change *)

Module StateFacts.
Import Js Card App.

(** A [setValue] with an updater that does not throw sets the state to
    the updated value, whether the write succeeds or not. *)
Lemma setValue_apply {T : Type} `{Shape T} (ls : Storage.t) (key : string)
    (stored : T) (g : T -> T) :
  fst (Hook.setValue ls key stored (Hook.Apply (fun prev => Ok (g prev))))
  = g stored.
Proof.
  unfold Hook.setValue.
  destruct (Storage.setItem ls key _); reflexivity.
Qed.

Lemma setValue_put {T : Type} `{Shape T} (ls : Storage.t) (key : string)
    (stored v : T) :
  fst (Hook.setValue ls key stored (Hook.Put v)) = v.
Proof.
  unfold Hook.setValue.
  destruct (Storage.setItem ls key _); reflexivity.
Qed.

(** On a medium that takes writes, the stored text is the JSON of the
    new value. *)
Lemma setValue_put_stored {T : Type} `{Shape T} (ls : Storage.t) (key : string)
    (stored v : T) :
  Storage.writeFails ls = false ->
  Storage.items (snd (Hook.setValue ls key stored (Hook.Put v))) !! key
  = Some (Json.text_of (Json.stringify (toValue v)))
  /\ Storage.readFails (snd (Hook.setValue ls key stored (Hook.Put v)))
     = Storage.readFails ls
  /\ Storage.writeFails (snd (Hook.setValue ls key stored (Hook.Put v))) = false.
Proof.
  intros Hw. unfold Hook.setValue, Storage.setItem. rewrite Hw.
  cbn [snd Storage.items Storage.readFails Storage.writeFails].
  rewrite lookup_insert_eq. auto.
Qed.

Lemma setFlashcards_apply (a : App.t) (g : list Flashcard -> list Flashcard) :
  flashcards (Index.setFlashcards a (Hook.Apply (fun prev => Ok (g prev))))
  = g (flashcards a)
  /\ session (Index.setFlashcards a (Hook.Apply (fun prev => Ok (g prev))))
     = session a
  /\ timers (Index.setFlashcards a (Hook.Apply (fun prev => Ok (g prev))))
     = timers a
  /\ toasts (Index.setFlashcards a (Hook.Apply (fun prev => Ok (g prev))))
     = toasts a
  /\ clock (Index.setFlashcards a (Hook.Apply (fun prev => Ok (g prev))))
     = clock a.
Proof.
  unfold Index.setFlashcards, Hook.setValue.
  destruct (Storage.setItem _ _ _); repeat split; reflexivity.
Qed.

Lemma setCurrentIndex_put (v : Z) (a : App.t) :
  StudyMode.setCurrentIndex (Hook.Put v) a
  = with_storage
      (with_session a
         {| isFlipped := isFlipped (session a); currentIndex := v;
            selectedTag := selectedTag (session a);
            reviewedCards := reviewedCards (session a);
            showMastered := showMastered (session a);
            studySession := studySession (session a) |})
      (snd (Hook.setValue (storage a) "study-current-index"
              (currentIndex (session a)) (Hook.Put v))).
Proof.
  unfold StudyMode.setCurrentIndex, Hook.setValue.
  destruct (Storage.setItem _ _ _); reflexivity.
Qed.

Lemma setReviewedCards_put (v : Reviewed) (a : App.t) :
  StudyMode.setReviewedCards (Hook.Put v) a
  = with_storage
      (with_session a
         {| isFlipped := isFlipped (session a);
            currentIndex := currentIndex (session a);
            selectedTag := selectedTag (session a);
            reviewedCards := v;
            showMastered := showMastered (session a);
            studySession := studySession (session a) |})
      (snd (Hook.setValue (storage a) "study-reviewed-cards"
              (reviewedCards (session a)) (Hook.Put v))).
Proof.
  unfold StudyMode.setReviewedCards, Hook.setValue.
  destruct (Storage.setItem _ _ _); reflexivity.
Qed.

Lemma setStudySession_apply (g : Session -> Session) (a : App.t) :
  StudyMode.setStudySession (Hook.Apply (fun prev => Ok (g prev))) a
  = with_storage
      (with_session a
         {| isFlipped := isFlipped (session a);
            currentIndex := currentIndex (session a);
            selectedTag := selectedTag (session a);
            reviewedCards := reviewedCards (session a);
            showMastered := showMastered (session a);
            studySession := g (studySession (session a)) |})
      (snd (Hook.setValue (storage a) "study-session"
              (studySession (session a))
              (Hook.Apply (fun prev => Ok (g prev))))).
Proof.
  unfold StudyMode.setStudySession, Hook.setValue.
  destruct (Storage.setItem _ _ _); reflexivity.
Qed.

(** The current card is one of the cards of the repository. *)
Lemma at_index_In {A : Type} (l : list A) (i : Z) (x : A) :
  StudyMode.at_index l i = Some x -> In x l.
Proof.
  unfold StudyMode.at_index. destruct (i <? 0); [discriminate |].
  apply nth_error_In.
Qed.

Lemma currentCard_In (a : App.t) (c : Flashcard) :
  StudyMode.currentCard a = Some c -> In c (flashcards a).
Proof.
  intros Hc. apply at_index_In in Hc. unfold StudyMode.view in Hc.
  rewrite ViewFacts.filteredCards_spec in Hc. unfold Spec.filteredView in Hc.
  apply List.filter_In in Hc as [Hc _]. apply List.filter_In in Hc as [Hc _].
  exact Hc.
Qed.

(** What [handleMastered] does when the reviewed cards are a Set. *)
Lemma handleMastered_on_set (a : App.t) (c : Flashcard) (ids : list string) :
  StudyMode.currentCard a = Some c ->
  reviewedCards (session a) = NativeSet ids ->
  exists a' : App.t,
    StudyMode.handleMastered a = Returned a'
    /\ flashcards a'
       = map (fun card =>
                if String.eqb (id card) (id c)
                then reviewed c (negb (mastered c)) (reviewCount c + 1)
                       (ADate (JsDate.TimeClip (clock a)))
                else card) (flashcards a)
    /\ reviewedCards (session a') = NativeSet (StudyMode.add (id c) ids)
    /\ currentIndex (session a') = currentIndex (session a)
    /\ timers a'
       = timers a
         ++ (if mastered c then []
             else [{| due := clock a + 1000;
                      job := AutoAdvance (currentIndex (session a))
                               (StudyMode.view a) |}]).
Proof.
  intros Hc Hset. unfold StudyMode.handleMastered.
  rewrite Hc, Hset. cbn [StudyMode.newSet].
  rewrite setStudySession_apply, setReviewedCards_put.
  unfold Index.handleFlashcardUpdate.
  change (id (reviewed c (negb (mastered c)) (reviewCount c + 1)
                (ADate (JsDate.TimeClip (clock a))))) with (id c).
  set (u := reviewed c (negb (mastered c)) (reviewCount c + 1)
              (ADate (JsDate.TimeClip (clock a)))).
  pose proof (setFlashcards_apply a
    (map (fun card => if String.eqb (id card) (id c) then u else card)))
    as (Hf & Hs & Ht & _ & Hk).
  clearbody u.
  destruct (mastered c); cbn [negb];
    eexists; (split; [reflexivity |]);
    cbn [flashcards session timers reviewedCards currentIndex
         with_storage with_session with_timers toast setTimeout clock];
    rewrite ?Hf, ?Hs, ?Ht, ?Hk; repeat split; try reflexivity.
  rewrite app_nil_r. reflexivity.
Qed.

(** The repository update is made before the Set is copied: it is done
    even when an exception escapes. *)
Lemma handleMastered_updates_card (a : App.t) (c : Flashcard) :
  StudyMode.currentCard a = Some c ->
  flashcards (state_of (StudyMode.handleMastered a))
  = map (fun card =>
           if String.eqb (id card) (id c)
           then reviewed c (negb (mastered c)) (reviewCount c + 1)
                  (ADate (JsDate.TimeClip (clock a)))
           else card) (flashcards a).
Proof.
  intros Hc. destruct (reviewedCards (session a)) as [ids | props] eqn:Hr.
  - destruct (handleMastered_on_set a c ids Hc Hr) as (a' & -> & Hf & _).
    exact Hf.
  - unfold StudyMode.handleMastered. rewrite Hc, Hr.
    cbn [StudyMode.newSet state_of]. unfold Index.handleFlashcardUpdate.
    apply (setFlashcards_apply a).
Qed.

End StateFacts.

(** ** Values through JSON and the storage medium *)

Module JsonFacts.
Import Js Json Card App.

Lemma tags_roundtrip (l : list string) :
  mapM ofValue
    (map revive
       (map (fun x => match stringify x with Some j => j | None => JNull end)
          (map VStr l)))
  = Some l.
Proof.
  induction l as [| s r IH]; [reflexivity |].
  cbn [map stringify revive]. cbn [mapM ofValue Shape_string].
  cbn [mapM ofValue Shape_string] in IH. rewrite IH. reflexivity.
Qed.

Lemma card_roundtrip (c : Flashcard) :
  exists j : Doc,
    stringify (toValue c) = Some j
    /\ ofValue (revive j) = Some (asStored c).
Proof.
  destruct c as [i q a t m n l]. unfold asStored, with_lastReviewed, reviewed.
  cbn [id question answer tags mastered reviewCount lastReviewed].
  destruct l as [| [tv |] | s |];
    (eexists; split; [cbn; reflexivity |]);
    cbn [revive ofValue Shape_Flashcard getProp String.eqb Ascii.eqb Bool.eqb
         Shape_string Shape_number Shape_boolean Shape_array
         lastReviewed_of mbind option_bind];
    rewrite tags_roundtrip; reflexivity.
Qed.

Lemma cards_revived (cards : list Flashcard) :
  mapM ofValue
    (map revive
       (map (fun x => match stringify x with Some j => j | None => JNull end)
          (map toValue cards)))
  = Some (map asStored cards).
Proof.
  induction cards as [| c r IH]; [reflexivity |].
  cbn [map]. destruct (card_roundtrip c) as (j & Hj & Hc).
  rewrite Hj. cbn [mapM]. rewrite Hc, IH. reflexivity.
Qed.

Lemma cards_roundtrip (cards : list Flashcard) :
  exists j : Doc,
    stringify (toValue cards) = Some j
    /\ ofValue (revive j) = Some (map asStored cards).
Proof.
  exists (JArr (map (fun x => match stringify x with Some j => j | None => JNull end)
                  (map toValue cards))).
  split; [reflexivity |]. exact (cards_revived cards).
Qed.

(** What [useLocalStorage] reads on a medium that does not fail, after
    a [setValue] under the same key. *)
Lemma read_after_write (ls : Storage.t) (key : string) (j : Doc) (init : Value) :
  Storage.readFails ls = false ->
  Storage.items ls !! key = Some (Wellformed j) ->
  Hook.readStored ls key init = revive j.
Proof.
  intros Hr Hk. unfold Hook.readStored, Storage.getItem.
  rewrite Hr, Hk. reflexivity.
Qed.

Lemma toISOString_nonempty (t : Z) : (JsDate.toISOString t =? EmptyString)%string = false.
Proof.
  unfold JsDate.toISOString, JsDate.yearString.
  destruct ((0 <=? JsDate.YearFromTime t) && (JsDate.YearFromTime t <=? 9999));
    reflexivity.
Qed.

Lemma parseDate_asStored (c : Flashcard) :
  wellTyped c ->
  with_lastReviewed (asStored c) (Index.parseDate (lastReviewed (asStored c))) = c.
Proof.
  destruct c as [i q a t m n l]. unfold wellTyped, asStored, with_lastReviewed, reviewed.
  cbn [id question answer tags mastered reviewCount lastReviewed].
  destruct l as [| [tv |] | s |]; intros Hw; try contradiction.
  - reflexivity.
  - cbn [Index.parseDate]. rewrite toISOString_nonempty.
    rewrite JsDateFacts.parse_toISOString by exact Hw. reflexivity.
Qed.

Lemma parseDates_asStored (cards : list Flashcard) :
  Forall wellTyped cards ->
  map (fun card => with_lastReviewed card (Index.parseDate (lastReviewed card)))
    (map asStored cards)
  = cards.
Proof.
  intros Hcards. induction Hcards as [| c r Hc _ IH]; [reflexivity |].
  cbn [map]. rewrite IH. rewrite parseDate_asStored by exact Hc. reflexivity.
Qed.

End JsonFacts.

(** ** Reloading the page *)

Module ReloadFacts.
Import Js Card App.

(** A Set does not survive the storage adapter: whatever its elements,
    the text written is that of the empty object, and what is read back
    is a plain object. *)
Lemma set_stored_as_empty_object (ids : list string) :
  Json.stringify (toValue (NativeSet ids)) = Some (Json.JObj [])
  /\ ofValue (Json.revive (Json.JObj [])) = Some (PlainObject []).
Proof. split; reflexivity. Qed.

(** Mounting StudyMode always leaves the cursor on 0. *)
Lemma mount_resets_cursor (a b : App.t) :
  StudyMode.mount a = Some b ->
  currentIndex (session b) = 0 /\ isFlipped (session b) = false.
Proof.
  unfold StudyMode.mount. intros H.
  repeat match type of H with
         | (_ ≫= _) = Some _ => apply bind_Some in H as (? & _ & H)
         end.
  injection H as <-. unfold StudyMode.resetEffect.
  rewrite StateFacts.setCurrentIndex_put. split; reflexivity.
Qed.

(** With a plain object in place of the Set, handleMastered lets a
    TypeError escape as soon as there is a current card. *)
Lemma handleMastered_on_plain_object (a : App.t) (c : Flashcard)
    (props : list (string * Value)) :
  StudyMode.currentCard a = Some c ->
  reviewedCards (session a) = PlainObject props ->
  exists a' : App.t,
    StudyMode.handleMastered a = Uncaught (TypeError "object is not iterable") a'
    /\ session a' = session a.
Proof.
  intros Hc Hp. unfold StudyMode.handleMastered. rewrite Hc, Hp.
  cbn [StudyMode.newSet]. eexists. split; [reflexivity |].
  unfold Index.handleFlashcardUpdate.
  apply (StateFacts.setFlashcards_apply a).
Qed.

(** What the claim C5 describes holds whenever the reviewed cards are
    a Set: the card comes back from the repository with the flag set,
    one more review and the time of the call, and its id is in the
    Set. *)
Lemma handleMastered_marks_card (a : App.t) (c : Flashcard) (n : Z)
    (ids : list string) :
  StudyMode.currentCard a = Some c ->
  mastered c = false ->
  reviewCount c = n ->
  Z.abs (clock a) <= JsDate.maxTime ->
  reviewedCards (session a) = NativeSet ids ->
  exists (a' : App.t) (ids' : list string),
    StudyMode.handleMastered a = Returned a'
    /\ In (reviewed c true (n + 1) (ADate (Some (clock a)))) (flashcards a')
    /\ (forall card, In card (flashcards a') -> id card = id c ->
          card = reviewed c true (n + 1) (ADate (Some (clock a))))
    /\ reviewedCards (session a') = NativeSet ids'
    /\ id c ∈ ids'
    /\ forall x, x ∈ ids -> x ∈ ids'.
Proof.
  intros Hc Hm Hn Hclock Hset.
  destruct (StateFacts.handleMastered_on_set a c ids Hc Hset)
    as (a' & Hrun & Hf & Hrev & _).
  assert (Hclip : JsDate.TimeClip (clock a) = Some (clock a)).
  { unfold JsDate.TimeClip.
    destruct (Z.leb_spec (Z.abs (clock a)) JsDate.maxTime); [reflexivity | lia]. }
  rewrite Hm, Hn, Hclip in Hf. cbn [negb] in Hf.
  exists a', (StudyMode.add (id c) ids). split; [exact Hrun |].
  split; [| split; [| split; [exact Hrev | split]]].
  - rewrite Hf. apply in_map_iff. exists c. rewrite String.eqb_refl.
    split; [reflexivity |]. exact (StateFacts.currentCard_In a c Hc).
  - intros card Hin Hid. rewrite Hf in Hin. apply in_map_iff in Hin
      as (card0 & Heq & _).
    destruct (String.eqb_spec (id card0) (id c)) as [_ | Hne];
      [symmetry; exact Heq |].
    subst card0. contradiction.
  - unfold StudyMode.add. case_bool_decide as Hin; [exact Hin |].
    apply elem_of_app. right. apply list_elem_of_here.
  - intros x Hx. unfold StudyMode.add. case_bool_decide; [exact Hx |].
    apply elem_of_app. left. exact Hx.
Qed.

(** On a medium that takes writes, [setValue] with a value that is
    computed without an exception stores its JSON text under the key. *)
Lemma setValue_ok {T : Type} `{Shape T} (ls : Storage.t) (key : string)
    (stored v : T) (value : Hook.Update T) :
  Storage.writeFails ls = false ->
  match value with Hook.Put v' => Ok v' | Hook.Apply f => f stored end = Ok v ->
  Hook.setValue ls key stored value
  = (v, {| Storage.items :=
             <[key := Json.text_of (Json.stringify (toValue v))]> (Storage.items ls);
           Storage.readFails := Storage.readFails ls;
           Storage.writeFails := Storage.writeFails ls |}).
Proof.
  intros Hw Hv. unfold Hook.setValue. rewrite Hv.
  unfold Storage.setItem. rewrite Hw. reflexivity.
Qed.

(** Once handleMastered has returned on a current card, the text stored
    for the reviewed cards is that of the empty object. *)
Lemma handleMastered_stores_empty_object (a a' : App.t) (c : Flashcard) :
  Storage.writeFails (storage a) = false ->
  StudyMode.currentCard a = Some c ->
  StudyMode.handleMastered a = Returned a' ->
  Storage.items (storage a') !! "study-reviewed-cards"
  = Some (Json.Wellformed (Json.JObj []))
  /\ Storage.readFails (storage a') = Storage.readFails (storage a).
Proof.
  intros Hw Hc Hrun. unfold StudyMode.handleMastered in Hrun. rewrite Hc in Hrun.
  destruct (reviewedCards (session a)) as [ids | props] eqn:Hr;
    cbn [StudyMode.newSet] in Hrun; [| discriminate].
  unfold Index.handleFlashcardUpdate, Index.setFlashcards in Hrun.
  erewrite setValue_ok in Hrun by (first [exact Hw | reflexivity]).
  unfold StudyMode.setReviewedCards in Hrun.
  cbn [storage session with_storage with_flashcards flashcards] in Hrun.
  erewrite setValue_ok in Hrun by (first [exact Hw | reflexivity]).
  unfold StudyMode.setStudySession in Hrun.
  cbn [storage session with_storage with_session studySession] in Hrun.
  erewrite setValue_ok in Hrun by (first [exact Hw | reflexivity]).
  destruct (mastered c); cbn [negb] in Hrun; injection Hrun as <-;
    cbn [storage with_storage with_session with_timers toast setTimeout
         Storage.items Storage.readFails];
    (split; [| reflexivity]);
    rewrite lookup_insert_ne by discriminate;
    rewrite lookup_insert_eq; reflexivity.
Qed.

(** With that text on the medium, mounting StudyMode gives a plain
    object for the reviewed cards. *)
Lemma mount_reads_plain_object (b b' : App.t) :
  Storage.readFails (storage b) = false ->
  Storage.items (storage b) !! "study-reviewed-cards"
  = Some (Json.Wellformed (Json.JObj [])) ->
  StudyMode.mount b = Some b' ->
  reviewedCards (session b') = PlainObject [].
Proof.
  intros Hr Hitem Hmount. unfold StudyMode.mount in Hmount.
  apply bind_Some in Hmount as (idx & _ & Hmount).
  apply bind_Some in Hmount as (tag & _ & Hmount).
  apply bind_Some in Hmount as (rc & Hrc & Hmount).
  apply bind_Some in Hmount as (sm & _ & Hmount).
  apply bind_Some in Hmount as (ss & _ & Hmount).
  injection Hmount as <-.
  unfold Hook.useLocalStorage in Hrc.
  rewrite (JsonFacts.read_after_write _ _ _ _ Hr Hitem) in Hrc.
  cbn in Hrc. injection Hrc as <-.
  unfold StudyMode.resetEffect. rewrite StateFacts.setCurrentIndex_put.
  reflexivity.
Qed.

(** Hence: once a card has been marked, StudyMode mounted again (the
    page loaded again, or the study view left and reopened) cannot mark
    another card. *)
Lemma marking_after_remount_throws (a a' b : App.t) (c c' : Flashcard) :
  Storage.writeFails (storage a) = false ->
  Storage.readFails (storage a) = false ->
  StudyMode.currentCard a = Some c ->
  StudyMode.handleMastered a = Returned a' ->
  StudyMode.mount a' = Some b ->
  StudyMode.currentCard b = Some c' ->
  escaped (StudyMode.handleMastered b)
  = Some (TypeError "object is not iterable").
Proof.
  intros Hw Hr Hc Hrun Hmount Hc'.
  destruct (handleMastered_stores_empty_object a a' c Hw Hc Hrun) as [Hitem Hr'].
  rewrite Hr in Hr'.
  pose proof (mount_reads_plain_object a' b Hr' Hitem Hmount) as Hplain.
  destruct (handleMastered_on_plain_object b c' [] Hc' Hplain) as (b' & -> & _).
  reflexivity.
Qed.

End ReloadFacts.

(** * The statements of the specification, one by one *)

Import Js Card App.

(** C1, on the code. A first visit creates two cards and marks the
    first one as mastered; the page is then loaded again. The text
    stored for the reviewed cards is "{}", the value read back is a
    plain object, the second card is the current card, and marking it
    lets a TypeError escape from handleMastered. The render path for the
    same value does not throw: it counts the keys of the object. *)
Theorem C1_handleMastered_throws_after_reload :
  (a ← Sample.second_visit;
   Some (Storage.items (storage a) !! "study-reviewed-cards",
         reviewedCards (session a),
         id <$> StudyMode.currentCard a,
         escaped (StudyMode.handleMastered a),
         StudyMode.reviewedToday a))
  = Some (Some (Json.Wellformed (Json.JObj [])),
          PlainObject [],
          Some "loyw4bng9zzzq0k1x2c",
          Some (TypeError "object is not iterable"),
          0).
Proof. vm_compute. reflexivity. Qed.

(** C2, on the code. A session whose four values went through their
    setters: cursor 1, tag x, mastered cards shown, card C reviewed.
    After the page is loaded again the tag and the switch are as saved,
    the cursor is 0 although 1 was stored, and the reviewed cards are an
    empty plain object. *)
Theorem C2_cursor_and_set_not_restored :
  let a := Sample.persisted_session in
  (currentIndex (session a), selectedTag (session a),
   showMastered (session a), reviewedCards (session a))
  = (1, "x", true, NativeSet ["C"])
  /\ Storage.items (storage a) !! "study-current-index"
     = Some (Json.Wellformed (Json.JNum 1))
  /\ (b ← Runtime.reload a;
      Some (currentIndex (session b), selectedTag (session b),
            showMastered (session b), reviewedCards (session b)))
     = Some (0, "x", true, PlainObject []).
Proof. vm_compute. repeat split; reflexivity. Qed.



(** Without the mount effect of Index the dates come back as strings. *)
Example stored_date_is_a_string :
  Hook.useLocalStorage
    (storage (Index.setFlashcards (Sample.studying [] 0 false false)
                (Hook.Put [reviewed Sample.B true 3 (ADate (Some 1700000000123))])))
    "flashmaster-cards" []
  = Some [reviewed Sample.B true 3 (AString "2023-11-14T22:13:20.123Z")].
Proof. reflexivity. Qed.




(** C5, on the code. In the session of the second visit the current
    card is not mastered and has no review. handleMastered updates it in
    the repository (flag set, one review, the time of the call) and then
    fails: its id is not recorded, the reviewed cards are still the
    plain object read from storage. *)
Theorem C5_id_not_recorded_after_reload :
  (a ← Sample.second_visit;
   c ← StudyMode.currentCard a;
   let a' := state_of (StudyMode.handleMastered a) in
   Some (mastered c, reviewCount c, clock a,
         escaped (StudyMode.handleMastered a),
         List.filter (fun card => String.eqb (id card) (id c)) (flashcards a'),
         reviewedCards (session a'),
         StudyMode.reviewedToday a'))
  = Some (false, 0, 1700000087500,
          Some (TypeError "object is not iterable"),
          [{| id := "loyw4bng9zzzq0k1x2c"; question := "Capital of France";
              answer := "Paris"; tags := ["geo"]; mastered := true;
              reviewCount := 1; lastReviewed := ADate (Some 1700000087500) |}],
          PlainObject [],
          0).
Proof. vm_compute. reflexivity. Qed.

(** C6, as the code has it. When the question and the answer are not
    empty once trimmed, submitting the form appends exactly one card at
    the end of the repository, the cards already there unchanged and in
    their order. The new card has the trimmed question and answer, the
    tags of the form, mastered false, reviewCount 0, no lastReviewed,
    and as id the creation time in base 36 followed by the digits of a
    random draw. Nothing compares that id with the stored ones: the ids
    stay pairwise distinct provided they were and the drawn id is not
    among them. The form is emptied. *)
Theorem C6_create_appends_one_card (rnd : string) (f : CreateFlashcard.Form)
    (a : App.t) :
  CreateFlashcard.trim (CreateFlashcard.question f) <> EmptyString ->
  CreateFlashcard.trim (CreateFlashcard.answer f) <> EmptyString ->
  let created :=
    {| id := Index.generateId (clock a) rnd;
       question := CreateFlashcard.trim (CreateFlashcard.question f);
       answer := CreateFlashcard.trim (CreateFlashcard.answer f);
       tags := CreateFlashcard.tags f;
       mastered := false; reviewCount := 0; lastReviewed := Absent |} in
  flashcards (snd (CreateFlashcard.handleSubmit rnd f a))
  = flashcards a ++ [created]
  /\ fst (CreateFlashcard.handleSubmit rnd f a) = CreateFlashcard.blank
  /\ (NoDup (map id (flashcards a)) ->
      ~ In (id created) (map id (flashcards a)) ->
      NoDup (map id (flashcards (snd (CreateFlashcard.handleSubmit rnd f a))))).
Proof.
  intros Hq Ha created.
  assert (Hcards :
    flashcards (snd (CreateFlashcard.handleSubmit rnd f a))
    = flashcards a ++ [created]
    /\ fst (CreateFlashcard.handleSubmit rnd f a) = CreateFlashcard.blank).
  { unfold CreateFlashcard.handleSubmit.
    apply String.eqb_neq in Hq. apply String.eqb_neq in Ha.
    rewrite Hq, Ha. cbn [orb snd fst]. split; [| reflexivity].
    unfold Index.handleFlashcardCreate.
    pose proof (StateFacts.setFlashcards_apply a (fun prev => prev ++ [created]))
      as (Hf & _).
    destruct (Z.of_nat (length (flashcards a)) =? 0);
      cbn [toast setTimeout with_timers flashcards]; exact Hf. }
  destruct Hcards as [Hcards Hform]. rewrite Hcards.
  split; [reflexivity |]. split; [exact Hform |].
  intros Hnodup Hfresh. rewrite map_app. cbn [map].
  apply NoDup_app. split; [exact Hnodup |]. split.
  - intros x Hx Hx'. apply list_elem_of_In in Hx.
    apply list_elem_of_singleton in Hx'. subst x. exact (Hfresh Hx).
  - apply NoDup_singleton.
Qed.

Lemma C6_create_appends_one_card_witness :
  let a := Sample.studying [Sample.A] 0 false false in
  let f := Sample.form " Capital of France? " "Paris " ["geo"] in
  flashcards (snd (CreateFlashcard.handleSubmit "9zzzq0" f a))
  = [Sample.A;
     {| id := "loyw3v289zzzq0"; question := "Capital of France?";
        answer := "Paris"; tags := ["geo"]; mastered := false;
        reviewCount := 0; lastReviewed := Absent |}].
Proof.
  intros a f.
  assert (Hq : CreateFlashcard.trim (CreateFlashcard.question f) <> EmptyString)
    by (vm_compute; discriminate).
  assert (Ha : CreateFlashcard.trim (CreateFlashcard.answer f) <> EmptyString)
    by (vm_compute; discriminate).
  exact (proj1 (C6_create_appends_one_card "9zzzq0" f a Hq Ha)).
Defined.

(** C6 as stated fails: two valid cards created in the same
    millisecond with the same random draw get the same id. *)
Lemma C6_counterexample :
  CreateFlashcard.trim "Q1" <> EmptyString /\ CreateFlashcard.trim "A1" <> EmptyString
  /\ CreateFlashcard.trim "Q2" <> EmptyString /\ CreateFlashcard.trim "A2" <> EmptyString
  /\ map id (flashcards Sample.same_draw_twice)
     = ["loyw3v284fzyo82mvyr"; "loyw3v284fzyo82mvyr"]
  /\ ~ NoDup (map id (flashcards Sample.same_draw_twice)).
Proof.
  assert (Hids : map id (flashcards Sample.same_draw_twice)
                 = ["loyw3v284fzyo82mvyr"; "loyw3v284fzyo82mvyr"]) by reflexivity.
  split; [vm_compute; discriminate |].
  split; [vm_compute; discriminate |].
  split; [vm_compute; discriminate |].
  split; [vm_compute; discriminate |].
  split; [exact Hids |].
  rewrite Hids. intros Hnodup. apply NoDup_cons in Hnodup as [Hnotin _].
  apply Hnotin. apply list_elem_of_here.
Qed.

(** C7. Whatever the repository, submitting the form with a question
    or an answer that is empty once trimmed is refused: the repository
    and the storage are as before, the form keeps its content, and the
    only effect is the toast "Missing Information". *)
Theorem C7_create_rejects_blank (rnd : string) (f : CreateFlashcard.Form) (a : App.t) :
  CreateFlashcard.trim (CreateFlashcard.question f) = EmptyString
  \/ CreateFlashcard.trim (CreateFlashcard.answer f) = EmptyString ->
  CreateFlashcard.handleSubmit rnd f a
  = (f, toast a "Missing Information" true)
  /\ flashcards (snd (CreateFlashcard.handleSubmit rnd f a)) = flashcards a
  /\ storage (snd (CreateFlashcard.handleSubmit rnd f a)) = storage a
  /\ session (snd (CreateFlashcard.handleSubmit rnd f a)) = session a
  /\ timers (snd (CreateFlashcard.handleSubmit rnd f a)) = timers a.
Proof.
  intros Hblank.
  assert (Hrun : CreateFlashcard.handleSubmit rnd f a
                 = (f, toast a "Missing Information" true)).
  { unfold CreateFlashcard.handleSubmit.
    destruct Hblank as [-> | ->]; [reflexivity |].
    rewrite orb_true_r. reflexivity. }
  rewrite Hrun. repeat split; reflexivity.
Qed.

Lemma C7_create_rejects_blank_witness :
  let a := Sample.studying [Sample.A] 0 false false in
  let f := {| CreateFlashcard.question := "  "; CreateFlashcard.answer := "x";
              CreateFlashcard.tags := []; CreateFlashcard.newTag := EmptyString |} in
  let g := {| CreateFlashcard.question := "x"; CreateFlashcard.answer := EmptyString;
              CreateFlashcard.tags := []; CreateFlashcard.newTag := EmptyString |} in
  flashcards (snd (CreateFlashcard.handleSubmit "k3" f a)) = flashcards a
  /\ flashcards (snd (CreateFlashcard.handleSubmit "k3" g a)) = flashcards a.
Proof.
  intros a f g. split.
  - apply (C7_create_rejects_blank "k3" f a). left. reflexivity.
  - apply (C7_create_rejects_blank "k3" g a). right. reflexivity.
Defined.

(** C8. For every repository, selected tag and mastery switch, the
    filtered view is the repository filtered by the tag test (the tag is
    "all", or is a member of the card's tags, compared exactly) followed
    by the mastery test (mastered cards shown, or the card not
    mastered); it is a subsequence of the repository, so insertion order
    is kept. For A with tags [x], B with [y] and C with [x, y], the tag
    x gives [A, C] and "all" gives [A, B, C]. *)
Theorem C8_filtered_view :
  (forall (repository : list Flashcard) (selectedTag : string) (showMastered : bool),
     StudyMode.filteredCards repository selectedTag showMastered
     = List.filter
         (fun card =>
            bool_decide (selectedTag = "all" ∨ selectedTag ∈ tags card)
            && (showMastered || negb (mastered card)))
         repository
     /\ StudyMode.filteredCards repository selectedTag showMastered
        = Spec.filteredView repository selectedTag showMastered
     /\ sublist (StudyMode.filteredCards repository selectedTag showMastered)
          repository)
  /\ (forall showMastered : bool,
        StudyMode.filteredCards [Sample.A; Sample.B; Sample.C] "x" showMastered
        = [Sample.A; Sample.C]
        /\ StudyMode.filteredCards [Sample.A; Sample.B; Sample.C] "all" showMastered
           = [Sample.A; Sample.B; Sample.C]
        /\ StudyMode.filteredCards [Sample.A; Sample.B; Sample.C] "X" showMastered
           = []).
Proof.
  split.
  - intros repository selectedTag showMastered.
    rewrite ViewFacts.filteredCards_spec. repeat split.
    + unfold Spec.filteredView.
      induction repository as [| c r IH]; [reflexivity |].
      cbn [List.filter]. fold (Spec.tagMatches selectedTag c).
      destruct (Spec.tagMatches selectedTag c); cbn [andb List.filter].
      * fold (Spec.masteryMatches showMastered c).
        destruct (Spec.masteryMatches showMastered c); rewrite IH; reflexivity.
      * exact IH.
    + unfold Spec.filteredView.
      etransitivity; apply ViewFacts.filter_sublist.
  - intros showMastered. destruct showMastered; repeat split; reflexivity.
Qed.




(** C10. For every repository, mostStudied is the first five cards of
    an ordering of the whole repository by reviewCount, largest first,
    in which the cards of any one reviewCount stand in their repository
    order: with the cards left out appended, the list is a permutation
    of the repository, is sorted in descending order, and filtered on
    any review count it equals the repository filtered likewise. *)
Theorem C10_mostStudied_top_five_stable (repository : list Flashcard) :
  exists rest : list Flashcard,
    Permutation (Analytics.mostStudied repository ++ rest) repository
    /\ length (Analytics.mostStudied repository) = Nat.min 5 (length repository)
    /\ StronglySorted (fun a b => reviewCount a >= reviewCount b)
         (Analytics.mostStudied repository ++ rest)
    /\ forall n : Z,
         List.filter (fun c => reviewCount c =? n)
           (Analytics.mostStudied repository ++ rest)
         = List.filter (fun c => reviewCount c =? n) repository.
Proof.
  exists (skipn 5 (Analytics.sort
                     (fun a b => reviewCount b - reviewCount a) repository)).
  unfold Analytics.mostStudied.
  split; [| split; [| split]].
  - rewrite firstn_skipn. apply SortFacts.sort_perm.
  - rewrite length_firstn.
    rewrite (Permutation_length (SortFacts.sort_perm reviewCount repository)).
    reflexivity.
  - rewrite firstn_skipn. apply SortFacts.sort_sorted.
  - intros n. rewrite firstn_skipn. apply SortFacts.sort_stable.
Qed.

(** A run of mostStudied: six cards, ties between the first, third and
    fifth and between the second and sixth. *)
Example mostStudied_sample :
  map id (Analytics.mostStudied
            [Sample.card "a" [] false 2; Sample.card "b" [] false 0;
             Sample.card "c" [] false 2; Sample.card "d" [] false 7;
             Sample.card "e" [] false 2; Sample.card "f" [] false 0])
  = ["d"; "a"; "c"; "e"; "b"].
Proof. reflexivity. Qed.

(** * Further properties of the code *)

(** ** The storage adapter *)

(** Reading never fails: when the medium refuses the read, when nothing
    is stored under the key, or when the stored text is not JSON, the
    hook starts from the initial value of its caller. *)
Theorem useLocalStorage_falls_back (ls : Storage.t) (key : string)
    (initialValue : Value) :
  Storage.readFails ls = true
  \/ Storage.items ls !! key = None
  \/ (exists s : string, Storage.items ls !! key = Some (Json.Raw s)) ->
  Hook.readStored ls key initialValue = initialValue.
Proof.
  intros [Hr | [Hk | [s Hk]]]; unfold Hook.readStored, Storage.getItem.
  - rewrite Hr. reflexivity.
  - destruct (Storage.readFails ls); [reflexivity |]. rewrite Hk. reflexivity.
  - destruct (Storage.readFails ls); [reflexivity |]. rewrite Hk.
    cbn [Json.truthy Json.parse]. destruct (negb _); reflexivity.
Qed.

Lemma useLocalStorage_falls_back_witness :
  Hook.readStored
    {| Storage.items := {[ "study-current-index" := Json.Raw "undefined" ]};
       Storage.readFails := false; Storage.writeFails := false |}
    "study-current-index" (VNum 0)
  = VNum 0.
Proof.
  apply useLocalStorage_falls_back. right. right.
  exists "undefined". reflexivity.
Defined.

(** A write that the medium refuses is dropped without an exception:
    the state of the hook takes the new value and the medium is as
    before. An updater that throws changes neither the state nor the
    medium. *)
Theorem setValue_contains_failures {T : Type} `{Shape T} (ls : Storage.t)
    (key : string) (stored v : T) (g : T -> T) (e : Error) :
  Hook.setValue ls key stored (Hook.Apply (fun _ => Throw e)) = (stored, ls)
  /\ (Storage.writeFails ls = true ->
      Hook.setValue ls key stored (Hook.Put v) = (v, ls)
      /\ Hook.setValue ls key stored (Hook.Apply (fun prev => Ok (g prev)))
         = (g stored, ls)).
Proof.
  split; [reflexivity |]. intros Hw.
  unfold Hook.setValue, Storage.setItem. rewrite Hw. split; reflexivity.
Qed.

Lemma setValue_contains_failures_witness :
  let full := {| Storage.items := ∅; Storage.readFails := false;
                 Storage.writeFails := true |} in
  Hook.setValue full "study-current-index" 0 (Hook.Put 3) = (3, full)
  /\ Hook.setValue full "study-current-index" 0
       (Hook.Apply (fun prev => Ok (prev + 1)))
     = (1, full).
Proof.
  intros full.
  apply (setValue_contains_failures full "study-current-index" 0 3
           (fun prev => prev + 1) (TypeError "unused")).
  reflexivity.
Defined.



(** The entries are independent: a [setValue] under one key, whether it
    succeeds or not, does not change what is read under another key. *)
Theorem setValue_leaves_other_keys {T : Type} `{Shape T} (ls : Storage.t)
    (key key' : string) (stored : T) (value : Hook.Update T)
    (initialValue : Value) :
  key <> key' ->
  Hook.readStored (snd (Hook.setValue ls key stored value)) key' initialValue
  = Hook.readStored ls key' initialValue.
Proof.
  intros Hne. unfold Hook.setValue.
  destruct (match value with Hook.Put v => Ok v | Hook.Apply f => f stored end)
    as [v | e]; [| reflexivity].
  unfold Storage.setItem. destruct (Storage.writeFails ls) eqn:Hw; [reflexivity |].
  unfold Hook.readStored, Storage.getItem. cbn [snd Storage.readFails Storage.items].
  rewrite lookup_insert_ne by exact Hne. reflexivity.
Qed.

Lemma setValue_leaves_other_keys_witness :
  Hook.readStored
    (snd (Hook.setValue
            (snd (Hook.setValue Storage.empty "study-current-index" 0 (Hook.Put 4)))
            "study-show-mastered" false (Hook.Put true)))
    "study-current-index" VNull
  = VNum 4.
Proof.
  rewrite (setValue_leaves_other_keys _ "study-show-mastered"
             "study-current-index" false (Hook.Put true) VNull); [reflexivity |].
  discriminate.
Defined.

(** [clearLocalStorage] removes the entry: the next read under the key
    gives the initial value, the other keys read as before. When the
    medium refuses the removal nothing changes and nothing is thrown. *)
Theorem clearLocalStorage_forgets (ls : Storage.t) (key : string)
    (initialValue : Value) :
  (Storage.writeFails ls = false ->
   Hook.readStored (Hook.clearLocalStorage ls key) key initialValue
   = initialValue)
  /\ (forall key' : string, key <> key' ->
        Hook.readStored (Hook.clearLocalStorage ls key) key' initialValue
        = Hook.readStored ls key' initialValue)
  /\ (Storage.writeFails ls = true -> Hook.clearLocalStorage ls key = ls).
Proof.
  unfold Hook.clearLocalStorage, Storage.removeItem.
  split; [| split].
  - intros Hw. rewrite Hw. unfold Hook.readStored, Storage.getItem.
    cbn [Storage.readFails Storage.items].
    destruct (Storage.readFails ls); [reflexivity |].
    rewrite lookup_delete_eq. reflexivity.
  - intros key' Hne. destruct (Storage.writeFails ls); [reflexivity |].
    unfold Hook.readStored, Storage.getItem.
    cbn [Storage.readFails Storage.items].
    rewrite lookup_delete_ne by exact Hne. reflexivity.
  - intros Hw. rewrite Hw. reflexivity.
Qed.

Lemma clearLocalStorage_forgets_witness :
  Hook.readStored
    (Hook.clearLocalStorage
       (snd (Hook.setValue Storage.empty "study-current-index" 0 (Hook.Put 4)))
       "study-current-index")
    "study-current-index" (VNum 0)
  = VNum 0.
Proof.
  apply (proj1 (clearLocalStorage_forgets _ "study-current-index" (VNum 0))).
  reflexivity.
Defined.

(** ** What a mount of StudyMode finds *)

Module SessionFacts.
Import Js Json Card App.

Lemma progress_stringified (sp : list (string * Progress)) :
  stringify (VObj (map (fun kp => (fst kp, toValue (snd kp))) sp))
  = Some (JObj (map (fun kp =>
                       (fst kp,
                        JObj [("reviewedAt", JNum (reviewedAt (snd kp)));
                              ("mastered", JBool (nowMastered (snd kp)))]))
                  sp)).
Proof.
  induction sp as [| [k p] r IH]; [reflexivity |].
  cbn [map fst snd]. cbn [stringify] in IH |- *.
  injection IH as IH. cbn [toValue Shape_Progress stringify]. rewrite IH.
  reflexivity.
Qed.

Lemma progress_revived (sp : list (string * Progress)) :
  revive (JObj (map (fun kp =>
                       (fst kp,
                        JObj [("reviewedAt", JNum (reviewedAt (snd kp)));
                              ("mastered", JBool (nowMastered (snd kp)))]))
                  sp))
  = VObj (map (fun kp => (fst kp, toValue (snd kp))) sp).
Proof.
  induction sp as [| [k p] r IH]; [reflexivity |].
  cbn [map fst snd]. cbn [revive] in IH |- *.
  injection IH as IH. rewrite IH. reflexivity.
Qed.

Lemma progress_read (sp : list (string * Progress)) :
  mapM (fun kv : string * Value => p ← ofValue (snd kv); Some (fst kv, p))
    (map (fun kp : string * Progress => (fst kp, toValue (snd kp))) sp)
  = Some sp.
Proof.
  induction sp as [| [k [r m]] rest IH]; [reflexivity |].
  cbn [map mapM fst snd]. rewrite IH. reflexivity.
Qed.

Lemma session_roundtrip (s : Session) :
  exists j : Doc,
    stringify (toValue s) = Some j /\ ofValue (revive j) = Some s.
Proof.
  destruct s as [st n sp].
  exists (JObj [("startTime", JNum st); ("cardsReviewed", JNum n);
                ("sessionProgress",
                 JObj (map (fun kp =>
                              (fst kp,
                               JObj [("reviewedAt", JNum (reviewedAt (snd kp)));
                                     ("mastered", JBool (nowMastered (snd kp)))]))
                         sp))]).
  split.
  - pose proof (progress_stringified sp) as Hsp.
    cbn [toValue Shape_Session Shape_Progress startTime cardsReviewed
         sessionProgress stringify] in Hsp |- *.
    injection Hsp as Hsp. rewrite Hsp. reflexivity.
  - pose proof (progress_revived sp) as Hsp.
    cbn [revive] in Hsp |- *. injection Hsp as Hsp.
    cbn [ofValue Shape_Session getProp String.eqb Ascii.eqb Bool.eqb
         Shape_number mbind option_bind].
    rewrite Hsp, progress_read. reflexivity.
Qed.

End SessionFacts.

(** The statistics of the study session (its start, the number of
    reviews, the progress per card) are what a later mount starts from,
    on a medium that works. *)
Theorem studySession_survives (ls : Storage.t) (stored s init : Session) :
  Storage.readFails ls = false ->
  Storage.writeFails ls = false ->
  Hook.useLocalStorage
    (snd (Hook.setValue ls "study-session" stored (Hook.Put s)))
    "study-session" init
  = Some s.
Proof.
  intros Hr Hw.
  destruct (StateFacts.setValue_put_stored ls "study-session" stored s Hw)
    as (Hitem & Hr' & _).
  destruct (SessionFacts.session_roundtrip s) as (j & Hj & Hback).
  rewrite Hj in Hitem. cbn [Json.text_of] in Hitem. rewrite Hr in Hr'.
  unfold Hook.useLocalStorage.
  rewrite (JsonFacts.read_after_write _ _ _ _ Hr' Hitem). exact Hback.
Qed.

Lemma studySession_survives_witness :
  let s := {| startTime := 1700000000000; cardsReviewed := 2;
              sessionProgress :=
                [("A", {| reviewedAt := 1700000001000; nowMastered := true |});
                 ("B", {| reviewedAt := 1700000002000; nowMastered := false |})] |} in
  Hook.useLocalStorage
    (snd (Hook.setValue Storage.empty "study-session" s (Hook.Put s)))
    "study-session" s
  = Some s.
Proof.
  intros s. apply (studySession_survives Storage.empty s s s); reflexivity.
Defined.

Module HookFacts.
Import Js Json Card App.

Lemma readStored_other_key {T : Type} `{Shape T} (ls : Storage.t)
    (key key' : string) (stored : T) (value : Hook.Update T) (init : Value) :
  key <> key' ->
  Hook.readStored (snd (Hook.setValue ls key stored value)) key' init
  = Hook.readStored ls key' init.
Proof.
  intros Hne. unfold Hook.setValue.
  destruct (match value with Hook.Put v => Ok v | Hook.Apply f => f stored end)
    as [v | e]; [| reflexivity].
  unfold Storage.setItem. destruct (Storage.writeFails ls); [reflexivity |].
  unfold Hook.readStored, Storage.getItem. cbn [snd Storage.readFails Storage.items].
  rewrite lookup_insert_ne by exact Hne. reflexivity.
Qed.

Lemma setValue_flags {T : Type} `{Shape T} (ls : Storage.t) (key : string)
    (stored : T) (value : Hook.Update T) :
  Storage.readFails (snd (Hook.setValue ls key stored value))
  = Storage.readFails ls
  /\ Storage.writeFails (snd (Hook.setValue ls key stored value))
     = Storage.writeFails ls.
Proof.
  unfold Hook.setValue.
  destruct (match value with Hook.Put v => Ok v | Hook.Apply f => f stored end)
    as [v | e]; [| split; reflexivity].
  unfold Storage.setItem. destruct (Storage.writeFails ls) eqn:Hw;
    split; cbn [snd Storage.readFails Storage.writeFails]; auto.
Qed.

Lemma readStored_put_string (ls : Storage.t) (key : string) (stored v : string)
    (init : Value) :
  Storage.readFails ls = false -> Storage.writeFails ls = false ->
  Hook.readStored (snd (Hook.setValue ls key stored (Hook.Put v))) key init
  = VStr v.
Proof.
  intros Hr Hw.
  destruct (StateFacts.setValue_put_stored ls key stored v Hw) as (Hitem & Hr' & _).
  rewrite Hr in Hr'. exact (JsonFacts.read_after_write _ _ _ _ Hr' Hitem).
Qed.

Lemma readStored_put_bool (ls : Storage.t) (key : string) (stored v : bool)
    (init : Value) :
  Storage.readFails ls = false -> Storage.writeFails ls = false ->
  Hook.readStored (snd (Hook.setValue ls key stored (Hook.Put v))) key init
  = VBool v.
Proof.
  intros Hr Hw.
  destruct (StateFacts.setValue_put_stored ls key stored v Hw) as (Hitem & Hr' & _).
  rewrite Hr in Hr'. exact (JsonFacts.read_after_write _ _ _ _ Hr' Hitem).
Qed.

Lemma setSelectedTag_put (v : string) (a : App.t) :
  StudyMode.setSelectedTag (Hook.Put v) a
  = with_storage
      (with_session a
         {| isFlipped := isFlipped (session a);
            currentIndex := currentIndex (session a);
            selectedTag := v;
            reviewedCards := reviewedCards (session a);
            showMastered := showMastered (session a);
            studySession := studySession (session a) |})
      (snd (Hook.setValue (storage a) "study-selected-tag"
              (selectedTag (session a)) (Hook.Put v))).
Proof.
  unfold StudyMode.setSelectedTag, Hook.setValue.
  destruct (Storage.setItem _ _ _); reflexivity.
Qed.

Lemma setShowMastered_put (v : bool) (a : App.t) :
  StudyMode.setShowMastered (Hook.Put v) a
  = with_storage
      (with_session a
         {| isFlipped := isFlipped (session a);
            currentIndex := currentIndex (session a);
            selectedTag := selectedTag (session a);
            reviewedCards := reviewedCards (session a);
            showMastered := v;
            studySession := studySession (session a) |})
      (snd (Hook.setValue (storage a) "study-show-mastered"
              (showMastered (session a)) (Hook.Put v))).
Proof.
  unfold StudyMode.setShowMastered, Hook.setValue.
  destruct (Storage.setItem _ _ _); reflexivity.
Qed.

(** What a mount makes of the state, once its five reads are known. *)
Lemma mount_fields (a b : App.t) :
  StudyMode.mount a = Some b ->
  Hook.useLocalStorage (storage a) "study-selected-tag" "all"
  = Some (selectedTag (session b))
  /\ Hook.useLocalStorage (storage a) "study-show-mastered" false
     = Some (showMastered (session b))
  /\ Hook.useLocalStorage (storage a) "study-reviewed-cards" (NativeSet [])
     = Some (reviewedCards (session b))
  /\ Hook.useLocalStorage (storage a) "study-session"
       {| startTime := clock a; cardsReviewed := 0; sessionProgress := [] |}
     = Some (studySession (session b))
  /\ currentIndex (session b) = 0
  /\ isFlipped (session b) = false
  /\ flashcards b = flashcards a.
Proof.
  unfold StudyMode.mount. intros H.
  apply bind_Some in H as (idx & _ & H).
  apply bind_Some in H as (tag & Htag & H).
  apply bind_Some in H as (rc & Hrc & H).
  apply bind_Some in H as (sm & Hsm & H).
  apply bind_Some in H as (ss & Hss & H).
  injection H as <-. unfold StudyMode.resetEffect.
  rewrite StateFacts.setCurrentIndex_put.
  cbn [session with_storage with_session StudyMode.setIsFlipped selectedTag
       showMastered reviewedCards studySession currentIndex isFlipped flashcards].
  repeat split; assumption.
Qed.

End HookFacts.



(** ** The list of tags *)

Module TagFacts.
Import Js Card App.

Lemma uniqueInto_elem (xs : list string) : forall (seen : list string) (x : string),
  x ∈ uniqueInto seen xs <-> x ∈ seen \/ x ∈ xs.
Proof.
  induction xs as [| y r IH]; intros seen x; cbn [uniqueInto].
  - rewrite elem_of_nil. tauto.
  - rewrite IH, elem_of_cons. case_bool_decide as Hy.
    + split; [tauto |]. intros [H | [-> | H]]; auto.
    + rewrite elem_of_app, list_elem_of_singleton. tauto.
Qed.

Lemma uniqueInto_NoDup (xs : list string) : forall seen : list string,
  NoDup seen -> NoDup (uniqueInto seen xs).
Proof.
  induction xs as [| y r IH]; intros seen Hseen; cbn [uniqueInto]; [exact Hseen |].
  apply IH. case_bool_decide as Hy; [exact Hseen |].
  apply NoDup_app. split; [exact Hseen |]. split; [| apply NoDup_singleton].
  intros x Hx Hx'. apply list_elem_of_singleton in Hx'. subst x. exact (Hy Hx).
Qed.

Lemma insertString_perm (x : string) (l : list string) :
  Permutation (insertString x l) (x :: l).
Proof.
  induction l as [| y r IH]; cbn [insertString]; [reflexivity |].
  destruct (String.compare x y); try reflexivity.
  rewrite IH. apply perm_swap.
Qed.

Lemma sortStrings_perm (l : list string) : Permutation (sortStrings l) l.
Proof.
  induction l as [| x r IH]; cbn [sortStrings]; [reflexivity |].
  rewrite insertString_perm. constructor. exact IH.
Qed.

Lemma precedes_trans (a b c : string) :
  precedes a b -> precedes b c -> precedes a c.
Proof.
  unfold precedes. intros Hab Hbc.
  destruct (String.compare a b) eqn:Eab; [| | congruence].
  - apply String.compare_eq_iff in Eab. subst b. exact Hbc.
  - destruct (String.compare b c) eqn:Ebc; [| | congruence].
    + apply String.compare_eq_iff in Ebc. subst c. rewrite Eab. discriminate.
    + change (String.compare a b) with (Structures.OrderedTypeEx.String_as_OT.cmp a b) in Eab.
      change (String.compare b c) with (Structures.OrderedTypeEx.String_as_OT.cmp b c) in Ebc.
      apply Structures.OrderedTypeEx.String_as_OT.cmp_lt in Eab.
      apply Structures.OrderedTypeEx.String_as_OT.cmp_lt in Ebc.
      pose proof (Structures.OrderedTypeEx.String_as_OT.lt_trans _ _ _ Eab Ebc) as Hac.
      apply Structures.OrderedTypeEx.String_as_OT.cmp_lt in Hac.
      change (Structures.OrderedTypeEx.String_as_OT.cmp a c) with (String.compare a c) in Hac.
      rewrite Hac. discriminate.
Qed.

Lemma insertString_sorted (x : string) (l : list string) :
  StronglySorted precedes l -> StronglySorted precedes (insertString x l).
Proof.
  intros Hs. induction Hs as [| y r Hr IH Hall]; cbn [insertString].
  - repeat constructor.
  - destruct (String.compare x y) eqn:Exy.
    + constructor; [constructor; assumption |].
      assert (Hxy : precedes x y) by (unfold precedes; rewrite Exy; discriminate).
      constructor; [exact Hxy |].
      eapply List.Forall_impl; [| exact Hall]. intros z Hz.
      exact (precedes_trans _ _ _ Hxy Hz).
    + constructor; [constructor; assumption |].
      assert (Hxy : precedes x y) by (unfold precedes; rewrite Exy; discriminate).
      constructor; [exact Hxy |].
      eapply List.Forall_impl; [| exact Hall]. intros z Hz.
      exact (precedes_trans _ _ _ Hxy Hz).
    + constructor; [exact IH |].
      eapply Permutation_Forall; [symmetry; apply insertString_perm |].
      constructor; [| exact Hall].
      unfold precedes. rewrite String.compare_antisym, Exy. discriminate.
Qed.

Lemma sortStrings_sorted (l : list string) : StronglySorted precedes (sortStrings l).
Proof.
  induction l as [| x r IH]; cbn [sortStrings]; [constructor |].
  apply insertString_sorted. exact IH.
Qed.

(** Sorted and without repetition: strictly ascending. *)
Lemma sorted_NoDup_strict (l : list string) :
  StronglySorted precedes l -> NoDup l ->
  StronglySorted (fun a b => String.compare a b = Lt) l.
Proof.
  intros Hs. induction Hs as [| x r Hr IH Hall]; intros Hnd; [constructor |].
  apply NoDup_cons in Hnd as [Hx Hnd].
  constructor; [exact (IH Hnd) |].
  apply List.Forall_forall. intros y Hy.
  pose proof (proj1 (List.Forall_forall _ _) Hall y Hy) as Hxy.
  unfold precedes in Hxy.
  destruct (String.compare x y) eqn:E; [| reflexivity | congruence].
  apply String.compare_eq_iff in E. subst y.
  exfalso. apply Hx. apply list_elem_of_In. exact Hy.
Qed.

Lemma existingTags_elem (cards : list Flashcard) (tag : string) :
  tag ∈ Index.existingTags cards
  <-> exists card : Flashcard, card ∈ cards /\ tag ∈ tags card.
Proof.
  unfold Index.existingTags, unique.
  rewrite (sortStrings_perm _), uniqueInto_elem, elem_of_nil.
  rewrite list_elem_of_In, in_flat_map.
  split.
  - intros [[] | (card & Hc & Ht)]. exists card.
    split; apply list_elem_of_In; assumption.
  - intros (card & Hc & Ht). right. exists card.
    split; apply list_elem_of_In; assumption.
Qed.

End TagFacts.

(** The tags offered for suggestion and for filtering are exactly the
    tags that some card carries, each once, in strictly ascending order
    of code units; Index and StudyMode compute the same list. *)
Theorem existingTags_are_the_tags_in_use (a : App.t) :
  (forall tag : string,
     tag ∈ Index.existingTags (flashcards a)
     <-> exists card : Flashcard, card ∈ flashcards a /\ tag ∈ tags card)
  /\ NoDup (Index.existingTags (flashcards a))
  /\ StronglySorted (fun x y => String.compare x y = Lt)
       (Index.existingTags (flashcards a))
  /\ StudyMode.allTags a = Index.existingTags (flashcards a).
Proof.
  split; [intros tag; apply TagFacts.existingTags_elem |].
  assert (Hnd : NoDup (Index.existingTags (flashcards a))).
  { unfold Index.existingTags, unique.
    rewrite (TagFacts.sortStrings_perm _).
    apply TagFacts.uniqueInto_NoDup. apply NoDup_nil_2. }
  split; [exact Hnd |]. split; [| reflexivity].
  apply TagFacts.sorted_NoDup_strict; [| exact Hnd].
  apply TagFacts.sortStrings_sorted.
Qed.

(** Every tag offered in the filter of the study view has at least one
    card: with the mastered cards shown, selecting it never gives an
    empty view. *)
Theorem listed_tag_has_cards (a : App.t) (tag : string) :
  tag ∈ StudyMode.allTags a ->
  StudyMode.filteredCards (flashcards a) tag true <> [].
Proof.
  intros Htag. change (StudyMode.allTags a) with (Index.existingTags (flashcards a)) in Htag.
  apply TagFacts.existingTags_elem in Htag as (card & Hc & Ht).
  assert (Hin : In card (StudyMode.filteredCards (flashcards a) tag true)).
  { rewrite ViewFacts.filteredCards_spec. unfold Spec.filteredView.
    apply List.filter_In. split; [| reflexivity].
    apply List.filter_In. split; [apply list_elem_of_In; exact Hc |].
    unfold Spec.tagMatches. apply bool_decide_eq_true. right. exact Ht. }
  intros Hempty. rewrite Hempty in Hin. exact Hin.
Qed.

Lemma listed_tag_has_cards_witness :
  let a := Sample.studying [Sample.A; Sample.B; Sample.C] 0 false true in
  StudyMode.allTags a = ["x"; "y"]
  /\ StudyMode.filteredCards (flashcards a) "y" true <> [].
Proof.
  intros a. split; [reflexivity |].
  apply (listed_tag_has_cards a "y"). vm_compute.
  apply list_elem_of_In. right. left. reflexivity.
Defined.

(** ** The repository and the creation form *)

Module CreateFacts.
Import Js Card App.

(** A submitted form that passes the check, unfolded. *)
Lemma handleSubmit_valid (rnd : string) (f : CreateFlashcard.Form) (a : App.t) :
  CreateFlashcard.trim (CreateFlashcard.question f) <> EmptyString ->
  CreateFlashcard.trim (CreateFlashcard.answer f) <> EmptyString ->
  CreateFlashcard.handleSubmit rnd f a
  = (CreateFlashcard.blank,
     toast
       (Index.handleFlashcardCreate rnd
          {| id := EmptyString;
             question := CreateFlashcard.trim (CreateFlashcard.question f);
             answer := CreateFlashcard.trim (CreateFlashcard.answer f);
             tags := CreateFlashcard.tags f;
             mastered := false; reviewCount := 0; lastReviewed := Absent |} a)
       "Flashcard Created!" false).
Proof.
  intros Hq Ha. unfold CreateFlashcard.handleSubmit.
  apply String.eqb_neq in Hq. apply String.eqb_neq in Ha.
  rewrite Hq, Ha. reflexivity.
Qed.

Lemma handleSubmit_cases (rnd : string) (f : CreateFlashcard.Form) (a : App.t) :
  CreateFlashcard.handleSubmit rnd f a = (f, toast a "Missing Information" true)
  \/ (CreateFlashcard.trim (CreateFlashcard.question f) <> EmptyString
      /\ CreateFlashcard.trim (CreateFlashcard.answer f) <> EmptyString).
Proof.
  unfold CreateFlashcard.handleSubmit.
  destruct (String.eqb_spec (CreateFlashcard.trim (CreateFlashcard.question f))
              EmptyString) as [Hq | Hq]; [left; reflexivity |].
  destruct (String.eqb_spec (CreateFlashcard.trim (CreateFlashcard.answer f))
              EmptyString) as [Ha | Ha]; [left; reflexivity |].
  right. split; assumption.
Qed.

Lemma filter_NoDup (p : string -> bool) (l : list string) :
  NoDup l -> NoDup (List.filter p l).
Proof.
  intros Hl. apply (sublist_NoDup _ l Hl). apply ViewFacts.filter_sublist.
Qed.

Lemma snoc_NoDup (x : string) (l : list string) :
  NoDup l -> x ∉ l -> NoDup (l ++ [x]).
Proof.
  intros Hl Hx. apply NoDup_app. split; [exact Hl |].
  split; [| apply NoDup_singleton].
  intros y Hy Hy'. apply list_elem_of_singleton in Hy'. subst y. exact (Hx Hy).
Qed.

Lemma edit_NoDup (f : CreateFlashcard.Form) (e : CreateFlashcard.Edit) :
  NoDup (CreateFlashcard.tags f) ->
  NoDup (CreateFlashcard.tags (CreateFlashcard.edit f e)).
Proof.
  intros Hf. destruct e as [s | s | s | | tag | tag]; cbn [CreateFlashcard.edit];
    try exact Hf.
  - unfold CreateFlashcard.handleAddTag.
    destruct (negb _); [| exact Hf]. case_bool_decide as Hin; [exact Hf |].
    cbn [negb andb CreateFlashcard.tags]. apply snoc_NoDup; assumption.
  - cbn [CreateFlashcard.handleRemoveTag CreateFlashcard.tags].
    apply filter_NoDup. exact Hf.
  - unfold CreateFlashcard.handleTagSuggestionClick.
    case_bool_decide as Hin; [exact Hf |].
    cbn [negb CreateFlashcard.tags]. apply snoc_NoDup; assumption.
Qed.

Lemma edits_NoDup (edits : list CreateFlashcard.Edit) :
  forall f : CreateFlashcard.Form,
    NoDup (CreateFlashcard.tags f) ->
    NoDup (CreateFlashcard.tags (fold_left CreateFlashcard.edit edits f)).
Proof.
  induction edits as [| e r IH]; intros f Hf; [exact Hf |].
  cbn [fold_left]. apply IH. apply edit_NoDup. exact Hf.
Qed.

End CreateFacts.

(** An update never adds, removes or moves a card: the ids of the
    repository are as before, position by position; each card is either
    kept or, when it carries the id of the updated card, replaced by
    it. With an id that no card carries the repository is unchanged. *)
Theorem handleFlashcardUpdate_replaces_in_place (updatedCard : Flashcard)
    (a : App.t) :
  map id (flashcards (Index.handleFlashcardUpdate updatedCard a))
  = map id (flashcards a)
  /\ (forall (i : nat) (card : Flashcard),
        nth_error (flashcards a) i = Some card ->
        nth_error (flashcards (Index.handleFlashcardUpdate updatedCard a)) i
        = Some (if String.eqb (id card) (id updatedCard)
                then updatedCard else card))
  /\ ((forall card : Flashcard,
         In card (flashcards a) -> id card <> id updatedCard) ->
      flashcards (Index.handleFlashcardUpdate updatedCard a) = flashcards a).
Proof.
  unfold Index.handleFlashcardUpdate.
  rewrite (proj1 (StateFacts.setFlashcards_apply a _)).
  split; [| split].
  - rewrite map_map. apply map_ext. intros card.
    destruct (String.eqb_spec (id card) (id updatedCard)) as [He | _];
      [symmetry; exact He | reflexivity].
  - intros i card Hi. rewrite nth_error_map, Hi. reflexivity.
  - intros Hnone. induction (flashcards a) as [| card r IH]; [reflexivity |].
    cbn [map]. rewrite IH by (intros c Hc; apply Hnone; right; exact Hc).
    destruct (String.eqb_spec (id card) (id updatedCard)) as [He | _];
      [| reflexivity].
    exfalso. apply (Hnone card); [left; reflexivity | exact He].
Qed.

Lemma handleFlashcardUpdate_replaces_in_place_witness :
  let a := Sample.studying [Sample.A; Sample.B] 0 false false in
  flashcards (Index.handleFlashcardUpdate (Sample.card "Z" [] true 9) a)
  = flashcards a.
Proof.
  intros a.
  apply (handleFlashcardUpdate_replaces_in_place (Sample.card "Z" [] true 9) a).
  intros card [<- | [<- | []]]; discriminate.
Defined.

(** The first card, and only the first, brings the prompt to study:
    created in an empty repository with no timer pending, it leaves one
    timer due 1500 ms later; nothing happens before that time, and when
    the timer runs the study view opens. A card created in a repository
    that is not empty schedules nothing. *)
Theorem first_card_opens_study (rnd : string) (f : CreateFlashcard.Form)
    (a : App.t) :
  CreateFlashcard.trim (CreateFlashcard.question f) <> EmptyString ->
  CreateFlashcard.trim (CreateFlashcard.answer f) <> EmptyString ->
  timers a = [] ->
  (flashcards a = [] ->
   timers (snd (CreateFlashcard.handleSubmit rnd f a))
   = [{| due := clock a + 1500; job := FirstCardPrompt |}]
   /\ (forall ms : Z, ms < 1500 ->
         Runtime.fire (elapse (snd (CreateFlashcard.handleSubmit rnd f a)) ms)
         = elapse (snd (CreateFlashcard.handleSubmit rnd f a)) ms)
   /\ currentView
        (Runtime.fire (elapse (snd (CreateFlashcard.handleSubmit rnd f a)) 1500))
      = study
   /\ timers
        (Runtime.fire (elapse (snd (CreateFlashcard.handleSubmit rnd f a)) 1500))
      = [])
  /\ (flashcards a <> [] ->
      timers (snd (CreateFlashcard.handleSubmit rnd f a)) = []).
Proof.
  intros Hq Ha Ht.
  rewrite (CreateFacts.handleSubmit_valid rnd f a Hq Ha). cbn [snd].
  unfold Index.handleFlashcardCreate.
  cbn [id question answer tags mastered reviewCount lastReviewed].
  match goal with
  | |- context [Index.setFlashcards a (Hook.Apply (fun prev => Ok (@?g prev)))] =>
      pose proof (StateFacts.setFlashcards_apply a g) as (_ & _ & Htm & _ & Hck)
  end.
  cbn beta in Htm, Hck.
  split.
  - intros Hempty. rewrite Hempty.
    change (Z.of_nat (length (@nil Flashcard)) =? 0) with true. cbv iota.
    assert (Htimers :
      forall ms : Z,
        timers (elapse (toast (setTimeout
          (Index.setFlashcards a (Hook.Apply (fun prev => Ok (prev ++ [
             {| id := Index.generateId (clock a) rnd;
                question := CreateFlashcard.trim (CreateFlashcard.question f);
                answer := CreateFlashcard.trim (CreateFlashcard.answer f);
                tags := CreateFlashcard.tags f; mastered := false;
                reviewCount := 0; lastReviewed := Absent |}]))))
          FirstCardPrompt 1500) "Flashcard Created!" false) ms)
        = [{| due := clock a + 1500; job := FirstCardPrompt |}]).
    { intros ms. cbn [timers elapse toast setTimeout with_timers].
      rewrite Htm, Hck, Ht. reflexivity. }
    split; [| split; [| split]].
    + cbn [timers toast setTimeout with_timers].
      rewrite Htm, Hck, Ht. reflexivity.
    + intros ms Hms. unfold Runtime.fire. rewrite Htimers.
      cbn [Runtime.earliest due clock elapse toast setTimeout with_timers].
      rewrite Hck. destruct (Z.leb_spec (clock a + 1500) (clock a + ms));
        [lia | reflexivity].
    + unfold Runtime.fire. rewrite Htimers.
      cbn [Runtime.earliest due clock elapse toast setTimeout with_timers].
      rewrite Hck. rewrite Z.leb_refl. reflexivity.
    + unfold Runtime.fire. rewrite Htimers.
      cbn [Runtime.earliest due clock elapse toast setTimeout with_timers].
      rewrite Hck. rewrite Z.leb_refl. reflexivity.
  - intros Hne. destruct (flashcards a) as [| c r] eqn:Hcards; [contradiction |].
    cbn [length]. destruct (Z.eqb_spec (Z.of_nat (S (length r))) 0); [lia |].
    cbn [timers toast].
    rewrite Htm. exact Ht.
Qed.

Lemma first_card_opens_study_witness :
  let a := Sample.boot Storage.empty 1700000000000 in
  let a1 := snd (CreateFlashcard.handleSubmit "4fzyo82mvyr"
                   (Sample.form "Q1" "A1" []) a) in
  timers a1 = [{| due := 1700000001500; job := FirstCardPrompt |}]
  /\ currentView (Runtime.fire (elapse a1 1500)) = study.
Proof.
  intros a a1.
  assert (Hq : CreateFlashcard.trim "Q1" <> EmptyString) by (vm_compute; discriminate).
  assert (Ha : CreateFlashcard.trim "A1" <> EmptyString) by (vm_compute; discriminate).
  destruct (proj1 (first_card_opens_study "4fzyo82mvyr"
                     (Sample.form "Q1" "A1" []) a Hq Ha eq_refl) eq_refl)
    as (Ht & _ & Hv & _).
  split; [exact Ht | exact Hv].
Defined.

(** However the form is filled in (typing, adding and removing tags,
    clicking suggestions), the tags of the card it creates are pairwise
    distinct. *)
Theorem created_card_has_distinct_tags (edits : list CreateFlashcard.Edit)
    (rnd : string) (a : App.t) :
  Forall (fun card => NoDup (tags card)) (flashcards a) ->
  Forall (fun card => NoDup (tags card))
    (flashcards
       (snd (CreateFlashcard.handleSubmit rnd
               (fold_left CreateFlashcard.edit edits CreateFlashcard.blank) a))).
Proof.
  intros Hcards.
  set (f := fold_left CreateFlashcard.edit edits CreateFlashcard.blank).
  assert (Hf : NoDup (CreateFlashcard.tags f))
    by (apply CreateFacts.edits_NoDup; apply NoDup_nil_2).
  destruct (CreateFacts.handleSubmit_cases rnd f a) as [-> | [Hq Ha]];
    [exact Hcards |].
  rewrite (CreateFacts.handleSubmit_valid rnd f a Hq Ha). cbn [snd].
  unfold Index.handleFlashcardCreate.
  cbn [id question answer tags mastered reviewCount lastReviewed].
  match goal with
  | |- context [Index.setFlashcards a (Hook.Apply (fun prev => Ok (@?g prev)))] =>
      pose proof (proj1 (StateFacts.setFlashcards_apply a g)) as Hnew
  end.
  cbn beta in Hnew.
  destruct (Z.of_nat (length (flashcards a)) =? 0);
    cbn [flashcards toast setTimeout with_timers]; rewrite Hnew;
    (apply Forall_app; split; [exact Hcards |]);
    (constructor; [exact Hf | constructor]).
Qed.

Lemma created_card_has_distinct_tags_witness :
  let edits := [CreateFlashcard.TypeQuestion "Q"; CreateFlashcard.TypeAnswer "A";
                CreateFlashcard.TypeTag " geo "; CreateFlashcard.AddTag;
                CreateFlashcard.TypeTag "geo"; CreateFlashcard.AddTag;
                CreateFlashcard.SuggestionClick "geo";
                CreateFlashcard.SuggestionClick "x"] in
  Forall (fun card => NoDup (tags card))
    (flashcards
       (snd (CreateFlashcard.handleSubmit "4fzyo82mvyr"
               (fold_left CreateFlashcard.edit edits CreateFlashcard.blank)
               (Sample.studying [Sample.A] 0 false false)))).
Proof.
  intros edits. apply created_card_has_distinct_tags.
  constructor; [| constructor].
  apply NoDup_cons. split; [apply not_elem_of_nil | apply NoDup_nil_2].
Defined.

(** Submitting twice creates one card at most: the form that a
    submission leaves behind, submitted again as it is, is refused. *)
Theorem resubmission_is_refused (rnd rnd' : string) (f : CreateFlashcard.Form)
    (a a' : App.t) :
  CreateFlashcard.handleSubmit rnd'
    (fst (CreateFlashcard.handleSubmit rnd f a)) a'
  = (fst (CreateFlashcard.handleSubmit rnd f a),
     toast a' "Missing Information" true).
Proof.
  destruct (CreateFacts.handleSubmit_cases rnd f a) as [Hbad | [Hq Ha]].
  - rewrite Hbad. cbn [fst].
    destruct (CreateFacts.handleSubmit_cases rnd' f a') as [Hbad' | [Hq Ha]];
      [exact Hbad' |].
    rewrite (CreateFacts.handleSubmit_valid rnd f a Hq Ha) in Hbad.
    injection Hbad as Hblank _. rewrite <- Hblank in Hq.
    exfalso. apply Hq. reflexivity.
  - rewrite (CreateFacts.handleSubmit_valid rnd f a Hq Ha). reflexivity.
Qed.

(** ** Runs of events *)

Module RunFacts.
Import Js Json Card App.

Local Abbreviation created rnd f now :=
  {| id := Index.generateId now rnd;
     question := CreateFlashcard.trim (CreateFlashcard.question f);
     answer := CreateFlashcard.trim (CreateFlashcard.answer f);
     tags := CreateFlashcard.tags f;
     mastered := false; reviewCount := 0; lastReviewed := Absent |}.

Local Abbreviation marked c now :=
  (reviewed c (negb (mastered c)) (reviewCount c + 1)
     (ADate (JsDate.TimeClip now))).

Local Abbreviation marking c now :=
  (fun card : Flashcard =>
     if String.eqb (id card) (id c) then marked c now else card).

Lemma setValue_items_other {T : Type} `{Shape T} (ls : Storage.t)
    (key key' : string) (stored : T) (value : Hook.Update T) :
  key <> key' ->
  Storage.items (snd (Hook.setValue ls key stored value)) !! key'
  = Storage.items ls !! key'.
Proof.
  intros Hne. unfold Hook.setValue.
  destruct (match value with Hook.Put v => Ok v | Hook.Apply f => f stored end)
    as [v | e]; [| reflexivity].
  unfold Storage.setItem. destruct (Storage.writeFails ls); [reflexivity |].
  cbn [snd Storage.items]. apply lookup_insert_ne. exact Hne.
Qed.

Lemma keeps_refl (a : App.t) : Runtime.keepsRepository a a.
Proof. unfold Runtime.keepsRepository. auto. Qed.

Lemma keeps_trans (a b c : App.t) :
  Runtime.keepsRepository a b -> Runtime.keepsRepository b c ->
  Runtime.keepsRepository a c.
Proof.
  intros (H1 & H2 & H3 & H4) (G1 & G2 & G3 & G4).
  unfold Runtime.keepsRepository.
  rewrite G1, G2, G3, G4. auto.
Qed.

(** A [useLocalStorage] setter of the study session. *)
Lemma keeps_stored {T : Type} `{Shape T} (key : string) (stored : T)
    (value : Hook.Update T) (s : T -> StudyState) (a : App.t) :
  key <> "flashmaster-cards" ->
  Runtime.keepsRepository a
    (let '(v, ls) := Hook.setValue (storage a) key stored value in
     with_storage (with_session a (s v)) ls).
Proof.
  intros Hne.
  pose proof (setValue_items_other (storage a) key "flashmaster-cards"
                stored value Hne) as Hitems.
  pose proof (HookFacts.setValue_flags (storage a) key stored value)
    as [Hr Hw].
  destruct (Hook.setValue (storage a) key stored value) as [v ls].
  cbn [snd] in Hitems, Hr, Hw. unfold Runtime.keepsRepository.
  cbn [flashcards storage with_storage with_session]. auto.
Qed.

Section Keeps.
Variables a b : App.t.
Hypothesis Hab : Runtime.keepsRepository a b.

Lemma keeps_setIsFlipped (v : bool) :
  Runtime.keepsRepository a (StudyMode.setIsFlipped v b).
Proof.
  apply (keeps_trans a b); [exact Hab |].
  unfold Runtime.keepsRepository. auto.
Qed.

Lemma keeps_setCurrentIndex (value : Hook.Update Z) :
  Runtime.keepsRepository a (StudyMode.setCurrentIndex value b).
Proof.
  apply (keeps_trans a b); [exact Hab |].
  unfold StudyMode.setCurrentIndex. cbv zeta.
  apply (keeps_stored "study-current-index" _ value
           (fun v => {| isFlipped := isFlipped (session b); currentIndex := v;
                        selectedTag := selectedTag (session b);
                        reviewedCards := reviewedCards (session b);
                        showMastered := showMastered (session b);
                        studySession := studySession (session b) |}) b).
  discriminate.
Qed.

Lemma keeps_setSelectedTag (value : Hook.Update string) :
  Runtime.keepsRepository a (StudyMode.setSelectedTag value b).
Proof.
  apply (keeps_trans a b); [exact Hab |].
  unfold StudyMode.setSelectedTag. cbv zeta.
  apply (keeps_stored "study-selected-tag" _ value
           (fun v => {| isFlipped := isFlipped (session b);
                        currentIndex := currentIndex (session b);
                        selectedTag := v;
                        reviewedCards := reviewedCards (session b);
                        showMastered := showMastered (session b);
                        studySession := studySession (session b) |}) b).
  discriminate.
Qed.

Lemma keeps_setReviewedCards (value : Hook.Update Reviewed) :
  Runtime.keepsRepository a (StudyMode.setReviewedCards value b).
Proof.
  apply (keeps_trans a b); [exact Hab |].
  unfold StudyMode.setReviewedCards. cbv zeta.
  apply (keeps_stored "study-reviewed-cards" _ value
           (fun v => {| isFlipped := isFlipped (session b);
                        currentIndex := currentIndex (session b);
                        selectedTag := selectedTag (session b);
                        reviewedCards := v;
                        showMastered := showMastered (session b);
                        studySession := studySession (session b) |}) b).
  discriminate.
Qed.

Lemma keeps_setShowMastered (value : Hook.Update bool) :
  Runtime.keepsRepository a (StudyMode.setShowMastered value b).
Proof.
  apply (keeps_trans a b); [exact Hab |].
  unfold StudyMode.setShowMastered. cbv zeta.
  apply (keeps_stored "study-show-mastered" _ value
           (fun v => {| isFlipped := isFlipped (session b);
                        currentIndex := currentIndex (session b);
                        selectedTag := selectedTag (session b);
                        reviewedCards := reviewedCards (session b);
                        showMastered := v;
                        studySession := studySession (session b) |}) b).
  discriminate.
Qed.

Lemma keeps_setStudySession (value : Hook.Update Session) :
  Runtime.keepsRepository a (StudyMode.setStudySession value b).
Proof.
  apply (keeps_trans a b); [exact Hab |].
  unfold StudyMode.setStudySession. cbv zeta.
  apply (keeps_stored "study-session" _ value
           (fun v => {| isFlipped := isFlipped (session b);
                        currentIndex := currentIndex (session b);
                        selectedTag := selectedTag (session b);
                        reviewedCards := reviewedCards (session b);
                        showMastered := showMastered (session b);
                        studySession := v |}) b).
  discriminate.
Qed.

Lemma keeps_toast (ttl : string) (bad : bool) :
  Runtime.keepsRepository a (toast b ttl bad).
Proof.
  apply (keeps_trans a b); [exact Hab |].
  unfold Runtime.keepsRepository. auto.
Qed.

Lemma keeps_setTimeout (j : Job) (delay : Z) :
  Runtime.keepsRepository a (setTimeout b j delay).
Proof.
  apply (keeps_trans a b); [exact Hab |].
  unfold Runtime.keepsRepository. auto.
Qed.

Lemma keeps_with_timers (ts : list Timer) :
  Runtime.keepsRepository a (with_timers b ts).
Proof.
  apply (keeps_trans a b); [exact Hab |].
  unfold Runtime.keepsRepository. auto.
Qed.

Lemma keeps_elapse (ms : Z) : Runtime.keepsRepository a (elapse b ms).
Proof.
  apply (keeps_trans a b); [exact Hab |].
  unfold Runtime.keepsRepository. auto.
Qed.

Lemma keeps_handleViewChange (view : View) :
  Runtime.keepsRepository a (Index.handleViewChange view b).
Proof.
  apply (keeps_trans a b); [exact Hab |].
  unfold Runtime.keepsRepository. auto.
Qed.

End Keeps.

Ltac keeps :=
  repeat first
    [ apply keeps_setIsFlipped | apply keeps_setCurrentIndex
    | apply keeps_setSelectedTag | apply keeps_setReviewedCards
    | apply keeps_setShowMastered | apply keeps_setStudySession
    | apply keeps_toast | apply keeps_setTimeout | apply keeps_with_timers
    | apply keeps_elapse | apply keeps_handleViewChange ];
  try apply keeps_refl.

Lemma keeps_handleNextIn (a b : App.t) (idx : Z) (cards : list Flashcard) :
  Runtime.keepsRepository a b ->
  Runtime.keepsRepository a (StudyMode.handleNextIn idx cards b).
Proof.
  intros Hab. unfold StudyMode.handleNextIn.
  destruct (idx <? _); [keeps |]; exact Hab.
Qed.

Lemma keeps_resetEffect (a b : App.t) :
  Runtime.keepsRepository a b ->
  Runtime.keepsRepository a (StudyMode.resetEffect b).
Proof. intros Hab. unfold StudyMode.resetEffect. keeps. exact Hab. Qed.

Lemma keeps_fire (a : App.t) : Runtime.keepsRepository a (Runtime.fire a).
Proof.
  unfold Runtime.fire.
  destruct (Runtime.earliest (timers a)) as [[x r] |]; [| apply keeps_refl].
  destruct (due x <=? clock a); [| apply keeps_refl].
  destruct (job x) as [idx cards |]; cbn [Runtime.run].
  - destruct (idx <? _); [apply keeps_handleNextIn |]; keeps.
  - keeps.
Qed.

(** What an event does to the repository: nothing, or one
    [setFlashcards] that appends a new card, or one that marks a card
    of the repository. *)
Lemma step_cases (a : App.t) (e : Events.Event) :
  Runtime.keepsRepository a (Events.step a e)
  \/ (exists (rnd : string) (f : CreateFlashcard.Form),
        Runtime.keepsRepository
          (Index.setFlashcards a
             (Hook.Apply (fun prev => Ok (prev ++ [created rnd f (clock a)]))))
          (Events.step a e))
  \/ (exists c : Flashcard,
        In c (flashcards a)
        /\ Runtime.keepsRepository
             (Index.setFlashcards a
                (Hook.Apply (fun prev => Ok (map (marking c (clock a)) prev))))
             (Events.step a e)).
Proof.
  destruct e as [rnd f | | | | pick | | tag | | view | ms |]; cbn [Events.step].
  - destruct (CreateFacts.handleSubmit_cases rnd f a) as [-> | [Hq Ha]].
    + left. cbn [snd]. keeps.
    + right. left. exists rnd, f.
      rewrite (CreateFacts.handleSubmit_valid rnd f a Hq Ha). cbn [snd].
      unfold Index.handleFlashcardCreate.
      cbn [id question answer tags mastered reviewCount lastReviewed].
      destruct (Z.of_nat (length (flashcards a)) =? 0); keeps.
  - left. unfold StudyMode.handleFlip. keeps.
  - left. apply keeps_handleNextIn. apply keeps_refl.
  - left. unfold StudyMode.handlePrevious. destruct (0 <? _); keeps.
  - left. unfold StudyMode.handleShuffle. keeps.
  - unfold StudyMode.handleMastered.
    destruct (StudyMode.currentCard a) as [c |] eqn:Hc;
      [| left; apply keeps_refl].
    right. right. exists c. split; [exact (StateFacts.currentCard_In a c Hc) |].
    unfold Index.handleFlashcardUpdate.
    change (id (reviewed c (negb (mastered c)) (reviewCount c + 1)
                  (ADate (JsDate.TimeClip (clock a))))) with (id c).
    destruct (StudyMode.newSet (reviewedCards (session a))) as [ids | err];
      cbn [state_of]; [| apply keeps_refl].
    destruct (negb (mastered c)); cbn [state_of]; keeps.
  - left. unfold StudyMode.selectTag.
    destruct (tag =? _)%string; [| apply keeps_resetEffect]; keeps.
  - left. unfold StudyMode.reviewMastered.
    destruct (showMastered (session a)); [| apply keeps_resetEffect]; keeps.
  - left. keeps.
  - left. keeps.
  - left. apply keeps_fire.
Qed.

Lemma step_repository (a : App.t) (e : Events.Event) :
  flashcards (Events.step a e) = flashcards a
  \/ (exists (rnd : string) (f : CreateFlashcard.Form),
        flashcards (Events.step a e)
        = flashcards a ++ [created rnd f (clock a)])
  \/ (exists c : Flashcard,
        In c (flashcards a)
        /\ flashcards (Events.step a e)
           = map (marking c (clock a)) (flashcards a)).
Proof.
  destruct (step_cases a e) as [H | [(rnd & f & H) | (c & Hc & H)]].
  - left. apply H.
  - right. left. exists rnd, f. rewrite (proj1 H).
    apply (StateFacts.setFlashcards_apply a
             (fun prev => prev ++ [created rnd f (clock a)])).
  - right. right. exists c. split; [exact Hc |]. rewrite (proj1 H).
    apply (StateFacts.setFlashcards_apply a (map (marking c (clock a)))).
Qed.

Lemma marked_consistent (c : Flashcard) (now : Z) :
  Events.consistent c -> Events.consistent (marked c now).
Proof.
  intros (Hm & Hn & _). unfold Events.consistent.
  cbn [reviewed mastered reviewCount lastReviewed].
  split; [| split; [lia | split; [discriminate | lia]]].
  rewrite Hm. replace (reviewCount c + 1) with (Z.succ (reviewCount c)) by lia.
  rewrite Z.odd_succ. apply Z.negb_odd.
Qed.

Lemma step_consistent (a : App.t) (e : Events.Event) :
  Forall Events.consistent (flashcards a) ->
  Forall Events.consistent (flashcards (Events.step a e)).
Proof.
  intros Hcards.
  destruct (step_repository a e) as [-> | [(rnd & f & ->) | (c & Hc & ->)]].
  - exact Hcards.
  - apply Forall_app. split; [exact Hcards |].
    constructor; [| constructor].
    unfold Events.consistent. cbn [mastered reviewCount lastReviewed].
    split; [reflexivity | split; [lia | split; reflexivity]].
  - apply List.Forall_map. rewrite List.Forall_forall in Hcards |- *.
    intros card Hcard. destruct (String.eqb (id card) (id c)).
    + apply marked_consistent. apply Hcards. exact Hc.
    + apply Hcards. exact Hcard.
Qed.

(** Cards with distinct ids are told apart by their id. *)
Lemma same_id_same_card (l : list Flashcard) (x y : Flashcard) :
  NoDup (map id l) -> In x l -> In y l -> id x = id y -> x = y.
Proof.
  induction l as [| z r IH]; intros Hnd Hx Hy Hid; [destruct Hx |].
  cbn [map] in Hnd. apply NoDup_cons in Hnd as [Hz Hr].
  assert (Hin : forall w : Flashcard, In w r -> id w ∈ map id r).
  { intros w Hw. apply list_elem_of_In. apply in_map. exact Hw. }
  destruct Hx as [<- | Hx], Hy as [<- | Hy].
  - reflexivity.
  - exfalso. apply Hz. rewrite Hid. apply Hin. exact Hy.
  - exfalso. apply Hz. rewrite <- Hid. apply Hin. exact Hx.
  - apply IH; assumption.
Qed.

Lemma step_ids (a : App.t) (e : Events.Event) :
  exists added : list string,
    map id (flashcards (Events.step a e)) = map id (flashcards a) ++ added.
Proof.
  destruct (step_repository a e) as [-> | [(rnd & f & ->) | (c & Hc & ->)]].
  - exists []. symmetry. apply app_nil_r.
  - eexists. apply map_app.
  - exists []. rewrite app_nil_r, map_map. apply map_ext. intros card.
    destruct (String.eqb_spec (id card) (id c)) as [He | _];
      [symmetry; exact He | reflexivity].
Qed.

(** One event leaves every card in its place with its id, question,
    answer and tags, and does not lower its review count. *)
Lemma step_card (a : App.t) (e : Events.Event) (i : nat) (card : Flashcard) :
  NoDup (map id (flashcards a)) ->
  nth_error (flashcards a) i = Some card ->
  exists card' : Flashcard,
    nth_error (flashcards (Events.step a e)) i = Some card'
    /\ id card' = id card /\ question card' = question card
    /\ answer card' = answer card /\ tags card' = tags card
    /\ reviewCount card <= reviewCount card'.
Proof.
  intros Hnd Hi.
  destruct (step_repository a e) as [-> | [(rnd & f & ->) | (c & Hc & ->)]].
  - exists card. repeat split; try assumption; try reflexivity; lia.
  - exists card. rewrite nth_error_app1
      by (apply nth_error_Some; rewrite Hi; discriminate).
    repeat split; try assumption; try reflexivity; lia.
  - rewrite nth_error_map, Hi. cbn [option_map]. eexists.
    split; [reflexivity |].
    destruct (String.eqb_spec (id card) (id c)) as [He | _].
    + assert (card = c) as ->
        by (apply (same_id_same_card (flashcards a)); auto;
            eapply nth_error_In; eassumption).
      cbn [reviewed id question answer tags reviewCount].
      repeat split; try reflexivity; lia.
    + repeat split; try reflexivity; lia.
Qed.

Lemma keeps_saved (a b : App.t) :
  Runtime.keepsRepository a b -> Runtime.saved a -> Runtime.saved b.
Proof.
  intros (Hf & Hr & Hw & Hi) (Sr & Sw & Si). unfold Runtime.saved.
  rewrite Hf, Hr, Hw, Hi. auto.
Qed.

Lemma setFlashcards_saved (a : App.t) (g : list Flashcard -> list Flashcard) :
  Storage.readFails (storage a) = false ->
  Storage.writeFails (storage a) = false ->
  Runtime.saved (Index.setFlashcards a (Hook.Apply (fun prev => Ok (g prev)))).
Proof.
  intros Hr Hw. unfold Runtime.saved, Index.setFlashcards, Hook.setValue,
    Storage.setItem.
  rewrite Hw.
  cbn [storage flashcards with_storage with_flashcards Storage.readFails
       Storage.writeFails Storage.items].
  rewrite lookup_insert_eq. auto.
Qed.

Lemma step_saved (a : App.t) (e : Events.Event) :
  Runtime.saved a -> Runtime.saved (Events.step a e).
Proof.
  intros Hs. pose proof Hs as (Hr & Hw & _).
  destruct (step_cases a e) as [H | [(rnd & f & H) | (c & _ & H)]].
  - exact (keeps_saved _ _ H Hs).
  - apply (keeps_saved _ _ H). apply setFlashcards_saved; assumption.
  - apply (keeps_saved _ _ H). apply setFlashcards_saved; assumption.
Qed.

Lemma step_wellTyped (a : App.t) (e : Events.Event) :
  Z.abs (clock a) <= JsDate.maxTime ->
  Forall wellTyped (flashcards a) ->
  Forall wellTyped (flashcards (Events.step a e)).
Proof.
  intros Hclock Hcards.
  destruct (step_repository a e) as [-> | [(rnd & f & ->) | (c & Hc & ->)]].
  - exact Hcards.
  - apply Forall_app. split; [exact Hcards |].
    constructor; [exact I | constructor].
  - apply List.Forall_map. rewrite List.Forall_forall in Hcards |- *.
    intros card Hcard. destruct (String.eqb (id card) (id c)).
    + unfold wellTyped. cbn [reviewed lastReviewed]. unfold JsDate.TimeClip.
      destruct (Z.leb_spec (Z.abs (clock a)) JsDate.maxTime); [assumption | lia].
    + apply Hcards. exact Hcard.
Qed.

(** Mounting [Index] on a medium that holds a repository of well-typed
    cards gives that repository. *)
Lemma saved_restores (a a' : App.t) :
  storage a' = storage a ->
  Runtime.saved a -> Forall wellTyped (flashcards a) ->
  exists b : App.t,
    Runtime.mountIndex a' = Some b /\ flashcards b = flashcards a.
Proof.
  intros Hst (Hr & Hw & Hitem) Hcards.
  destruct (JsonFacts.cards_roundtrip (flashcards a)) as (j & Hj & Hback).
  rewrite Hj in Hitem. cbn [Json.text_of] in Hitem.
  unfold Runtime.mountIndex, Hook.useLocalStorage. rewrite Hst.
  rewrite (JsonFacts.read_after_write _ _ j _ Hr Hitem), Hback.
  cbn [mbind option_bind]. eexists. split; [reflexivity |].
  unfold Index.parseDates.
  rewrite (proj1 (StateFacts.setFlashcards_apply _ _)).
  cbn [flashcards with_view with_flashcards].
  apply JsonFacts.parseDates_asStored. exact Hcards.
Qed.

End RunFacts.







(** ** The study view *)

Module StudyFacts.
Import Js Card App.

Lemma at_index_Some {A : Type} (l : list A) (i : Z) (x : A) :
  StudyMode.at_index l i = Some x -> 0 <= i < Z.of_nat (length l).
Proof.
  unfold StudyMode.at_index. destruct (Z.ltb_spec i 0); [discriminate |].
  intros Hx.
  assert (Hlt : (Z.to_nat i < length l)%nat)
    by (apply nth_error_Some; rewrite Hx; discriminate).
  lia.
Qed.

Lemma at_index_in_range {A : Type} (l : list A) (i : Z) :
  0 <= i < Z.of_nat (length l) ->
  exists x : A, StudyMode.at_index l i = Some x.
Proof.
  intros Hi. unfold StudyMode.at_index. destruct (Z.ltb_spec i 0); [lia |].
  destruct (nth_error l (Z.to_nat i)) as [x |] eqn:Hn; [exists x; reflexivity |].
  apply nth_error_None in Hn. lia.
Qed.

Lemma at_index_beyond {A : Type} (l : list A) (i : Z) :
  Z.of_nat (length l) <= i -> StudyMode.at_index l i = None.
Proof.
  intros Hi. unfold StudyMode.at_index. destruct (Z.ltb_spec i 0); [reflexivity |].
  apply nth_error_None. lia.
Qed.

Lemma at_index_succ {A : Type} (l : list A) (i : Z) :
  0 <= i -> StudyMode.at_index l (i + 1) = nth_error l (S (Z.to_nat i)).
Proof.
  intros Hi. unfold StudyMode.at_index. destruct (Z.ltb_spec (i + 1) 0); [lia |].
  replace (Z.to_nat (i + 1)) with (S (Z.to_nat i)) by lia. reflexivity.
Qed.

Lemma view_eq (a b : App.t) :
  flashcards b = flashcards a ->
  selectedTag (session b) = selectedTag (session a) ->
  showMastered (session b) = showMastered (session a) ->
  StudyMode.view b = StudyMode.view a.
Proof. intros Hf Ht Hs. unfold StudyMode.view. rewrite Hf, Ht, Hs. reflexivity. Qed.

Lemma view_sublist (a : App.t) : sublist (StudyMode.view a) (flashcards a).
Proof.
  unfold StudyMode.view. rewrite ViewFacts.filteredCards_spec.
  unfold Spec.filteredView. etransitivity; apply ViewFacts.filter_sublist.
Qed.

Lemma sublist_ids (l k : list Flashcard) :
  sublist l k -> NoDup (map id k) -> NoDup (map id l).
Proof.
  intros Hlk Hk. apply (sublist_NoDup _ (map id k) Hk).
  induction Hlk as [| x l k _ IH | x l k _ IH]; cbn [map].
  - constructor.
  - apply sublist_skip. apply IH. apply NoDup_cons in Hk. apply Hk.
  - apply sublist_cons. apply IH. apply NoDup_cons in Hk. apply Hk.
Qed.

Lemma filteredCards_conj (fl : list Flashcard) (tag : string) (show : bool) :
  StudyMode.filteredCards fl tag show
  = List.filter (fun card => Spec.tagMatches tag card
                            && Spec.masteryMatches show card) fl.
Proof.
  rewrite ViewFacts.filteredCards_spec. unfold Spec.filteredView.
  induction fl as [| x r IH]; [reflexivity |]. cbn [List.filter].
  destruct (Spec.tagMatches tag x); cbn [List.filter andb]; rewrite IH;
    reflexivity.
Qed.

(** With the mastered cards hidden, a card that has just been marked
    leaves the view. *)
Lemma view_hidden_after_marking (fl : list Flashcard) (tag : string)
    (c u : Flashcard) :
  mastered u = true ->
  StudyMode.filteredCards
    (map (fun card => if String.eqb (id card) (id c) then u else card) fl)
    tag false
  = List.filter (fun card => negb (String.eqb (id card) (id c)))
      (StudyMode.filteredCards fl tag false).
Proof.
  intros Hm. rewrite !filteredCards_conj.
  induction fl as [| x r IH]; [reflexivity |]. cbn [map List.filter].
  rewrite IH. destruct (String.eqb (id x) (id c)) eqn:He.
  - unfold Spec.masteryMatches at 1. rewrite Hm, andb_false_r.
    destruct (Spec.tagMatches tag x && Spec.masteryMatches false x);
      cbn [List.filter]; rewrite ?He; reflexivity.
  - destruct (Spec.tagMatches tag x && Spec.masteryMatches false x);
      cbn [List.filter]; rewrite ?He; reflexivity.
Qed.

(** With the mastered cards shown, it stays in its place. *)
Lemma view_shown_after_marking (fl : list Flashcard) (tag : string)
    (c u : Flashcard) :
  tags u = tags c ->
  (forall card : Flashcard, In card fl -> id card = id c -> card = c) ->
  StudyMode.filteredCards
    (map (fun card => if String.eqb (id card) (id c) then u else card) fl)
    tag true
  = map (fun card => if String.eqb (id card) (id c) then u else card)
      (StudyMode.filteredCards fl tag true).
Proof.
  intros Ht Hfl. rewrite !filteredCards_conj.
  induction fl as [| x r IH]; [reflexivity |]. cbn [map List.filter].
  rewrite IH by (intros card Hcard; apply Hfl; right; exact Hcard).
  assert (Hx : Spec.tagMatches tag
                 (if String.eqb (id x) (id c) then u else x)
               = Spec.tagMatches tag x).
  { destruct (String.eqb_spec (id x) (id c)) as [He | _]; [| reflexivity].
    rewrite (Hfl x (or_introl eq_refl) He).
    unfold Spec.tagMatches. rewrite Ht. reflexivity. }
  rewrite Hx. unfold Spec.masteryMatches. cbn [orb]. rewrite !andb_true_r.
  destruct (Spec.tagMatches tag x); reflexivity.
Qed.

Lemma filter_all_In {A : Type} (p : A -> bool) (l : list A) :
  (forall y : A, In y l -> p y = true) -> List.filter p l = l.
Proof.
  induction l as [| x r IH]; intros Hp; [reflexivity |]. cbn [List.filter].
  rewrite (Hp x (or_introl eq_refl)), IH; [reflexivity |].
  intros y Hy. apply Hp. right. exact Hy.
Qed.

(** Removing the card at position [i] moves the cards behind it one
    place forward. *)
Lemma nth_error_without (v : list Flashcard) (c : Flashcard) :
  NoDup (map id v) ->
  forall i j : nat,
    nth_error v i = Some c -> (i <= j)%nat ->
    nth_error
      (List.filter (fun card => negb (String.eqb (id card) (id c))) v) j
    = nth_error v (S j).
Proof.
  induction v as [| x r IH]; intros Hnd i j Hi Hij; [destruct i; discriminate |].
  cbn [map] in Hnd. apply NoDup_cons in Hnd as [Hx Hr]. cbn [List.filter].
  destruct i as [| i]; cbn [nth_error] in Hi.
  - injection Hi as ->. rewrite String.eqb_refl. cbn [negb nth_error].
    rewrite filter_all_In; [reflexivity |].
    intros y Hy. apply negb_true_iff. apply String.eqb_neq. intros He.
    apply Hx. rewrite <- He. apply list_elem_of_In. apply in_map. exact Hy.
  - assert (Hne : String.eqb (id x) (id c) = false).
    { apply String.eqb_neq. intros He. apply Hx. rewrite He.
      apply list_elem_of_In. apply in_map.
      eapply nth_error_In. exact Hi. }
    rewrite Hne. cbn [negb]. destruct j as [| j]; [lia |].
    cbn [nth_error]. apply (IH Hr i j Hi). lia.
Qed.

(** The state that [handleMastered] leaves when the reviewed cards are
    a Set. *)
Lemma handleMastered_state (a : App.t) (c : Flashcard) (ids : list string) :
  StudyMode.currentCard a = Some c ->
  reviewedCards (session a) = NativeSet ids ->
  flashcards (state_of (StudyMode.handleMastered a))
  = map (fun card =>
           if String.eqb (id card) (id c)
           then reviewed c (negb (mastered c)) (reviewCount c + 1)
                  (ADate (JsDate.TimeClip (clock a)))
           else card) (flashcards a)
  /\ session (state_of (StudyMode.handleMastered a))
     = {| isFlipped := isFlipped (session a);
          currentIndex := currentIndex (session a);
          selectedTag := selectedTag (session a);
          reviewedCards := NativeSet (StudyMode.add (id c) ids);
          showMastered := showMastered (session a);
          studySession :=
            {| startTime := startTime (studySession (session a));
               cardsReviewed := cardsReviewed (studySession (session a)) + 1;
               sessionProgress :=
                 setProp (id c)
                   {| reviewedAt := clock a;
                      nowMastered := negb (mastered c) |}
                   (sessionProgress (studySession (session a))) |} |}
  /\ clock (state_of (StudyMode.handleMastered a)) = clock a
  /\ timers (state_of (StudyMode.handleMastered a))
     = timers a
       ++ (if mastered c then []
           else [{| due := clock a + 1000;
                    job := AutoAdvance (currentIndex (session a))
                             (StudyMode.view a) |}]).
Proof.
  intros Hc Hset. unfold StudyMode.handleMastered.
  rewrite Hc, Hset. cbn [StudyMode.newSet].
  rewrite StateFacts.setStudySession_apply, StateFacts.setReviewedCards_put.
  unfold Index.handleFlashcardUpdate.
  change (id (reviewed c (negb (mastered c)) (reviewCount c + 1)
                (ADate (JsDate.TimeClip (clock a))))) with (id c).
  set (u := reviewed c (negb (mastered c)) (reviewCount c + 1)
              (ADate (JsDate.TimeClip (clock a)))).
  pose proof (StateFacts.setFlashcards_apply a
    (map (fun card => if String.eqb (id card) (id c) then u else card)))
    as (Hf & Hs & Ht & _ & Hk).
  clearbody u.
  destruct (mastered c); cbn [negb state_of];
    cbn [flashcards session timers clock reviewedCards currentIndex isFlipped
         selectedTag showMastered studySession
         with_storage with_session with_timers toast setTimeout];
    rewrite ?Hf, ?Hs, ?Ht, ?Hk, ?Hset, ?app_nil_r; auto.
Qed.

(** A control that moves within the view. *)
Lemma navigation_step (a : App.t) (e : Events.Event) :
  0 <= currentIndex (session a) < Z.of_nat (length (StudyMode.view a)) ->
  Events.navigation a e = true ->
  flashcards (Events.step a e) = flashcards a
  /\ selectedTag (session (Events.step a e)) = selectedTag (session a)
  /\ showMastered (session (Events.step a e)) = showMastered (session a)
  /\ 0 <= currentIndex (session (Events.step a e))
     < Z.of_nat (length (StudyMode.view a)).
Proof.
  intros Hi He.
  destruct e as [rnd f | | | | pick | | tag | | view | ms |];
    try discriminate He; cbn [Events.step].
  - unfold StudyMode.handleFlip. cbn. auto.
  - unfold StudyMode.handleNext, StudyMode.handleNextIn.
    destruct (Z.ltb_spec (currentIndex (session a))
                (Z.of_nat (length (StudyMode.view a)) - 1)); [| auto].
    rewrite StateFacts.setCurrentIndex_put. cbn. repeat split; lia.
  - unfold StudyMode.handlePrevious.
    destruct (Z.ltb_spec 0 (currentIndex (session a))); [| auto].
    rewrite StateFacts.setCurrentIndex_put. cbn. repeat split; lia.
  - cbn [Events.navigation] in He. apply andb_prop in He as [Hlo Hhi].
    apply Z.leb_le in Hlo. apply Z.ltb_lt in Hhi.
    unfold StudyMode.handleShuffle. rewrite StateFacts.setCurrentIndex_put.
    cbn. repeat split; lia.
Qed.

Lemma navigation_view (a b : App.t) (es : list Events.Event) :
  StudyMode.view b = StudyMode.view a ->
  forallb (Events.navigation b) es = forallb (Events.navigation a) es.
Proof.
  intros Hv. induction es as [| e r IH]; [reflexivity |].
  cbn [forallb]. rewrite IH. f_equal.
  unfold Events.navigation. rewrite Hv. reflexivity.
Qed.

Lemma resetEffect_state (a : App.t) :
  flashcards (StudyMode.resetEffect a) = flashcards a
  /\ session (StudyMode.resetEffect a)
     = {| isFlipped := false; currentIndex := 0;
          selectedTag := selectedTag (session a);
          reviewedCards := reviewedCards (session a);
          showMastered := showMastered (session a);
          studySession := studySession (session a) |}.
Proof.
  unfold StudyMode.resetEffect. rewrite StateFacts.setCurrentIndex_put.
  split; reflexivity.
Qed.

(** What is on the screen when the cursor is on 0. *)
Lemma screen_at_zero (a : App.t) :
  currentIndex (session a) = 0 ->
  StudyMode.screen a
  = match flashcards a with
    | [] => StudyMode.NoFlashcardsAvailable
    | _ :: _ =>
        match StudyMode.view a with
        | [] => StudyMode.AllCardsMastered
        | card :: _ => StudyMode.Studying card
        end
    end.
Proof.
  intros Hi. unfold StudyMode.screen, StudyMode.currentCard. rewrite Hi.
  destruct (flashcards a) as [| x r]; [reflexivity |].
  cbn [length]. destruct (Z.eqb_spec (Z.of_nat (S (length r))) 0); [lia |].
  destruct (StudyMode.view a) as [| y v]; reflexivity.
Qed.

End StudyFacts.



(** With the mastered cards hidden, marking the current card takes it
    out of the view, so that the next card is under the cursor at
    once; the timer that then advances the cursor, one second later,
    moves past that card: the card shown in the end is the one two
    places behind the marked card in the view as it was, and nothing
    is shown when there is none. *)
Theorem marking_hidden_skips_a_card (a : App.t) (c : Flashcard)
    (ids : list string) :
  NoDup (map id (flashcards a)) ->
  showMastered (session a) = false ->
  reviewedCards (session a) = NativeSet ids ->
  timers a = [] ->
  StudyMode.currentCard a = Some c ->
  StudyMode.view (state_of (StudyMode.handleMastered a))
  = List.filter (fun card => negb (String.eqb (id card) (id c)))
      (StudyMode.view a)
  /\ StudyMode.currentCard (state_of (StudyMode.handleMastered a))
     = StudyMode.at_index (StudyMode.view a) (currentIndex (session a) + 1)
  /\ StudyMode.currentCard
       (Runtime.fire (elapse (state_of (StudyMode.handleMastered a)) 1000))
     = StudyMode.at_index (StudyMode.view a) (currentIndex (session a) + 2).
Proof.
  intros Hnd Hshow Hset Htimers Hc.
  destruct (StudyFacts.handleMastered_state a c ids Hc Hset)
    as (Hf & Hs & Hk & Ht).
  pose proof (StudyFacts.at_index_Some _ _ _ Hc) as Hi.
  assert (Hm : mastered c = false).
  { pose proof (StateFacts.at_index_In _ _ _ Hc) as Hin.
    unfold StudyMode.view in Hin. rewrite StudyFacts.filteredCards_conj in Hin.
    apply List.filter_In in Hin as [_ Hp]. apply andb_prop in Hp as [_ Hp].
    unfold Spec.masteryMatches in Hp. rewrite Hshow in Hp.
    apply negb_true_iff. exact Hp. }
  rewrite Hm, Htimers in Ht. cbn [app] in Ht.
  set (a1 := state_of (StudyMode.handleMastered a)) in *.
  set (v := StudyMode.view a) in *.
  set (i := currentIndex (session a)) in *.
  assert (Hv1 : StudyMode.view a1
                = List.filter (fun card => negb (String.eqb (id card) (id c))) v).
  { unfold v, StudyMode.view. rewrite Hf, Hs.
    cbn [selectedTag showMastered]. rewrite Hshow.
    apply StudyFacts.view_hidden_after_marking. rewrite Hm. reflexivity. }
  assert (Hndv : NoDup (map id v))
    by exact (StudyFacts.sublist_ids _ _ (StudyFacts.view_sublist a) Hnd).
  assert (Hnth : nth_error v (Z.to_nat i) = Some c).
  { unfold StudyMode.currentCard, StudyMode.at_index in Hc. fold v i in Hc.
    destruct (Z.ltb_spec i 0); [lia | exact Hc]. }
  assert (Hshift : forall j : Z, i <= j ->
            StudyMode.at_index (StudyMode.view a1) j
            = StudyMode.at_index v (j + 1)).
  { intros j Hj. rewrite Hv1, StudyFacts.at_index_succ by lia.
    unfold StudyMode.at_index. destruct (Z.ltb_spec j 0); [lia |].
    apply (StudyFacts.nth_error_without v c Hndv (Z.to_nat i)); [exact Hnth | lia]. }
  split; [exact Hv1 |]. split.
  - unfold StudyMode.currentCard. rewrite Hs. cbn [currentIndex]. fold i.
    apply Hshift. lia.
  - unfold Runtime.fire. cbn [timers elapse clock]. rewrite Ht, Hk.
    cbn [Runtime.earliest due job]. rewrite Z.leb_refl. cbn [Runtime.run].
    unfold StudyMode.handleNextIn.
    destruct (Z.ltb_spec i (Z.of_nat (length v) - 1)) as [Hlt | Hge].
    + rewrite StateFacts.setCurrentIndex_put.
      unfold StudyMode.currentCard, StudyMode.view.
      cbn [session flashcards with_storage with_session with_timers elapse
           StudyMode.setIsFlipped currentIndex selectedTag showMastered].
      fold (StudyMode.view a1). rewrite Hshift by lia.
      f_equal. lia.
    + unfold StudyMode.currentCard, StudyMode.view.
      cbn [session flashcards with_timers elapse].
      fold (StudyMode.view a1). rewrite Hs. cbn [currentIndex]. fold i.
      rewrite Hshift by lia.
      rewrite !StudyFacts.at_index_beyond by lia. reflexivity.
Qed.

Lemma marking_hidden_skips_a_card_witness :
  let a := Sample.studying [Sample.A; Sample.B; Sample.C] 0 true false in
  StudyMode.currentCard
    (Runtime.fire (elapse (state_of (StudyMode.handleMastered a)) 1000))
  = Some Sample.C.
Proof.
  intros a.
  refine (proj2 (proj2 (marking_hidden_skips_a_card a Sample.A [] _ eq_refl
                          eq_refl eq_refl eq_refl))).
  vm_compute. repeat (apply NoDup_cons; split);
    try apply NoDup_nil_2; rewrite list_elem_of_In; cbn;
    intuition discriminate.
Defined.



(** Choosing another tag puts the cursor on the first card of the new
    view: the view is the repository filtered by the new tag, the card
    is unflipped, and the screen shows the first card of the view, or
    the notice that all cards are mastered when the view is empty. *)
Theorem tag_change_shows_first_card (tag : string) (a : App.t) :
  tag <> selectedTag (session a) ->
  StudyMode.view (StudyMode.selectTag tag a)
  = StudyMode.filteredCards (flashcards a) tag (showMastered (session a))
  /\ isFlipped (session (StudyMode.selectTag tag a)) = false
  /\ StudyMode.screen (StudyMode.selectTag tag a)
     = match flashcards a with
       | [] => StudyMode.NoFlashcardsAvailable
       | _ :: _ =>
           match StudyMode.filteredCards (flashcards a) tag
                   (showMastered (session a)) with
           | [] => StudyMode.AllCardsMastered
           | card :: _ => StudyMode.Studying card
           end
       end.
Proof.
  intros Hne. unfold StudyMode.selectTag.
  apply String.eqb_neq in Hne. rewrite Hne.
  destruct (StudyFacts.resetEffect_state
              (StudyMode.setSelectedTag (Hook.Put tag) a)) as [Hf Hs].
  assert (Hf0 : flashcards (StudyMode.setSelectedTag (Hook.Put tag) a)
                = flashcards a)
    by (rewrite HookFacts.setSelectedTag_put; reflexivity).
  assert (Hs0 : session (StudyMode.setSelectedTag (Hook.Put tag) a)
                = {| isFlipped := isFlipped (session a);
                     currentIndex := currentIndex (session a);
                     selectedTag := tag;
                     reviewedCards := reviewedCards (session a);
                     showMastered := showMastered (session a);
                     studySession := studySession (session a) |})
    by (rewrite HookFacts.setSelectedTag_put; reflexivity).
  rewrite Hf0 in Hf. rewrite Hs0 in Hs.
  cbn [selectedTag showMastered reviewedCards studySession] in Hs.
  assert (Hv : StudyMode.view
                 (StudyMode.resetEffect (StudyMode.setSelectedTag (Hook.Put tag) a))
               = StudyMode.filteredCards (flashcards a) tag
                   (showMastered (session a))).
  { unfold StudyMode.view. rewrite Hf, Hs. reflexivity. }
  split; [exact Hv |]. split; [rewrite Hs; reflexivity |].
  rewrite StudyFacts.screen_at_zero by (rewrite Hs; reflexivity).
  rewrite Hf, Hv. reflexivity.
Qed.

Lemma tag_change_shows_first_card_witness :
  let a := Sample.studying [Sample.A; Sample.B; Sample.C] 2 true false in
  StudyMode.screen (StudyMode.selectTag "y" a) = StudyMode.Studying Sample.B.
Proof.
  intros a.
  rewrite (proj2 (proj2 (tag_change_shows_first_card "y" a ltac:(discriminate)))).
  reflexivity.
Defined.



(** ** The analytics view *)

Module AnalyticsFacts.
Import Js Card.

Local Abbreviation statOf tag acc :=
  (option_map snd
     (List.find (fun kv : string * Analytics.TagStat => String.eqb tag (fst kv))
        acc)).

Local Abbreviation zero :=
  {| Analytics.total := 0; Analytics.masteredOfTag := 0; Analytics.reviews := 0 |}.

Local Abbreviation bump card s :=
  {| Analytics.total := Analytics.total s + 1;
     Analytics.masteredOfTag :=
       if mastered card then Analytics.masteredOfTag s + 1
       else Analytics.masteredOfTag s;
     Analytics.reviews := Analytics.reviews s + reviewCount card |}.

Local Abbreviation orZero o :=
  (match o with Some s => s | None => zero end).

Lemma find_setProp {A : Type} (k k' : string) (v : A) (acc : list (string * A)) :
  option_map snd (List.find (fun kv => String.eqb k' (fst kv)) (setProp k v acc))
  = if String.eqb k' k then Some v
    else option_map snd (List.find (fun kv => String.eqb k' (fst kv)) acc).
Proof.
  induction acc as [| [k0 v0] r IH]; cbn [setProp List.find fst].
  - destruct (String.eqb k' k); reflexivity.
  - destruct (String.eqb_spec k k0) as [<- | Hk]; cbn [List.find fst].
    + destruct (String.eqb k' k); reflexivity.
    + destruct (String.eqb_spec k' k0) as [-> | Hk0].
      * destruct (String.eqb_spec k0 k) as [He | _]; [| reflexivity].
        exfalso. apply Hk. symmetry. exact He.
      * exact IH.
Qed.

Lemma countTag_stat (card : Flashcard) (acc : list (string * Analytics.TagStat))
    (tag tag' : string) :
  statOf tag (Analytics.countTag card acc tag')
  = if String.eqb tag tag' && negb (inheritedName tag')
    then Some (bump card (orZero (statOf tag' acc)))
    else statOf tag acc.
Proof.
  unfold Analytics.countTag.
  destruct (inheritedName tag'); [rewrite andb_false_r; reflexivity |].
  rewrite find_setProp, andb_true_r.
  destruct (String.eqb tag tag'); [| reflexivity].
  destruct (List.find _ acc) as [kv |]; reflexivity.
Qed.

(** The tags of one card, each counted once. *)
Lemma card_stat (card : Flashcard) (tag : string) (ts : list string) :
  NoDup ts ->
  forall acc : list (string * Analytics.TagStat),
    statOf tag (fold_left (Analytics.countTag card) ts acc)
    = if StudyMode.includes tag ts && negb (inheritedName tag)
      then Some (bump card (orZero (statOf tag acc)))
      else statOf tag acc.
Proof.
  induction ts as [| t r IH]; intros Hnd acc; [reflexivity |].
  apply NoDup_cons in Hnd as [Ht Hr]. cbn [fold_left].
  rewrite (IH Hr). unfold StudyMode.includes. cbn [existsb].
  fold (StudyMode.includes tag r). rewrite countTag_stat.
  destruct (String.eqb_spec tag t) as [-> | Hne]; cbn [andb orb].
  - assert (Hr' : StudyMode.includes t r = false).
    { destruct (StudyMode.includes t r) eqn:Hin; [| reflexivity].
      exfalso. apply Ht. rewrite ViewFacts.includes_elem_of in Hin.
      apply bool_decide_eq_true in Hin. exact Hin. }
    rewrite Hr'. cbn [andb]. destruct (inheritedName t); reflexivity.
  - reflexivity.
Qed.

Lemma cards_stat (tag : string) (cards : list Flashcard) :
  Forall (fun card => NoDup (tags card)) cards ->
  forall acc : list (string * Analytics.TagStat),
    statOf tag
      (fold_left (fun acc card =>
                    fold_left (Analytics.countTag card) (tags card) acc)
         cards acc)
    = fold_left (fun o card =>
                   if StudyMode.includes tag (tags card)
                      && negb (inheritedName tag)
                   then Some (bump card (orZero o)) else o)
        cards (statOf tag acc).
Proof.
  intros Hcards. induction Hcards as [| card r Hc _ IH]; intros acc;
    [reflexivity |].
  cbn [fold_left]. rewrite IH, (card_stat card tag (tags card) Hc). reflexivity.
Qed.

Lemma totalReviews_from (cards : list Flashcard) (n : Z) :
  fold_left (fun sum card => sum + reviewCount card) cards n
  = n + Analytics.totalReviews cards.
Proof.
  unfold Analytics.totalReviews. revert n.
  induction cards as [| c r IH]; intros n; cbn [fold_left]; [lia |].
  rewrite (IH (n + reviewCount c)), (IH (0 + reviewCount c)). lia.
Qed.

Lemma totalReviews_cons (c : Flashcard) (cards : list Flashcard) :
  Analytics.totalReviews (c :: cards)
  = reviewCount c + Analytics.totalReviews cards.
Proof.
  unfold Analytics.totalReviews at 1. cbn [fold_left].
  rewrite totalReviews_from. lia.
Qed.

Lemma masteredCards_cons (c : Flashcard) (cards : list Flashcard) :
  Analytics.masteredCards (c :: cards)
  = (if mastered c then 1 else 0) + Analytics.masteredCards cards.
Proof.
  unfold Analytics.masteredCards. cbn [List.filter].
  destruct (mastered c); cbn [length]; lia.
Qed.

Lemma reviewedCards_cons (c : Flashcard) (cards : list Flashcard) :
  Analytics.reviewedCards (c :: cards)
  = (if 0 <? reviewCount c then 1 else 0) + Analytics.reviewedCards cards.
Proof.
  unfold Analytics.reviewedCards. cbn [List.filter].
  destruct (0 <? reviewCount c); cbn [length]; lia.
Qed.

(** The figures of the cards that carry the tag, added to [s]. *)
Lemma fold_stat (tag : string) (cards : list Flashcard) :
  inheritedName tag = false ->
  forall o : option Analytics.TagStat,
    fold_left (fun o card =>
                 if StudyMode.includes tag (tags card)
                    && negb (inheritedName tag)
                 then Some (bump card (orZero o)) else o)
      cards o
    = match List.filter (fun card => StudyMode.includes tag (tags card)) cards with
      | [] => o
      | (_ :: _) as v =>
          Some {| Analytics.total :=
                    Analytics.total (orZero o) + Analytics.totalCards v;
                  Analytics.masteredOfTag :=
                    Analytics.masteredOfTag (orZero o) + Analytics.masteredCards v;
                  Analytics.reviews :=
                    Analytics.reviews (orZero o) + Analytics.totalReviews v |}
      end.
Proof.
  intros Hinh. rewrite Hinh. cbn [negb].
  induction cards as [| c r IH]; intros o; [reflexivity |].
  cbn [fold_left List.filter]. rewrite IH.
  destruct (StudyMode.includes tag (tags c)); cbn [andb]; [| reflexivity].
  destruct (List.filter _ r) as [| x v] eqn:Hv.
  - f_equal. unfold Analytics.totalCards.
    rewrite masteredCards_cons, totalReviews_cons.
    change (Analytics.masteredCards []) with 0.
    change (Analytics.totalReviews []) with 0. cbn [length].
    destruct (mastered c); f_equal; lia.
  - f_equal. unfold Analytics.totalCards.
    rewrite (masteredCards_cons c), (totalReviews_cons c).
    cbn [Analytics.total Analytics.masteredOfTag Analytics.reviews length].
    destruct (mastered c); f_equal; lia.
Qed.

Lemma figures_ordered (cards : list Flashcard) :
  Forall Events.consistent cards ->
  Analytics.masteredCards cards <= Analytics.reviewedCards cards
  /\ Analytics.reviewedCards cards <= Analytics.totalCards cards
  /\ Analytics.reviewedCards cards <= Analytics.totalReviews cards.
Proof.
  intros Hcards. induction Hcards as [| c r (Hm & Hn & _) _ IH].
  - unfold Analytics.masteredCards, Analytics.reviewedCards,
      Analytics.totalCards, Analytics.totalReviews. cbn. lia.
  - rewrite masteredCards_cons, reviewedCards_cons, totalReviews_cons.
    unfold Analytics.totalCards in *. cbn [length].
    assert (Hodd : mastered c = true -> 0 < reviewCount c).
    { intros Ht. rewrite Hm in Ht.
      destruct (Z.eq_dec (reviewCount c) 0) as [Hz | Hz]; [| lia].
      rewrite Hz in Ht. discriminate Ht. }
    destruct (mastered c); [specialize (Hodd eq_refl) |];
      destruct (Z.ltb_spec 0 (reviewCount c)); lia.
Qed.

End AnalyticsFacts.

(** The statistics of a tag are the figures of the cards that carry
    it: when no card lists a tag twice, the entry of [tagStats] under a
    tag holds the number of the cards with that tag, the number of
    mastered cards among them and the sum of their review counts; a
    tag that no card carries has no entry. A tag named like a member
    of [Object.prototype] never has an entry, whatever the cards. *)
Theorem tagStats_are_the_figures_of_the_tag (cards : list Flashcard)
    (tag : string) :
  Forall (fun card => NoDup (tags card)) cards ->
  option_map snd
    (List.find (fun kv => String.eqb tag (fst kv)) (Analytics.tagStats cards))
  = if Js.inheritedName tag then None
    else
      match List.filter (fun card => StudyMode.includes tag (tags card)) cards with
      | [] => None
      | (_ :: _) as v =>
          Some {| Analytics.total := Analytics.totalCards v;
                  Analytics.masteredOfTag := Analytics.masteredCards v;
                  Analytics.reviews := Analytics.totalReviews v |}
      end.
Proof.
  intros Hcards. unfold Analytics.tagStats.
  rewrite (AnalyticsFacts.cards_stat tag cards Hcards []).
  cbn [List.find option_map].
  pose proof (AnalyticsFacts.fold_stat tag cards) as Hfold.
  destruct (Js.inheritedName tag).
  - clear Hfold Hcards. induction cards as [| c r IH]; [reflexivity |].
    cbn [fold_left negb]. rewrite andb_false_r. exact IH.
  - rewrite (Hfold eq_refl None).
    destruct (List.filter _ cards) as [| x v]; reflexivity.
Qed.

Lemma tagStats_are_the_figures_of_the_tag_witness :
  let cards := [Sample.card "1" ["x"; "toString"] true 3;
                Sample.card "2" ["y"] false 0;
                Sample.card "3" ["y"; "x"] false 2] in
  option_map snd
    (List.find (fun kv => String.eqb "x" (fst kv)) (Analytics.tagStats cards))
  = Some {| Analytics.total := 2; Analytics.masteredOfTag := 1;
            Analytics.reviews := 5 |}.
Proof.
  intros cards.
  rewrite (tagStats_are_the_figures_of_the_tag cards "x"); [reflexivity |].
  repeat constructor; rewrite ?list_elem_of_In; cbn; intuition discriminate.
Defined.



(** ** The mount effect of Index, and the tag field *)

Module TrimFacts.

Lemma trimStart_head (s : string) :
  match CreateFlashcard.trimStart s with
  | EmptyString => True
  | String c _ => CreateFlashcard.isWhiteSpace c = false
  end.
Proof.
  induction s as [| c r IH]; cbn [CreateFlashcard.trimStart]; [exact I |].
  destruct (CreateFlashcard.isWhiteSpace c) eqn:Hc; [exact IH | exact Hc].
Qed.

Lemma trimStart_fixed (s : string) :
  match s with
  | EmptyString => True
  | String c _ => CreateFlashcard.isWhiteSpace c = false
  end ->
  CreateFlashcard.trimStart s = s.
Proof.
  destruct s as [| c r]; cbn [CreateFlashcard.trimStart]; [reflexivity |].
  intros ->. reflexivity.
Qed.

Lemma trimEnd_head (s : string) :
  match s with
  | EmptyString => True
  | String c _ => CreateFlashcard.isWhiteSpace c = false
  end ->
  match CreateFlashcard.trimEnd s with
  | EmptyString => True
  | String c _ => CreateFlashcard.isWhiteSpace c = false
  end.
Proof.
  destruct s as [| c r]; cbn [CreateFlashcard.trimEnd]; [auto |].
  intros Hc. rewrite Hc. cbn [andb]. exact Hc.
Qed.

Lemma trimEnd_idem (s : string) :
  CreateFlashcard.trimEnd (CreateFlashcard.trimEnd s) = CreateFlashcard.trimEnd s.
Proof.
  induction s as [| c r IH]; [reflexivity |]. cbn [CreateFlashcard.trimEnd].
  destruct (CreateFlashcard.isWhiteSpace c
            && (CreateFlashcard.trimEnd r =? EmptyString)%string) eqn:Hc;
    [reflexivity |].
  cbn [CreateFlashcard.trimEnd]. rewrite IH, Hc. reflexivity.
Qed.

(** Trimming what is trimmed changes nothing. *)
Lemma trim_idem (s : string) :
  CreateFlashcard.trim (CreateFlashcard.trim s) = CreateFlashcard.trim s.
Proof.
  unfold CreateFlashcard.trim.
  rewrite (trimStart_fixed (CreateFlashcard.trimEnd (CreateFlashcard.trimStart s)))
    by (apply trimEnd_head, trimStart_head).
  apply trimEnd_idem.
Qed.

End TrimFacts.

(** After the mount effect of Index no card carries a string or null
    in place of its review date: the date is absent or a Date. The
    other fields are untouched, and running the effect once more
    changes nothing. *)
Theorem parseDates_leaves_dates (a : App.t) :
  Forall (fun card => match lastReviewed card with
                      | Absent | ADate _ => True
                      | AString _ | ANull => False
                      end)
    (flashcards (Index.parseDates a))
  /\ map (fun card => (id card, question card, answer card, tags card,
                       mastered card, reviewCount card))
       (flashcards (Index.parseDates a))
     = map (fun card => (id card, question card, answer card, tags card,
                         mastered card, reviewCount card))
         (flashcards a)
  /\ flashcards (Index.parseDates (Index.parseDates a))
     = flashcards (Index.parseDates a).
Proof.
  unfold Index.parseDates.
  rewrite !(proj1 (StateFacts.setFlashcards_apply _ _)).
  split; [| split].
  - apply List.Forall_map. apply List.Forall_forall. intros card _.
    cbn [with_lastReviewed reviewed lastReviewed].
    destruct (lastReviewed card) as [| tv | s |]; cbn [Index.parseDate];
      try exact I.
    destruct (s =? EmptyString)%string; exact I.
  - rewrite map_map. apply map_ext. intros card. reflexivity.
  - rewrite map_map. apply map_ext. intros card.
    unfold with_lastReviewed, reviewed.
    cbn [id question answer tags mastered reviewCount lastReviewed].
    f_equal.
    destruct (lastReviewed card) as [| tv | s |]; cbn [Index.parseDate];
      try reflexivity.
    destruct (s =? EmptyString)%string; reflexivity.
Qed.

(** The tags that reach a card through the tag field are trimmed and
    not empty: when the suggestions clicked are, so is every tag of
    the form after any sequence of edits. *)
Theorem typed_tags_are_trimmed (edits : list CreateFlashcard.Edit) :
  Forall (fun e => match e with
                   | CreateFlashcard.SuggestionClick tag =>
                       CreateFlashcard.trim tag = tag /\ tag <> EmptyString
                   | _ => True
                   end) edits ->
  Forall (fun tag => CreateFlashcard.trim tag = tag /\ tag <> EmptyString)
    (CreateFlashcard.tags
       (fold_left CreateFlashcard.edit edits CreateFlashcard.blank)).
Proof.
  assert (Hgen : forall f : CreateFlashcard.Form,
            Forall (fun e => match e with
                             | CreateFlashcard.SuggestionClick tag =>
                                 CreateFlashcard.trim tag = tag
                                 /\ tag <> EmptyString
                             | _ => True
                             end) edits ->
            Forall (fun tag => CreateFlashcard.trim tag = tag
                               /\ tag <> EmptyString)
              (CreateFlashcard.tags f) ->
            Forall (fun tag => CreateFlashcard.trim tag = tag
                               /\ tag <> EmptyString)
              (CreateFlashcard.tags (fold_left CreateFlashcard.edit edits f))).
  { induction edits as [| e r IH]; intros f Hedits Hf; [exact Hf |].
    cbn [fold_left]. apply IH; [exact (Forall_inv_tail Hedits) |].
    apply Forall_inv in Hedits.
    destruct e as [s | s | s | | tag | tag]; cbn [CreateFlashcard.edit];
      try exact Hf.
    - unfold CreateFlashcard.handleAddTag.
      destruct (String.eqb_spec (CreateFlashcard.trim (CreateFlashcard.newTag f))
                  EmptyString) as [_ | Hne]; cbn [negb andb]; [exact Hf |].
      destruct (negb _); [| exact Hf]. cbn [CreateFlashcard.tags].
      apply Forall_app. split; [exact Hf |].
      constructor; [| constructor].
      split; [apply TrimFacts.trim_idem | exact Hne].
    - cbn [CreateFlashcard.handleRemoveTag CreateFlashcard.tags].
      apply List.Forall_forall. intros t Ht.
      apply List.filter_In in Ht as [Ht _].
      revert t Ht. apply List.Forall_forall. exact Hf.
    - unfold CreateFlashcard.handleTagSuggestionClick.
      destruct (negb _); [| exact Hf]. cbn [CreateFlashcard.tags].
      apply Forall_app. split; [exact Hf |].
      constructor; [exact Hedits | constructor]. }
  intros Hedits. apply Hgen; [exact Hedits | constructor].
Qed.

Lemma typed_tags_are_trimmed_witness :
  Forall (fun tag => CreateFlashcard.trim tag = tag /\ tag <> EmptyString)
    (CreateFlashcard.tags
       (fold_left CreateFlashcard.edit
          [CreateFlashcard.TypeTag "  geo "; CreateFlashcard.AddTag;
           CreateFlashcard.TypeTag "   "; CreateFlashcard.AddTag;
           CreateFlashcard.SuggestionClick "math";
           CreateFlashcard.RemoveTag "geo";
           CreateFlashcard.TypeTag "big  data"; CreateFlashcard.AddTag]
          CreateFlashcard.blank)).
Proof.
  apply typed_tags_are_trimmed.
  repeat constructor. discriminate.
Defined.
